(** * Voice-booking orchestration of the barbershop site: model and properties

    A shallow embedding of the parts of the repository that decide how a
    voice session books, re-checks and logs appointments:

    - [services/bookingManager.ts]    slot grid, [isSlotAvailable],
                                      [getFreeSlots], [findNextAvailableSlot];
    - [services/appointmentService.ts] the appointment collection;
    - [hooks/useConversation.ts]      the booking draft and its step;
    - [VoiceAgentHybrid.tsx]          the silence timer of the turn controller;
    - [components/VoiceAgent.tsx]     tool calls, caches, reconnects, logging.

    Instants are epoch milliseconds in [Z]; an invalid JavaScript [Date] is
    [None].  Time zones are fixed offsets in minutes east of UTC. *)

From Stdlib Require Import ZArith String Ascii List Bool Lia DecimalString.
From stdpp Require Import gmap strings.
Import ListNotations.

Local Open Scope string_scope.
Local Open Scope Z_scope.

(* ===================================================================== *)
(** * The JavaScript runtime pieces the code relies on                    *)
(* ===================================================================== *)

Module JsDate.

Definition MS_PER_MINUTE : Z := 60000.
Definition MS_PER_HOUR : Z := 3600000.
Definition MS_PER_DAY : Z := 86400000.

(** Proleptic Gregorian calendar, days counted from 1970-01-01. *)
Definition daysFromCivil (y m d : Z) : Z :=
  let y' := if m <=? 2 then y - 1 else y in
  let era := y' / 400 in
  let yoe := y' - era * 400 in
  let mp := (m + 9) mod 12 in
  let doy := (153 * mp + 2) / 5 + d - 1 in
  let doe := yoe * 365 + yoe / 4 - yoe / 100 + doy in
  era * 146097 + doe - 719468.

Definition civilFromDays (z : Z) : Z * Z * Z :=
  let z' := z + 719468 in
  let era := z' / 146097 in
  let doe := z' - era * 146097 in
  let yoe := (doe - doe / 1460 + doe / 36524 - doe / 146096) / 365 in
  let doy := doe - (365 * yoe + yoe / 4 - yoe / 100) in
  let mp := (5 * doy + 2) / 153 in
  let d := doy - (153 * mp + 2) / 5 + 1 in
  let m := if mp <? 10 then mp + 3 else mp - 9 in
  let y := yoe + era * 400 in
  (if m <=? 2 then y + 1 else y, m, d).

Definition isLeap (y : Z) : bool :=
  ((y mod 4 =? 0) && negb (y mod 100 =? 0)) || (y mod 400 =? 0).

Definition daysInMonth (y m : Z) : Z :=
  if m =? 2 then (if isLeap y then 29 else 28)
  else if (m =? 4) || (m =? 6) || (m =? 9) || (m =? 11) then 30 else 31.

(** ** Reading digits and writing them back *)

Definition digit (c : ascii) : option Z :=
  let n := Z.of_N (N_of_ascii c) in
  if (48 <=? n) && (n <=? 57) then Some (n - 48) else None.

Fixpoint digitsFrom (acc : Z) (cs : list ascii) : option Z :=
  match cs with
  | [] => Some acc
  | c :: cs' =>
      match digit c with
      | Some d => digitsFrom (acc * 10 + d) cs'
      | None => None
      end
  end.

Definition digitChar (d : Z) : ascii := ascii_of_N (Z.to_N (48 + d mod 10)).

Definition pad2 (n : Z) : string :=
  String (digitChar (n / 10)) (String (digitChar n) EmptyString).

Definition pad3 (n : Z) : string :=
  String (digitChar (n / 100)) (pad2 (n mod 100)).

Definition pad4 (n : Z) : string :=
  String (digitChar (n / 1000)) (pad3 (n mod 1000)).

(** [Number(s)] on the strings the code feeds it: runs of decimal digits.
    The empty string is 0; anything else is NaN, written [None]. *)
Definition jsNumber (s : string) : option Z :=
  digitsFrom 0 (list_ascii_of_string s).

(** [s.split(':')]. *)
Fixpoint splitColonAux (cur : list ascii) (cs : list ascii) : list string :=
  match cs with
  | [] => [string_of_list_ascii (rev cur)]
  | c :: cs' =>
      if Ascii.eqb c ":"%char
      then string_of_list_ascii (rev cur) :: splitColonAux [] cs'
      else splitColonAux (c :: cur) cs'
  end.

Definition splitColon (s : string) : list string :=
  splitColonAux [] (list_ascii_of_string s).

(** ** Parsing

    [new Date(s)] for the two ISO shapes the code builds:
    ["YYYY-MM-DD"] is UTC midnight, ["YYYY-MM-DDTHH:mm"] is local time,
    and the output of [toISOString], ["YYYY-MM-DDTHH:mm:ss.sssZ"], is UTC.
    On these shapes, with a day that exists, [parse] is what the engines
    compute.  Every other string gives [None] here, while an engine reads
    more of them (seconds without milliseconds, an offset, hour 24, a day
    past the end of the month, which rolls over): the model is meant for
    the strings the code builds and stores, and for texts without any
    digit, which no engine reads as a date. *)

Definition validYMD (y m d : Z) : bool :=
  (1 <=? m) && (m <=? 12) && (1 <=? d) && (d <=? daysInMonth y m).

Definition parseYMD (cs : list ascii) : option Z :=
  match cs with
  | [y1; y2; y3; y4; s1; m1; m2; s2; d1; d2] =>
      if Ascii.eqb s1 "-"%char && Ascii.eqb s2 "-"%char then
        match digitsFrom 0 [y1; y2; y3; y4],
              digitsFrom 0 [m1; m2], digitsFrom 0 [d1; d2] with
        | Some y, Some m, Some d =>
            if validYMD y m d then Some (daysFromCivil y m d) else None
        | _, _, _ => None
        end
      else None
  | _ => None
  end.

Definition parseHM (cs : list ascii) : option Z :=
  match cs with
  | [h1; h2; s; n1; n2] =>
      if Ascii.eqb s ":"%char then
        match digitsFrom 0 [h1; h2], digitsFrom 0 [n1; n2] with
        | Some h, Some n =>
            if (h <=? 23) && (n <=? 59)
            then Some (h * MS_PER_HOUR + n * MS_PER_MINUTE) else None
        | _, _ => None
        end
      else None
  | _ => None
  end.

Definition parseSecMs (cs : list ascii) : option Z :=
  match cs with
  | [c; s1; s2; p; f1; f2; f3; z] =>
      if Ascii.eqb c ":"%char && Ascii.eqb p "."%char && Ascii.eqb z "Z"%char
      then
        match digitsFrom 0 [s1; s2], digitsFrom 0 [f1; f2; f3] with
        | Some s, Some f => if s <=? 59 then Some (s * 1000 + f) else None
        | _, _ => None
        end
      else None
  | _ => None
  end.

(** [tz] is the offset of the local zone, minutes east of UTC. *)
Definition parse (tz : Z) (s : string) : option Z :=
  let cs := list_ascii_of_string s in
  let ymd := firstn 10 cs in
  let rest := skipn 10 cs in
  match parseYMD ymd with
  | None => None
  | Some days =>
      match rest with
      | [] => Some (days * MS_PER_DAY)
      | t :: rest' =>
          if Ascii.eqb t "T"%char then
            match parseHM (firstn 5 rest') with
            | None => None
            | Some hm =>
                match skipn 5 rest' with
                | [] => Some (days * MS_PER_DAY + hm - tz * MS_PER_MINUTE)
                | tail =>
                    match parseSecMs tail with
                    | Some sm => Some (days * MS_PER_DAY + hm + sm)
                    | None => None
                    end
                end
            end
          else None
      end
  end.

(** ** Calendar fields of an instant in a zone *)

Definition zoned (tz : Z) (t : Z) : Z := t + tz * MS_PER_MINUTE.

Definition dayOf (tz : Z) (t : Z) : Z := zoned tz t / MS_PER_DAY.
Definition msOfDay (tz : Z) (t : Z) : Z := zoned tz t mod MS_PER_DAY.

Definition getFullYear (tz t : Z) : Z := fst (fst (civilFromDays (dayOf tz t))).
(** [getMonth] counts from 0. *)
Definition getMonth (tz t : Z) : Z := snd (fst (civilFromDays (dayOf tz t))) - 1.
Definition getDate (tz t : Z) : Z := snd (civilFromDays (dayOf tz t)).
Definition getHours (tz t : Z) : Z := msOfDay tz t / MS_PER_HOUR.
Definition getMinutes (tz t : Z) : Z := (msOfDay tz t / MS_PER_MINUTE) mod 60.

(** [d.setHours(h, m, 0, 0)] in the local zone. *)
Definition setHours (tz t h m : Z) : Z :=
  dayOf tz t * MS_PER_DAY + h * MS_PER_HOUR + m * MS_PER_MINUTE
  - tz * MS_PER_MINUTE.

(** [d.setDate(n)] in the local zone: day [n] of the month of [d], the
    time of day kept; [n] may run past the end of the month. *)
Definition setDate (tz t n : Z) : Z :=
  let '(y, m, _) := civilFromDays (dayOf tz t) in
  (daysFromCivil y m 1 + (n - 1)) * MS_PER_DAY + msOfDay tz t
  - tz * MS_PER_MINUTE.

(** [d.toLocaleDateString('en-CA', { timeZone })]: ["YYYY-MM-DD"]. *)
Definition toLocaleDateStringCA (tz t : Z) : string :=
  let '(y, m, d) := civilFromDays (dayOf tz t) in
  pad4 y ++ "-" ++ pad2 m ++ "-" ++ pad2 d.

(** [d.toISOString()], for years 0..9999; [None] stands for the
    [RangeError] raised on an invalid date. *)
Definition toISOString (d : option Z) : option string :=
  match d with
  | None => None
  | Some t =>
      let '(y, m, dd) := civilFromDays (dayOf 0 t) in
      let ms := msOfDay 0 t in
      Some (pad4 y ++ "-" ++ pad2 m ++ "-" ++ pad2 dd ++ "T"
            ++ pad2 (ms / MS_PER_HOUR) ++ ":"
            ++ pad2 ((ms / MS_PER_MINUTE) mod 60) ++ ":"
            ++ pad2 ((ms / 1000) mod 60) ++ "."
            ++ pad3 (ms mod 1000) ++ "Z")
  end.

(** [a === b] on numbers that may be NaN. *)
Definition numEq (a b : option Z) : bool :=
  match a, b with
  | Some x, Some y => x =? y
  | _, _ => false
  end.

End JsDate.

Module JsString.

(** A JavaScript string is a sequence of UTF-16 code units.  The model
    keeps a text as its UTF-8 bytes, as the source files do, and reads
    the characters back where the code counts or classifies them.  A
    byte that begins no well-formed sequence stands for one character
    (U+FFFD). *)

Definition continuation (b : N) : bool := ((128 <=? b) && (b <? 192))%N.

Fixpoint decode (bytes : list N) : list N :=
  match bytes with
  | [] => []
  | b0 :: rest =>
      if (b0 <? 128)%N then b0 :: decode rest
      else if (b0 <? 192)%N then 65533%N :: decode rest
      else if (b0 <? 224)%N then
        match rest with
        | b1 :: rest1 =>
            if continuation b1
            then ((b0 - 192) * 64 + (b1 - 128))%N :: decode rest1
            else 65533%N :: decode rest
        | [] => [65533%N]
        end
      else if (b0 <? 240)%N then
        match rest with
        | b1 :: b2 :: rest2 =>
            if continuation b1 && continuation b2
            then ((b0 - 224) * 4096 + (b1 - 128) * 64 + (b2 - 128))%N
                 :: decode rest2
            else 65533%N :: decode rest
        | _ => 65533%N :: decode rest
        end
      else if (b0 <? 248)%N then
        match rest with
        | b1 :: b2 :: b3 :: rest3 =>
            if continuation b1 && continuation b2 && continuation b3
            then ((b0 - 240) * 262144 + (b1 - 128) * 4096 + (b2 - 128) * 64
                  + (b3 - 128))%N :: decode rest3
            else 65533%N :: decode rest
        | _ => 65533%N :: decode rest
        end
      else 65533%N :: decode rest
  end.

(** The characters of a text, as code points. *)
Definition codePoints (s : string) : list N :=
  decode (map N_of_ascii (list_ascii_of_string s)).

(** The code units a character takes: two beyond the basic plane. *)
Definition units (codePoint : N) : nat :=
  if (codePoint <? 65536)%N then 1%nat else 2%nat.

(** [s.length]. *)
Definition length (s : string) : nat :=
  fold_right (fun codePoint n => (units codePoint + n)%nat) O (codePoints s).

(** White space and line terminators, which [trim] removes. *)
Definition isWhiteSpace (codePoint : N) : bool :=
  ((9 <=? codePoint) && (codePoint <=? 13)
   || (codePoint =? 32) || (codePoint =? 160) || (codePoint =? 5760)
   || (8192 <=? codePoint) && (codePoint <=? 8202)
   || (codePoint =? 8232) || (codePoint =? 8233) || (codePoint =? 8239)
   || (codePoint =? 8287) || (codePoint =? 12288) || (codePoint =? 65279))%N.

(** [!s.trim()]: nothing but white space. *)
Definition blank (s : string) : bool := forallb isWhiteSpace (codePoints s).

(** A character written back as bytes. *)
Definition encode (codePoint : N) : list N :=
  (if codePoint <? 128 then [codePoint]
   else if codePoint <? 2048
   then [192 + codePoint / 64; 128 + codePoint mod 64]
   else if codePoint <? 65536
   then [224 + codePoint / 4096; 128 + (codePoint / 64) mod 64;
         128 + codePoint mod 64]
   else [240 + codePoint / 262144; 128 + (codePoint / 4096) mod 64;
         128 + (codePoint / 64) mod 64; 128 + codePoint mod 64])%N.

(** The lower-case letter of a capital of the Latin and Cyrillic
    alphabets: A-Z, the capitals of Latin-1, U+0400-U+042F. *)
Definition lower (codePoint : N) : N :=
  (if (65 <=? codePoint) && (codePoint <=? 90) then codePoint + 32
   else if (192 <=? codePoint) && (codePoint <=? 222)
           && negb (codePoint =? 215) then codePoint + 32
   else if (1024 <=? codePoint) && (codePoint <=? 1039) then codePoint + 80
   else if (1040 <=? codePoint) && (codePoint <=? 1071) then codePoint + 32
   else codePoint)%N.

(** [s.toLowerCase()], for texts in these alphabets. *)
Definition toLowerCase (s : string) : string :=
  string_of_list_ascii
    (map ascii_of_N (flat_map (fun c => encode (lower c)) (codePoints s))).

Arguments length : simpl never.
Arguments blank : simpl never.

End JsString.

(* ===================================================================== *)
(** * types.ts                                                            *)
(* ===================================================================== *)

Inductive Status := pending | confirmed | completed | cancelled.

Definition Status_eqb (a b : Status) : bool :=
  match a, b with
  | pending, pending | confirmed, confirmed
  | completed, completed | cancelled, cancelled => true
  | _, _ => false
  end.

Module Appointment.
Record t := mk {
  id : string;
  customerName : string;
  customerEmail : string;
  serviceId : string;
  barberId : string;
  date : string;            (* ISO string *)
  status : Status
}.
End Appointment.

Module Barber.
Record t := mk {
  id : string; name : string; nameBg : string;
  specialty : string; specialtyBg : string }.
End Barber.

Inductive Price := Amount (n : Z) | Label (s : string).

Module Service.
Record t := mk {
  id : string; name : string; nameBg : string;
  price : Price; duration : Z }.
End Service.

(** [TIME_SLOTS] of constants.ts. *)
Definition TIME_SLOTS : list string :=
  ["10:00"; "11:00"; "12:00"; "13:00"; "14:00"; "15:00"; "16:00"; "17:00";
   "18:00"].

(** A value of type [string | undefined] is truthy when it is a non-empty
    string. *)
Definition truthy (o : option string) : bool :=
  match o with
  | Some s => negb (String.eqb s "")
  | None => false
  end.

(** [a || b] on strings. *)
Definition orElse (a b : string) : string :=
  if String.eqb a "" then b else a.

(** [xs.includes(x)] on strings. *)
Definition includes (xs : list string) (x : string) : bool :=
  existsb (String.eqb x) xs.

(** The first result a loop body returns. *)
Fixpoint firstSome {A B : Type} (f : A -> option B) (l : list A) : option B :=
  match l with
  | [] => None
  | x :: l' => match f x with Some y => Some y | None => firstSome f l' end
  end.

(* ===================================================================== *)
(** * services/bookingManager.ts                                          *)
(* ===================================================================== *)

(** The appointments of a list that were not cancelled. *)
Definition notCancelled (apt : Appointment.t) : bool :=
  negb (Status_eqb (Appointment.status apt) cancelled).

Definition live (appointments : list Appointment.t) : list Appointment.t :=
  List.filter notCancelled appointments.

Module BookingManager.

Section Zone.
(** The offset of the zone the browser runs in. *)
Variable tz : Z.

(** The appointment [apt] sits on the slot that starts at [targetDate]:
    the callback of [appointments.some] in [isSlotAvailable]. *)
Definition occupies (barberId : string) (targetDate : option Z)
           (apt : Appointment.t) : bool :=
  if negb (String.eqb (Appointment.barberId apt) barberId)
     || Status_eqb (Appointment.status apt) cancelled
  then false
  else
    let aptDate := JsDate.parse tz (Appointment.date apt) in
    let field (get : Z -> Z -> Z) (d : option Z) := option_map (get tz) d in
    let sameDay :=
      JsDate.numEq (field JsDate.getDate aptDate)
                   (field JsDate.getDate targetDate)
      && JsDate.numEq (field JsDate.getMonth aptDate)
                      (field JsDate.getMonth targetDate)
      && JsDate.numEq (field JsDate.getFullYear aptDate)
                      (field JsDate.getFullYear targetDate) in
    if negb sameDay then false
    else JsDate.numEq (field JsDate.getHours aptDate)
                      (field JsDate.getHours targetDate)
         && JsDate.numEq (field JsDate.getMinutes aptDate)
                         (field JsDate.getMinutes targetDate).

Definition isSlotAvailable (time dateToCheck barberId : string)
           (appointments : list Appointment.t) : bool :=
  if String.eqb dateToCheck "" || String.eqb barberId "" then true
  else
    let targetDate := JsDate.parse tz (dateToCheck ++ "T" ++ time) in
    let conflict := existsb (occupies barberId targetDate) appointments in
    negb conflict.

(** [apt] is booked with [barberId] for the minute at which the slot
    [time] of [dateToCheck] starts, whatever its status. *)
Definition sameMinute (a b : option Z) : bool :=
  let field (get : Z -> Z -> Z) (d : option Z) := option_map (get tz) d in
  JsDate.numEq (field JsDate.getDate a) (field JsDate.getDate b)
  && JsDate.numEq (field JsDate.getMonth a) (field JsDate.getMonth b)
  && JsDate.numEq (field JsDate.getFullYear a) (field JsDate.getFullYear b)
  && JsDate.numEq (field JsDate.getHours a) (field JsDate.getHours b)
  && JsDate.numEq (field JsDate.getMinutes a) (field JsDate.getMinutes b).

Definition bookedOn (time dateToCheck barberId : string)
           (apt : Appointment.t) : bool :=
  String.eqb (Appointment.barberId apt) barberId
  && sameMinute (JsDate.parse tz (Appointment.date apt))
                (JsDate.parse tz (dateToCheck ++ "T" ++ time)).

Definition getFreeSlots (date barberId : string)
           (appointments : list Appointment.t) : list string :=
  List.filter (fun slot => isSlotAvailable slot date barberId appointments)
         TIME_SLOTS.

Record Found := mkFound {
  found_date : string; found_time : string; found_barberId : string }.

(** [now] is the instant read by [new Date()], [sofia] the offset of
    Europe/Sofia at that instant.  The hour is read as 0..23. *)
Definition findSlotForBarber (now sofia : Z) (barberId : string)
           (appointments : list Appointment.t) (startDate : Z)
  : option Found :=
  let currentDayStr := JsDate.toLocaleDateStringCA sofia now in
  let currentHour := JsDate.getHours sofia now in
  firstSome (fun i =>
    let nextDate := JsDate.setDate tz startDate
                      (JsDate.getDate tz startDate + i) in
    let dateStr := JsDate.toLocaleDateStringCA sofia nextDate in
    firstSome (fun slot =>
      let skip :=
        String.eqb dateStr currentDayStr
        && match option_map JsDate.jsNumber (head (JsDate.splitColon slot)) with
           | Some (Some slotHour) => slotHour <=? currentHour
           | _ => false
           end in
      if skip then None
      else if isSlotAvailable slot dateStr barberId appointments
           then Some (mkFound dateStr slot barberId)
           else None) TIME_SLOTS)
    (map Z.of_nat (seq 0 30)).

(** [a < b] on dates; false as soon as one is invalid. *)
Definition dateLt (a b : option Z) : bool :=
  match a, b with
  | Some x, Some y => x <? y
  | _, _ => false
  end.

Definition slotInstant (f : Found) : option Z :=
  JsDate.parse tz (found_date f ++ "T" ++ found_time f).

Definition findNextAvailableSlot (now sofia : Z)
           (appointments : list Appointment.t) (barbers : list Barber.t)
           (barberId : option string) (startDate : Z) : option Found :=
  if truthy barberId
  then findSlotForBarber now sofia (default "" barberId) appointments
                         startDate
  else
    fold_left (fun earliestSlot barber =>
      match findSlotForBarber now sofia (Barber.id barber)
                              appointments startDate with
      | Some slot =>
          match earliestSlot with
          | None => Some slot
          | Some e =>
              if dateLt (slotInstant slot) (slotInstant e)
              then Some slot else earliestSlot
          end
      | None => earliestSlot
      end) barbers None.

End Zone.

End BookingManager.

(* ===================================================================== *)
(** * hooks/useConversation.ts                                            *)
(* ===================================================================== *)

(** A JavaScript value of type [A | null], which a [Partial] may also hand
    over as [undefined]. *)
Inductive Nullable (A : Type) :=
| Null
| Undefined
| Val (a : A).
Arguments Null {A}.
Arguments Undefined {A}.
Arguments Val {A} a.

Module Step.
(** [ConversationStep]. *)
Inductive t := service | datetime | name | phone | confirmation | complete.

Definition eqb (a b : t) : bool :=
  match a, b with
  | service, service | datetime, datetime | name, name | phone, phone
  | confirmation, confirmation | complete, complete => true
  | _, _ => false
  end.

(** The position of a step in the flow. *)
Definition rank (s : t) : nat :=
  match s with
  | service => 0 | datetime => 1 | name => 2 | phone => 3
  | confirmation => 4 | complete => 5
  end%nat.
End Step.

Module Conversation.

Record BookingData := mkBookingData {
  service : Nullable string;
  dateTime : Nullable string;
  name : Nullable string;
  phone : Nullable string;
  price : Nullable Z
}.

(** [Partial<BookingData>]: [None] is a key the object does not have. *)
Module Partial.
Record t := mk {
  service : option (Nullable string);
  dateTime : option (Nullable string);
  name : option (Nullable string);
  phone : option (Nullable string);
  price : option (Nullable Z)
}.
End Partial.

Definition INITIAL_BOOKING_DATA : BookingData :=
  mkBookingData Null Null Null Null Null.

Record Message := mkMessage { role : string; content : string }.

(** The three [useState] cells of the hook. *)
Record Hook := mkHook {
  bookingData : BookingData;
  currentStep : Step.t;
  conversationHistory : list Message
}.

Definition initial : Hook := mkHook INITIAL_BOOKING_DATA Step.service [].

(** [!v] is false: a non-empty string. *)
Definition filled (v : Nullable string) : bool :=
  match v with
  | Val s => negb (String.eqb s "")
  | _ => false
  end.

(** [v !== null]. *)
Definition notNull {A : Type} (v : Nullable A) : bool :=
  match v with
  | Null => false
  | _ => true
  end.

(** One key of [{ ...prev, ...updates }]. *)
Definition spread {A : Type} (prev : A) (upd : option A) : A :=
  match upd with
  | Some v => v
  | None => prev
  end.

Definition updateBookingData (updates : Partial.t) (h : Hook) : Hook :=
  let prev := bookingData h in
  let newData :=
    mkBookingData (spread (service prev) (Partial.service updates))
                  (spread (dateTime prev) (Partial.dateTime updates))
                  (spread (name prev) (Partial.name updates))
                  (spread (phone prev) (Partial.phone updates))
                  (spread (price prev) (Partial.price updates)) in
  let step :=
    if negb (filled (service newData)) then Step.service
    else if negb (filled (dateTime newData)) then Step.datetime
    else if negb (filled (name newData)) then Step.name
    else if negb (filled (phone newData)) then Step.phone
    else Step.confirmation in
  mkHook newData step (conversationHistory h).

Definition addMessage (r c : string) (h : Hook) : Hook :=
  mkHook (bookingData h) (currentStep h)
         (conversationHistory h ++ [mkMessage r c]).

Definition resetConversation (h : Hook) : Hook := initial.

Definition isComplete (h : Hook) : bool :=
  notNull (service (bookingData h))
  && notNull (dateTime (bookingData h))
  && notNull (name (bookingData h))
  && notNull (phone (bookingData h))
  && Step.eqb (currentStep h) Step.confirmation.

(** A run of [updateBookingData] calls, first call first. *)
Definition run (calls : list Partial.t) (h : Hook) : Hook :=
  fold_left (fun st u => updateBookingData u st) calls h.

(** An update that only brings values: every key it has is a non-empty
    string (the price is free). *)
Definition bringsValue (v : option (Nullable string)) : Prop :=
  match v with
  | Some x => filled x = true
  | None => True
  end.

Definition fills (u : Partial.t) : Prop :=
  bringsValue (Partial.service u) /\ bringsValue (Partial.dateTime u)
  /\ bringsValue (Partial.name u) /\ bringsValue (Partial.phone u).

(** A state the hook can be in keeps draft and step in line. *)
Definition inLine (h : Hook) : Prop :=
  currentStep h =
    if negb (filled (service (bookingData h))) then Step.service
    else if negb (filled (dateTime (bookingData h))) then Step.datetime
    else if negb (filled (name (bookingData h))) then Step.name
    else if negb (filled (phone (bookingData h))) then Step.phone
    else Step.confirmation.

(** Two updates of the examples. *)
Definition givePhone : Partial.t :=
  Partial.mk None None None (Some (Val "0887112233")) None.

Definition giveService : Partial.t :=
  Partial.mk (Some (Val "Подстригване")) None None None (Some (Val 40)).

End Conversation.

(* ===================================================================== *)
(** * VoiceAgentHybrid.tsx: the turn controller                           *)
(* ===================================================================== *)

Module Hybrid.

Inductive Status := idle | listening | processing | speaking.

(** A pending [setTimeout]: its handle, the instant it is due and the
    transcript its callback captured. *)
Record Timer := mkTimer { handle : nat; due : Z; captured : string }.

Record Controller := mkController {
  status : Status;
  transcript : string;
  vadTimeoutRef : option nat;
  isProcessingRef : bool;
  timers : list Timer;          (* the timeouts that can still fire *)
  nextHandle : nat;
  now : Z;
  turns : list string           (* one entry per [setStatus('processing')] *)
}.

Definition SILENCE_MS : Z := 1500.

(** [!text.trim()]. *)
Definition blank (text : string) : bool := JsString.blank text.

Definition clearTimeout (h : nat) (ts : list Timer) : list Timer :=
  List.filter (fun t => negb (Nat.eqb (handle t) h)) ts.

(** The synchronous part of [handleFinalTranscript]; what follows the
    first [await] arrives later as [TtsStart], [TtsEnd] or [Failed]. *)
Definition handleFinalTranscript (text : string) (c : Controller)
  : Controller :=
  if isProcessingRef c || blank text then c
  else mkController processing (transcript c) (vadTimeoutRef c) true
                    (timers c) (nextHandle c) (now c) (turns c ++ [text]).

Definition handleTranscript (text : string) (isFinalResult : bool)
           (c : Controller) : Controller :=
  let live :=
    match vadTimeoutRef c with
    | Some h => clearTimeout h (timers c)
    | None => timers c
    end in
  if (5 <? Z.of_nat (JsString.length text)) && negb isFinalResult
     && negb (isProcessingRef c)
  then mkController (status c) text (Some (nextHandle c)) (isProcessingRef c)
                    (live ++ [mkTimer (nextHandle c) (now c + SILENCE_MS) text])
                    (S (nextHandle c)) (now c) (turns c)
  else mkController (status c) text (vadTimeoutRef c) (isProcessingRef c)
                    live (nextHandle c) (now c) (turns c).

(** What reaches the controller. *)
Inductive Event :=
| Stt (text : string) (isFinal : bool)   (* a transcript message *)
| Elapse (ms : Z)                        (* time passes, nothing arrives *)
| TtsStart                               (* [onStart] *)
| TtsEnd                                 (* [onEnd] *)
| Failed.                                (* the [catch] of the turn *)

Definition setStatus (s : Status) (c : Controller) : Controller :=
  mkController s (transcript c) (vadTimeoutRef c) (isProcessingRef c)
               (timers c) (nextHandle c) (now c) (turns c).

Definition setProcessing (b : bool) (c : Controller) : Controller :=
  mkController (status c) (transcript c) (vadTimeoutRef c) b
               (timers c) (nextHandle c) (now c) (turns c).

(** Let the clock reach [t]: the timeouts due by then run in the order
    they were armed and leave the list. *)
Definition advance (t : Z) (c : Controller) : Controller :=
  let fired := List.filter (fun x => due x <=? t) (timers c) in
  let kept := List.filter (fun x => negb (due x <=? t)) (timers c) in
  let c' := mkController (status c) (transcript c) (vadTimeoutRef c)
                         (isProcessingRef c) kept (nextHandle c) t
                         (turns c) in
  fold_left (fun st x => handleFinalTranscript (captured x) st) fired c'.

(** The [transcript] case of useSonioxSTT's [onmessage]: [onFinal] runs
    before [onTranscript], and an empty text is dropped. *)
Definition step (c : Controller) (e : Event) : Controller :=
  match e with
  | Stt text isFinal =>
      if String.eqb text "" then c
      else
        let c1 := if isFinal then handleFinalTranscript text c else c in
        handleTranscript text isFinal c1
  | Elapse ms => advance (now c + Z.max 0 ms) c
  | TtsStart => setStatus speaking c
  | TtsEnd => setProcessing false (setStatus listening c)
  | Failed => setProcessing false (setStatus idle c)
  end.

Definition run (c : Controller) (es : list Event) : Controller :=
  fold_left step es c.

(** The controller once the session listens. *)
Definition start : Controller :=
  mkController listening "" None false [] 1 0 [].

(** An utterance: partial transcripts less than the silence threshold
    apart, then the end of it. *)
Record Partial := mkPartial { gap : Z; text : string }.

Inductive Ending :=
| FinalSignal (gap : Z) (text : string)
| Silence (ms : Z).

Definition partials (ps : list Partial) : list Event :=
  flat_map (fun p => [Elapse (gap p); Stt (text p) false]) ps.

Definition ending (e : Ending) : list Event :=
  match e with
  | FinalSignal g t => [Elapse g; Stt t true]
  | Silence ms => [Elapse ms]
  end.

Definition utterance (ps : list Partial) (e : Ending) : list Event :=
  partials ps ++ ending e.

Definition closeGap (g : Z) : Prop := 0 <= g < SILENCE_MS.

(** The text the turn is started with. *)
Definition spoken (ps : list Partial) (e : Ending) : string :=
  match e with
  | FinalSignal _ t => t
  | Silence _ => text (List.last ps (mkPartial 0 ""))
  end.

(** The shape of an utterance as the turn controller expects it. *)
Definition wellFormed (ps : list Partial) (e : Ending) : Prop :=
  Forall (fun p => closeGap (gap p) /\ text p <> "") ps
  /\ blank (spoken ps e) = false
  /\ match e with
     | FinalSignal g t => closeGap g /\ t <> ""
     | Silence ms =>
         SILENCE_MS <= ms /\ ps <> []
         /\ (5 < JsString.length (spoken ps e))%nat
     end.


(** The controller listens and the silence timer, if any, is the one of
    the last partial transcript. *)
Definition armedFor (c : Controller) (last : option string) : Prop :=
  isProcessingRef c = false
  /\ match last with
     | Some t =>
         if 5 <? Z.of_nat (JsString.length t)
         then exists h, timers c = [mkTimer h (now c + SILENCE_MS) t]
                        /\ vadTimeoutRef c = Some h
         else timers c = []
     | None => timers c = []
     end.

Definition lastText (ps : list Partial) (last : option string) : option string :=
  match ps with
  | [] => last
  | _ => Some (text (List.last ps (mkPartial 0 "")))
  end.

(** What a caller may hand to [run]: the utterances of the examples. *)
Definition twoPartials : list Partial :=
  [mkPartial 300 "Искам"; mkPartial 400 "Искам час"].

(** A short answer, "добре", five letters. *)
Definition shortAnswer : list Partial := [mkPartial 300 "добре"].

End Hybrid.

(* ===================================================================== *)
(** * services/appointmentService.ts                                      *)
(* ===================================================================== *)

Module NewAppointment.
(** [Omit<Appointment, 'id'>]. *)
Record t := mk {
  customerName : string;
  customerEmail : string;
  serviceId : string;
  barberId : string;
  date : string;
  status : Status
}.
End NewAppointment.

(** [s.replace(/\D/g, '')]. *)
Definition digitsOnly (s : string) : string :=
  string_of_list_ascii
    (List.filter (fun c => match JsDate.digit c with Some _ => true | None => false end)
            (list_ascii_of_string s)).

(** [s.substring(1)]. *)
Definition dropFirst (s : string) : string :=
  match s with
  | EmptyString => EmptyString
  | String _ rest => rest
  end.

Definition decimal (n : Z) : string := NilZero.string_of_int (Z.to_int n).

Module AppointmentService.

(** The collection [shops/{shopId}/appointments], with the number from
    which Firestore's next document id is made. *)
Record Collection := mkCollection {
  docs : list Appointment.t;
  nextDoc : nat
}.

Definition docId (n : nat) : string := "doc" ++ decimal (Z.of_nat n).

(** [orderBy('date', 'asc')]: a stable insertion sort on the strings. *)
Fixpoint insertByDate (a : Appointment.t) (l : list Appointment.t)
  : list Appointment.t :=
  match l with
  | [] => [a]
  | b :: l' =>
      if String.ltb (Appointment.date a) (Appointment.date b)
      then a :: l
      else b :: insertByDate a l'
  end.

Definition orderByDate (l : list Appointment.t) : list Appointment.t :=
  fold_left (fun sorted a => insertByDate a sorted) l [].

(** The functions below give [None] where the body of the [try] throws;
    the caller then sees the [Error] of the [catch]. *)

Definition createAppointment (appointment : NewAppointment.t)
           (c : Collection) : option Appointment.t * Collection :=
  let stored :=
    Appointment.mk (docId (nextDoc c))
                   (NewAppointment.customerName appointment)
                   (NewAppointment.customerEmail appointment)
                   (NewAppointment.serviceId appointment)
                   (NewAppointment.barberId appointment)
                   (NewAppointment.date appointment)
                   (NewAppointment.status appointment) in
  (Some stored, mkCollection (docs c ++ [stored]) (S (nextDoc c))).

(** A bound of the date range: absent, or the ISO string of a date. *)
Definition isoBound (d : option (option Z)) : option (option string) :=
  match d with
  | None => Some None
  | Some date =>
      match JsDate.toISOString date with
      | Some s => Some (Some s)
      | None => None
      end
  end.

Definition getAppointments (barberId : option string)
           (startDate endDate : option (option Z)) (c : Collection)
  : option (list Appointment.t) * Collection :=
  match isoBound startDate, isoBound endDate with
  | Some lo, Some hi =>
      let keep (a : Appointment.t) :=
        (if truthy barberId
         then String.eqb (Appointment.barberId a) (default "" barberId)
         else true)
        && match lo with
           | Some s => String.leb s (Appointment.date a)
           | None => true
           end
        && match hi with
           | Some s => String.leb (Appointment.date a) s
           | None => true
           end in
      (Some (orderByDate (List.filter keep (docs c))), c)
  | _, _ => (None, c)
  end.

(** [s.toLowerCase()]. *)
Definition toLowerCase (s : string) : string := JsString.toLowerCase s.

(** [haystack.includes(needle)]. *)
Fixpoint contains (needle haystack : string) : bool :=
  String.prefix needle haystack
  || match haystack with
     | EmptyString => false
     | String _ rest => contains needle rest
     end.

Definition WEEK_MS : Z := 7 * 24 * 60 * 60 * 1000.

Definition getCustomerAppointments (tz now : Z) (phoneOrName : string)
           (c : Collection) : option (list Appointment.t) * Collection :=
  let p0 := digitsOnly phoneOrName in
  let p1 := if String.prefix "0" p0 then "359" ++ dropFirst p0 else p0 in
  let normalizedPhone :=
    if negb (String.prefix "359" p1) && (5 <? Z.of_nat (String.length p1))
    then "359" ++ p1 else p1 in
  let phoneToSearch :=
    if 9 <=? Z.of_nat (String.length normalizedPhone)
    then Some ("+" ++ normalizedPhone) else None in
  let weekAgo := now - WEEK_MS in
  match JsDate.toISOString (Some weekAgo) with
  | None => (None, c)
  | Some weekAgoIso =>
      let recent :=
        orderByDate
          (List.filter (fun a => String.leb weekAgoIso (Appointment.date a))
                  (docs c)) in
      let searchTermLower := toLowerCase phoneOrName in
      let matches (apt : Appointment.t) :=
        let aptDate := JsDate.parse tz (Appointment.date apt) in
        if BookingManager.dateLt aptDate (Some weekAgo)
           || Status_eqb (Appointment.status apt) cancelled
        then false
        else if match phoneToSearch with
                | Some p => String.eqb (Appointment.customerEmail apt) p
                | None => false
                end
        then true
        else negb (String.eqb (Appointment.customerName apt) "")
             && contains searchTermLower
                         (toLowerCase (Appointment.customerName apt)) in
      (Some (List.filter matches recent), c)
  end.

(** [updateDoc] fails on a document that does not exist. *)
Definition updateAppointment (appointmentId : option string)
           (updates : Appointment.t -> Appointment.t) (c : Collection)
  : option unit * Collection :=
  let isIt (a : Appointment.t) :=
    String.eqb (Appointment.id a) (default "" appointmentId) in
  if truthy appointmentId && existsb isIt (docs c)
  then (Some tt,
        mkCollection (map (fun a => if isIt a then updates a else a) (docs c))
                     (nextDoc c))
  else (None, c).

Definition withStatus (s : Status) (a : Appointment.t) : Appointment.t :=
  Appointment.mk (Appointment.id a) (Appointment.customerName a)
                 (Appointment.customerEmail a) (Appointment.serviceId a)
                 (Appointment.barberId a) (Appointment.date a) s.

Definition withDate (d : string) (a : Appointment.t) : Appointment.t :=
  Appointment.mk (Appointment.id a) (Appointment.customerName a)
                 (Appointment.customerEmail a) (Appointment.serviceId a)
                 (Appointment.barberId a) d (Appointment.status a).

Definition cancelAppointment (appointmentId : option string)
           (c : Collection) : option unit * Collection :=
  updateAppointment appointmentId (withStatus cancelled) c.

Definition rescheduleAppointment (tz : Z) (appointmentId : option string)
           (newDate newTime : string) (c : Collection)
  : option unit * Collection :=
  let dateTime := JsDate.parse tz (newDate ++ "T" ++ newTime) in
  match JsDate.toISOString dateTime with
  | Some iso => updateAppointment appointmentId (withDate iso) c
  | None => (None, c)
  end.

Definition CREATE_FAILED := "Неуспешно записване на час".
Definition LOAD_FAILED := "Неуспешно зареждане на часове".
Definition CUSTOMER_LOAD_FAILED := "Неуспешно зареждане на вашите часове".
Definition CANCEL_FAILED := "Неуспешно отказване на час".
Definition RESCHEDULE_FAILED := "Неуспешно преместване на час".

End AppointmentService.

(** [loadAppointmentsForDateRange] of bookingManager.ts: the appointments
    of [barberId] between the first and the last millisecond of the local
    day on which [new Date(date)] falls. *)
Definition loadAppointmentsForDateRange (tz : Z) (barberId date : string)
           (c : AppointmentService.Collection)
  : option (list Appointment.t) * AppointmentService.Collection :=
  let targetDate := JsDate.parse tz date in
  let startDate :=
    option_map (fun t => JsDate.setHours tz t 0 0) targetDate in
  let endDate :=
    option_map (fun t => JsDate.setHours tz t 23 59 + 59 * 1000 + 999)
               targetDate in
  AppointmentService.getAppointments (Some barberId) (Some startDate)
                                     (Some endDate) c.

(* ===================================================================== *)
(** * services/conversationLogService.ts                                  *)
(* ===================================================================== *)

Module ConversationLog.

Inductive Outcome := active | completed | abandoned | error.

Inductive EventType := user_speech | agent_response | tool_call | system.

(** The requests the component sends to the log collection; [Meta] is
    what an event carries as metadata. *)
Inductive Request (Meta : Type) :=
| Start (logId : string)
| AddEvent (logId : string) (type : EventType) (content : string)
           (metadata : option Meta)
| End (logId : string) (outcome : Outcome) (bookingCreated : bool).
Arguments Start {Meta} logId.
Arguments AddEvent {Meta} logId type content metadata.
Arguments End {Meta} logId outcome bookingCreated.

Definition isEnd {Meta : Type} (r : Request Meta) : bool :=
  match r with
  | End _ _ _ => true
  | _ => false
  end.

(** [`conv_${Date.now()}`]. *)
Definition logIdAt (now : Z) : string := "conv_" ++ decimal now.

End ConversationLog.

(* ===================================================================== *)
(** * components/VoiceAgent.tsx                                           *)
(* ===================================================================== *)

Module VoiceAgent.

Definition TOOL_TIMEOUT_MS : Z := 6000.
Definition MAX_RECONNECTS : Z := 2.
Definition RECONNECT_DELAY_MS : Z := 1500.
Definition APPOINTMENTS_CACHE_TTL_MS : Z := 15000.
Definition RANGE_CACHE_TTL_MS : Z := 20000.

(** [digits.split('').join(' ')]. *)
Fixpoint formatPhoneDigits (digits : string) : string :=
  match digits with
  | EmptyString => EmptyString
  | String c EmptyString => String c EmptyString
  | String c rest => String c (String " "%char (formatPhoneDigits rest))
  end.

(** ** What a tool call carries and what it gets back *)

Record Args := mkArgs {
  barberId : option string;
  serviceId : option string;
  date : option string;
  time : option string;
  customerName : option string;
  customerPhone : option string;
  appointmentId : option string;
  newDate : option string;
  newTime : option string
}.

Module Call.
Record t := mk { id : string; name : string; args : Args }.
End Call.

Record BarberInfo := mkBarberInfo {
  bi_id : string; bi_name : string; bi_specialty : string }.

Record ServiceInfo := mkServiceInfo {
  si_id : string; si_name : string; si_price : Price; si_duration : Z }.

(** One line of the answer of [get_customer_appointments]; the instant
    stands for the date and the time the source renders in bg-BG. *)
Record Digest := mkDigest {
  dg_id : string; dg_customerName : string; dg_instant : option Z;
  dg_barberName : string; dg_serviceName : string; dg_status : Status }.

Inductive ToolResult :=
| BarberList (items : list BarberInfo)
| ServiceList (items : list ServiceInfo)
| EmptyCatalog (message : string)                 (* { items: [], message } *)
| Slots (slots : list string)
| ErrorResult (error : string)                    (* { error } *)
| Message (message : string)                      (* { message } *)
| EarliestSlot (date time barberId message : string)
| Failure (error : string)                        (* { success: false, error } *)
| Success (appointmentId : option string) (message : string)
| Appointments (items : list Digest).

(** [result?.success], as a condition. *)
Definition success (r : ToolResult) : bool :=
  match r with
  | Success _ _ => true
  | _ => false
  end.

Module Response.
Record t := mk { id : string; name : string; result : ToolResult }.
End Response.

(** ** Texts *)

Definition NO_BARBERS_ADDED := "Няма добавени фризьори.".
Definition NO_SERVICES_ADDED := "Няма добавени услуги.".
Definition NO_BARBERS := "Няма налични фризьори.".
Definition NO_SUCH_BARBER := "Няма такъв фризьор.".
Definition NO_SLOTS_SOON := "Няма свободни часове за скоро.".
Definition NO_CATALOG := "Няма налични услуги или фризьори.".
Definition INVALID_BARBER := "Невалиден фризьор.".
Definition INVALID_SERVICE := "Невалидна услуга.".
Definition SLOT_TAKEN := "Часът вече е зает. Моля изберете друг.".
Definition NOTHING_FOUND := "Не намерих записани часове с това търсене.".
Definition RESCHEDULE_DATA_MISSING :=
  "Липсват данни за преместване (ID, дата или час).".
Definition CANCELLED_OK := "Часът е отказан успешно.".
Definition SLOW_CONNECTION := "Връзката е бавна. Моля опитайте пак.".
Definition GENERIC_ERROR := "Възникна грешка".
Definition CONNECTION_UNSTABLE :=
  "Връзката е нестабилна. Моля опитайте отново.".
Definition TIMEOUT := "timeout".
(** The messages of the engine's own errors. *)
Definition INVALID_TIME_VALUE := "Invalid time value".
Definition NOT_A_STRING :=
  "Cannot read properties of undefined (reading 'replace')".

Definition alreadyBooked (phone : string) : string :=
  "Часът вече е записан. Потвърждавам телефон: "
  ++ formatPhoneDigits phone ++ ".".

Definition booked_message (d t phone : string) : string :=
  "Готово! Часът е записан за " ++ d ++ " в " ++ t
  ++ ". Потвърждавам телефон: " ++ formatPhoneDigits phone ++ ".".

Definition earliest_message (d t barberName : string) : string :=
  "Най-ранният час е на " ++ d ++ " в " ++ t ++ " при " ++ barberName ++ ".".

Definition rescheduled_message (d t : string) : string :=
  "Готово! Часът е преместен на " ++ d ++ " в " ++ t ++ ".".

Definition reconnecting_message (attempt : Z) : string :=
  "Проблем с връзката. Опит за повторно свързване ("
  ++ decimal attempt ++ "/" ++ decimal MAX_RECONNECTS ++ ")...".

(** A value of [call.args] inside a template literal. *)
Definition tpl (o : option string) : string := default "undefined" o.

(** ** The connection side of the component *)

Inductive AgentStatus := idle | connecting | listening | speaking.

Record Conn := mkConn {
  isActive : bool;                  (* useState *)
  status : AgentStatus;             (* useState *)
  error : option string;            (* useState *)
  reconnectAttempts : Z;            (* useRef *)
  reconnectTimer : option nat;      (* useRef *)
  isUserDisconnecting : bool;       (* useRef *)
  timers : list nat;                (* timeouts of the window still to run *)
  nextTimer : nat
}.

(** ** The world a session runs in *)

(** What the backend does with the next request: it answers after
    [latency] ms, or the request fails after [latency] ms. *)
Inductive Net := Reply (latency : Z) | Lost (latency : Z).

Record CacheEntry := mkEntry { data : list Appointment.t; ts : Z }.

Record World := mkWorld {
  clock : Z;                                        (* Date.now() *)
  net : list Net;
  collection : AppointmentService.Collection;
  logRequests : list (ConversationLog.Request (Args * option ToolResult));
  booked : list Appointment.t;                      (* calls of [onBook] *)
  appointmentsCache : gmap string CacheEntry;
  appointmentsRangeCache : option CacheEntry;
  lastBookingRef : option (string * Z);
  conversationLogId : option string;
  bookingCreated : bool;
  conn : Conn
}.

Definition set_clock (x : Z) (w : World) : World :=
  mkWorld x (net w) (collection w) (logRequests w) (booked w)
          (appointmentsCache w) (appointmentsRangeCache w)
          (lastBookingRef w) (conversationLogId w) (bookingCreated w) (conn w).

Definition set_net (x : list Net) (w : World) : World :=
  mkWorld (clock w) x (collection w) (logRequests w) (booked w)
          (appointmentsCache w) (appointmentsRangeCache w)
          (lastBookingRef w) (conversationLogId w) (bookingCreated w) (conn w).

Definition set_collection (x : AppointmentService.Collection) (w : World)
  : World :=
  mkWorld (clock w) (net w) x (logRequests w) (booked w)
          (appointmentsCache w) (appointmentsRangeCache w)
          (lastBookingRef w) (conversationLogId w) (bookingCreated w) (conn w).

Definition set_logRequests
           (x : list (ConversationLog.Request (Args * option ToolResult)))
           (w : World) : World :=
  mkWorld (clock w) (net w) (collection w) x (booked w)
          (appointmentsCache w) (appointmentsRangeCache w)
          (lastBookingRef w) (conversationLogId w) (bookingCreated w) (conn w).

Definition set_booked (x : list Appointment.t) (w : World) : World :=
  mkWorld (clock w) (net w) (collection w) (logRequests w) x
          (appointmentsCache w) (appointmentsRangeCache w)
          (lastBookingRef w) (conversationLogId w) (bookingCreated w) (conn w).

Definition set_appointmentsCache (x : gmap string CacheEntry) (w : World)
  : World :=
  mkWorld (clock w) (net w) (collection w) (logRequests w) (booked w)
          x (appointmentsRangeCache w)
          (lastBookingRef w) (conversationLogId w) (bookingCreated w) (conn w).

Definition set_appointmentsRangeCache (x : option CacheEntry) (w : World)
  : World :=
  mkWorld (clock w) (net w) (collection w) (logRequests w) (booked w)
          (appointmentsCache w) x
          (lastBookingRef w) (conversationLogId w) (bookingCreated w) (conn w).

Definition set_lastBookingRef (x : option (string * Z)) (w : World) : World :=
  mkWorld (clock w) (net w) (collection w) (logRequests w) (booked w)
          (appointmentsCache w) (appointmentsRangeCache w)
          x (conversationLogId w) (bookingCreated w) (conn w).

Definition set_conversationLogId (x : option string) (w : World) : World :=
  mkWorld (clock w) (net w) (collection w) (logRequests w) (booked w)
          (appointmentsCache w) (appointmentsRangeCache w)
          (lastBookingRef w) x (bookingCreated w) (conn w).

Definition set_bookingCreated (x : bool) (w : World) : World :=
  mkWorld (clock w) (net w) (collection w) (logRequests w) (booked w)
          (appointmentsCache w) (appointmentsRangeCache w)
          (lastBookingRef w) (conversationLogId w) x (conn w).

Definition set_conn (x : Conn) (w : World) : World :=
  mkWorld (clock w) (net w) (collection w) (logRequests w) (booked w)
          (appointmentsCache w) (appointmentsRangeCache w)
          (lastBookingRef w) (conversationLogId w) (bookingCreated w) x.

(** ** Computations that may throw *)

Inductive Res (A : Type) :=
| Ok (a : A)
| Throw (message : string).
Arguments Ok {A} a.
Arguments Throw {A} message.

Definition M (A : Type) : Type := World -> Res A * World.

Definition ret {A : Type} (a : A) : M A := fun w => (Ok a, w).

Definition throw {A : Type} (message : string) : M A :=
  fun w => (Throw message, w).

Definition bind {A B : Type} (c : M A) (k : A -> M B) : M B :=
  fun w =>
    match c w with
    | (Ok a, w') => k a w'
    | (Throw m, w') => (Throw m, w')
    end.

Definition get : M World := fun w => (Ok w, w).

Definition modify (f : World -> World) : M unit := fun w => (Ok tt, f w).

Notation "x <- c ;; k" := (bind c (fun x => k))
  (at level 90, c at level 89, right associativity).
Notation "c ;;; k" := (bind c (fun _ => k))
  (at level 90, right associativity).

(** A promise on a backend operation: when it settles, how, and the
    world once the backend has acted. *)
Definition Async (A : Type) : Type := World -> (Z * Res A) * World.

(** A service function called: [op] is the body of its [try] run against
    the collection, [failure] the message of the [Error] of its [catch].
    Every call is taken to reach the backend: a body that throws before
    it sends anything (no id for [doc], a date [toISOString] refuses)
    fails here with the next answer of the backend, not at once. *)
Definition request {A : Type} (failure : string)
           (op : AppointmentService.Collection
                 -> option A * AppointmentService.Collection) : Async A :=
  fun w =>
    let outcome := match net w with [] => Reply 0 | o :: _ => o end in
    let w1 := set_net (tl (net w)) w in
    match outcome with
    | Reply latency =>
        let '(r, c') := op (collection w1) in
        ((Z.max 0 latency,
          match r with Some a => Ok a | None => Throw failure end),
         set_collection c' w1)
    | Lost latency => ((Z.max 0 latency, Throw failure), w1)
    end.

Definition latencyOf (o : Net) : Z :=
  match o with
  | Reply latency => latency
  | Lost latency => latency
  end.

(** The backend takes longer than the tool timeout. *)
Definition slow (o : Net) : Prop := TOOL_TIMEOUT_MS < latencyOf o.

(** [withTimeout]: the race of the promise with a timer of [ms]. *)
Definition withTimeout {A : Type} (promise : Async A) (ms : Z) : M A :=
  fun w =>
    let '((latency, r), w') := promise w in
    if latency <? ms
    then (r, set_clock (clock w' + latency) w')
    else (Throw TIMEOUT, set_clock (clock w' + ms) w').

(** [m] ends on the timeout error as soon as one of the backend
    operations it starts is slow; [consumed] are the operations started. *)
Definition timely {A : Type} (m : M A) : Prop :=
  forall w : World,
    exists consumed : list Net,
      net w = (consumed ++ net (snd (m w)))%list
      /\ (Exists slow consumed -> fst (m w) = Throw TIMEOUT).

(** The log of the session and the connection are as they were. *)
Definition sameSession (w w' : World) : Prop :=
  conversationLogId w' = conversationLogId w
  /\ bookingCreated w' = bookingCreated w
  /\ logRequests w' = logRequests w
  /\ conn w' = conn w.

Definition keeps {A : Type} (m : M A) : Prop :=
  forall w : World, sameSession w (snd (m w)).

(** The entry of the per-date cache that a read at this instant uses. *)
Definition freshEntry (w : World) (key : string) : option CacheEntry :=
  match appointmentsCache w !! key with
  | Some cached =>
      if clock w - ts cached <? APPOINTMENTS_CACHE_TTL_MS
      then Some cached else None
  | None => None
  end.

Definition cacheKey (a : Args) : string :=
  default "" (barberId a) ++ ":" ++ tpl (date a).

(** The last booking the component remembers is this one, [age] ms ago
    at most. *)
Definition remembered (w : World) (key : string) (now : Z) : bool :=
  match lastBookingRef w with
  | Some (k, stamp) => String.eqb k key && (now - stamp <? 10000)
  | None => false
  end.

(** ** The tool handlers *)

Section Component.
(** The browser's zone and Sofia's, and the catalogue the component got
    as its [state] prop. *)
Variables tz sofia : Z.
Variable barbers : list Barber.t.
Variable services : list Service.t.

Definition findBarber (barberId : option string) : option Barber.t :=
  match barberId with
  | Some b => find (fun x => String.eqb (Barber.id x) b) barbers
  | None => None
  end.

Definition findService (serviceId : option string) : option Service.t :=
  match serviceId with
  | Some s => find (fun x => String.eqb (Service.id x) s) services
  | None => None
  end.

Definition hasBarbers : bool := negb (Nat.eqb (length barbers) 0).
Definition hasServices : bool := negb (Nat.eqb (length services) 0).

Definition getCachedAppointmentsForDate (barberId : string)
           (date : option string) : M (list Appointment.t) :=
  let key := barberId ++ ":" ++ tpl date in
  let load :=
    data <- withTimeout
              (request AppointmentService.LOAD_FAILED
                 (loadAppointmentsForDateRange tz barberId (default "" date)))
              TOOL_TIMEOUT_MS ;;
    modify (fun w =>
      set_appointmentsCache
        (<[key := mkEntry data (clock w)]> (appointmentsCache w)) w) ;;;
    ret data in
  w <- get ;;
  match appointmentsCache w !! key with
  | Some cached =>
      if clock w - ts cached <? APPOINTMENTS_CACHE_TTL_MS
      then ret (data cached)
      else load
  | None => load
  end.

Definition getCachedAppointmentsRange : M (list Appointment.t) :=
  let load :=
    w <- get ;;
    let today := clock w in
    let thirtyDaysLater :=
      JsDate.setDate tz today (JsDate.getDate tz today + 30) in
    data <- withTimeout
              (request AppointmentService.LOAD_FAILED
                 (AppointmentService.getAppointments
                    None (Some (Some today)) (Some (Some thirtyDaysLater))))
              TOOL_TIMEOUT_MS ;;
    modify (fun w =>
      set_appointmentsRangeCache (Some (mkEntry data (clock w))) w) ;;;
    ret data in
  w <- get ;;
  match appointmentsRangeCache w with
  | Some cached =>
      if clock w - ts cached <? RANGE_CACHE_TTL_MS
      then ret (data cached)
      else load
  | None => load
  end.

Definition get_barbers : M ToolResult :=
  if negb hasBarbers then ret (EmptyCatalog NO_BARBERS_ADDED)
  else ret (BarberList
              (map (fun b =>
                      mkBarberInfo (Barber.id b)
                        (orElse (Barber.nameBg b) (Barber.name b))
                        (orElse (Barber.specialtyBg b) (Barber.specialty b)))
                   barbers)).

Definition get_services : M ToolResult :=
  if negb hasServices then ret (EmptyCatalog NO_SERVICES_ADDED)
  else ret (ServiceList
              (map (fun s =>
                      mkServiceInfo (Service.id s)
                        (orElse (Service.nameBg s) (Service.name s))
                        (Service.price s) (Service.duration s))
                   services)).

(** The filter of the slots of today: the slot is kept when it lies
    more than [bufferMinutes] after [now]. *)
Definition bufferMinutes : Z := 45.

Definition afterLeadTime (now : Z) (slot : string) : bool :=
  match map JsDate.jsNumber (JsDate.splitColon slot) with
  | Some hours :: Some minutes :: _ =>
      let slotDate := JsDate.setHours tz now hours minutes in
      let timeDiffMs := slotDate - now in
      (* timeDiffMs / (1000 * 60) > bufferMinutes *)
      bufferMinutes * (1000 * 60) <? timeDiffMs
  | _ => false
  end.

Definition get_available_slots (a : Args) : M ToolResult :=
  if negb hasBarbers then ret (ErrorResult NO_BARBERS)
  else
    match findBarber (barberId a) with
    | None => ret (ErrorResult NO_SUCH_BARBER)
    | Some _ =>
        let b := default "" (barberId a) in
        appointments <- getCachedAppointmentsForDate b (date a) ;;
        let slots :=
          BookingManager.getFreeSlots tz (default "" (date a)) b
                                      appointments in
        w <- get ;;
        let todayStr := JsDate.toLocaleDateStringCA sofia (clock w) in
        if match date a with
           | Some d => String.eqb d todayStr
           | None => false
           end
        then ret (Slots (List.filter (afterLeadTime (clock w)) slots))
        else ret (Slots slots)
    end.

Definition find_earliest_slot (a : Args) : M ToolResult :=
  if negb hasBarbers then ret (Message NO_BARBERS)
  else
    if truthy (barberId a)
       && match findBarber (barberId a) with Some _ => false | None => true end
    then ret (Message NO_SUCH_BARBER)
    else
      allCheckAppointments <- getCachedAppointmentsRange ;;
      w <- get ;;
      match BookingManager.findNextAvailableSlot
              tz (clock w) sofia allCheckAppointments barbers
              (barberId a) (clock w) with
      | Some foundSlot =>
          let barberName :=
            tpl (option_map Barber.nameBg
                   (findBarber
                      (Some (BookingManager.found_barberId foundSlot)))) in
          ret (EarliestSlot
                 (BookingManager.found_date foundSlot)
                 (BookingManager.found_time foundSlot)
                 (BookingManager.found_barberId foundSlot)
                 (earliest_message (BookingManager.found_date foundSlot)
                                   (BookingManager.found_time foundSlot)
                                   barberName))
      | None => ret (Message NO_SLOTS_SOON)
      end.

(** Digits only, a leading 0 replaced by 359, 359 put in front if it is
    not there. *)
Definition normalizePhone (customerPhone : string) : string :=
  let p0 := digitsOnly customerPhone in
  let p1 := if String.prefix "0" p0 then "359" ++ dropFirst p0 else p0 in
  if negb (String.prefix "359" p1) then "359" ++ p1 else p1.

Definition bookingKeyOf (a : Args) (phone : string) : string :=
  tpl (barberId a) ++ "|" ++ tpl (serviceId a) ++ "|" ++ tpl (date a)
  ++ "|" ++ tpl (time a) ++ "|" ++ phone.

Definition book_appointment (a : Args) : M ToolResult :=
  if negb hasBarbers || negb hasServices then ret (Failure NO_CATALOG)
  else
    let finalBarberId := barberId a in
    if negb (truthy finalBarberId)
       || match findBarber finalBarberId with Some _ => false | None => true end
    then ret (Failure INVALID_BARBER)
    else
      match findService (serviceId a) with
      | None => ret (Failure INVALID_SERVICE)
      | Some _ =>
          let b := default "" finalBarberId in
          (* First check if slot is still available *)
          checkAppts <- getCachedAppointmentsForDate b (date a) ;;
          let slotStillFree :=
            match time a with
            | Some t =>
                includes
                  (BookingManager.getFreeSlots tz (default "" (date a)) b
                                               checkAppts) t
            | None => false
            end in
          if negb slotStillFree then ret (Failure SLOT_TAKEN)
          else
            match customerPhone a with
            | None => throw NOT_A_STRING
            | Some rawPhone =>
                let phone := normalizePhone rawPhone in
                let bookingKey := bookingKeyOf a phone in
                w <- get ;;
                if match lastBookingRef w with
                   | Some (key, stamp) =>
                       String.eqb key bookingKey
                       && (clock w - stamp <? 10000)
                   | None => false
                   end
                then ret (Success (Some "duplicate") (alreadyBooked phone))
                else
                  let dateTime :=
                    JsDate.parse tz (tpl (date a) ++ "T" ++ tpl (time a)) in
                  match JsDate.toISOString dateTime with
                  | None => throw INVALID_TIME_VALUE
                  | Some iso =>
                      newAppt <-
                        withTimeout
                          (request AppointmentService.CREATE_FAILED
                             (fun c =>
                                match customerName a with
                                | Some n =>
                                    AppointmentService.createAppointment
                                      (NewAppointment.mk n ("+" ++ phone)
                                         (tpl (serviceId a)) b iso pending)
                                      c
                                | None => (None, c)
                                end))
                          TOOL_TIMEOUT_MS ;;
                      modify (fun w => set_booked (booked w ++ [newAppt]) w) ;;;
                      modify (fun w =>
                        set_lastBookingRef (Some (bookingKey, clock w)) w) ;;;
                      ret (Success (Some (Appointment.id newAppt))
                                   (booked_message (tpl (date a))
                                                   (tpl (time a)) phone))
                  end
            end
      end.

(** The references of a booking are valid. *)
Definition validRefs (a : Args) : Prop :=
  truthy (barberId a) = true
  /\ findBarber (barberId a) <> None
  /\ findService (serviceId a) <> None.

(** The re-check of [book_appointment] over the list it read. *)
Definition slotFree (a : Args) (checkAppts : list Appointment.t) : bool :=
  match time a with
  | Some t =>
      includes
        (BookingManager.getFreeSlots tz (default "" (date a))
                                     (default "" (barberId a)) checkAppts) t
  | None => false
  end.

(** The read of [book_appointment]. *)
Definition recheckRead (a : Args) : M (list Appointment.t) :=
  getCachedAppointmentsForDate (default "" (barberId a)) (date a).

Definition get_customer_appointments (a : Args) : M ToolResult :=
  w <- get ;;
  customerAppts <-
    withTimeout
      (request AppointmentService.CUSTOMER_LOAD_FAILED
         (fun c =>
            match customerPhone a with
            | Some searchTerm =>
                AppointmentService.getCustomerAppointments
                  tz (clock w) searchTerm c
            | None => (None, c)
            end))
      TOOL_TIMEOUT_MS ;;
  if Nat.eqb (length customerAppts) 0 then ret (Message NOTHING_FOUND)
  else
    ret (Appointments
           (map (fun apt =>
                   mkDigest
                     (Appointment.id apt) (Appointment.customerName apt)
                     (JsDate.parse tz (Appointment.date apt))
                     (match findBarber (Some (Appointment.barberId apt)) with
                      | Some x => orElse (Barber.nameBg x)
                                         (Appointment.barberId apt)
                      | None => Appointment.barberId apt
                      end)
                     (match findService (Some (Appointment.serviceId apt)) with
                      | Some x => orElse (Service.nameBg x)
                                         (Appointment.serviceId apt)
                      | None => Appointment.serviceId apt
                      end)
                     (Appointment.status apt))
                customerAppts)).

Definition reschedule_appointment (a : Args) : M ToolResult :=
  if negb (truthy (appointmentId a)) || negb (truthy (newDate a))
     || negb (truthy (newTime a))
  then ret (ErrorResult RESCHEDULE_DATA_MISSING)
  else
    withTimeout
      (request AppointmentService.RESCHEDULE_FAILED
         (AppointmentService.rescheduleAppointment
            tz (appointmentId a) (tpl (newDate a)) (tpl (newTime a))))
      TOOL_TIMEOUT_MS ;;;
    ret (Success None (rescheduled_message (tpl (newDate a))
                                           (tpl (newTime a)))).

Definition cancel_appointment (a : Args) : M ToolResult :=
  withTimeout
    (request AppointmentService.CANCEL_FAILED
       (AppointmentService.cancelAppointment (appointmentId a)))
    TOOL_TIMEOUT_MS ;;;
  ret (Success None CANCELLED_OK).

(** The [switch] inside the [try]. *)
Definition dispatch (call : Call.t) : M ToolResult :=
  let n := Call.name call in
  if String.eqb n "get_barbers" then get_barbers
  else if String.eqb n "get_services" then get_services
  else if String.eqb n "get_available_slots"
  then get_available_slots (Call.args call)
  else if String.eqb n "find_earliest_slot"
  then find_earliest_slot (Call.args call)
  else if String.eqb n "book_appointment"
  then book_appointment (Call.args call)
  else if String.eqb n "get_customer_appointments"
  then get_customer_appointments (Call.args call)
  else if String.eqb n "reschedule_appointment"
  then reschedule_appointment (Call.args call)
  else if String.eqb n "cancel_appointment"
  then cancel_appointment (Call.args call)
  else ret (ErrorResult ("Unknown tool: " ++ n)).

(** The callback of [calls.map]: the [try], its [catch] and the
    response object. *)
Definition answer (call : Call.t) (w : World) : Response.t * World :=
  match dispatch call w with
  | (Ok result, w') =>
      (Response.mk (Call.id call) (Call.name call) result, w')
  | (Throw message, w') =>
      let isTimeout := String.eqb message TIMEOUT in
      let error :=
        if isTimeout then SLOW_CONNECTION
        else orElse message GENERIC_ERROR in
      (Response.mk (Call.id call) (Call.name call) (ErrorResult error), w')
  end.

(** The calls of a batch are answered one after the other, in the order
    of the batch; [Promise.all] starts them together and keeps that order
    for the answers. *)
Fixpoint answerAll (calls : list Call.t) (w : World)
  : list Response.t * World :=
  match calls with
  | [] => ([], w)
  | call :: rest =>
      let '(r, w1) := answer call w in
      let '(rs, w2) := answerAll rest w1 in
      (r :: rs, w2)
  end.

Definition isAction (n : string) : bool :=
  String.eqb n "book_appointment"
  || String.eqb n "reschedule_appointment"
  || String.eqb n "cancel_appointment".

(** The body of the loop that logs the calls of a batch. *)
Definition logCall (logId : string) (responses : list Response.t)
           (w : World) (call : Call.t) : World :=
  let response :=
    find (fun r => String.eqb (Response.id r) (Call.id call)) responses in
  let w1 :=
    set_logRequests
      (logRequests w
       ++ [ConversationLog.AddEvent logId ConversationLog.tool_call
             (Call.name call)
             (Some (Call.args call, option_map Response.result response))])
      w in
  let isSuccess :=
    match response with
    | Some r => success (Response.result r)
    | None => false
    end in
  if isSuccess && isAction (Call.name call)
  then set_bookingCreated true w1
  else w1.

(** [handleToolCalls]; the value is what goes to [sendToolResponse]. *)
Definition handleToolCalls (calls : list Call.t) (w : World)
  : list Response.t * World :=
  let '(responses, w1) := answerAll calls w in
  let w2 :=
    match conversationLogId w1 with
    | Some logId =>
        if String.eqb logId "" then w1
        else fold_left (logCall logId responses) calls w1
    | None => w1
    end in
  (responses, w2).

End Component.

(** ** Reconnecting

    [isActive] is a [useState] value: a function of the component reads
    the value of the render that created it.  [scheduleReconnect] takes
    that value as [active]; which value the calls made for the live
    client read is said with [reported] below. *)

Definition clearReconnectTimer (c : Conn) : Conn :=
  match reconnectTimer c with
  | Some h =>
      mkConn (isActive c) (status c) (error c) (reconnectAttempts c) None
             (isUserDisconnecting c)
             (List.filter (fun x => negb (Nat.eqb x h)) (timers c))
             (nextTimer c)
  | None => c
  end.

Definition scheduleReconnect (active : bool) (c : Conn) : Conn :=
  if negb active || isUserDisconnecting c then c
  else if MAX_RECONNECTS <=? reconnectAttempts c
  then mkConn false idle (Some CONNECTION_UNSTABLE) (reconnectAttempts c)
              (reconnectTimer c) (isUserDisconnecting c) (timers c)
              (nextTimer c)
  else
    let c1 := clearReconnectTimer c in
    let attempts := reconnectAttempts c1 + 1 in
    mkConn (isActive c1) connecting (Some (reconnecting_message attempts))
           attempts (Some (nextTimer c1)) (isUserDisconnecting c1)
           (timers c1 ++ [nextTimer c1]) (S (nextTimer c1)).

(** The callback of the timeout [h] runs: it connects a new client;
    [connected] tells whether [connect] resolved. *)
Definition reconnect (active connected : bool) (h : nat) (c : Conn) : Conn :=
  if existsb (Nat.eqb h) (timers c)
  then
    let c1 :=
      mkConn (isActive c) (status c) (error c) (reconnectAttempts c)
             (reconnectTimer c) (isUserDisconnecting c)
             (List.filter (fun x => negb (Nat.eqb x h)) (timers c))
             (nextTimer c) in
    if connected
    then mkConn (isActive c1) (status c1) None (reconnectAttempts c1)
                (reconnectTimer c1) (isUserDisconnecting c1) (timers c1)
                (nextTimer c1)
    else scheduleReconnect active c1
  else c.

(** ** Events of the live client and the start/stop button *)

Inductive LiveEvent :=
| setupComplete
| interrupted
| toolCall (functionCalls : list Call.t)
| errorEvent (message : string)
| close (reason : string).

Section Session.
Variables tz sofia : Z.
Variable barbers : list Barber.t.
Variable services : list Service.t.

Definition handleLiveEvent (active : bool) (event : LiveEvent) (w : World)
  : World :=
  match event with
  | setupComplete =>
      let c := conn w in
      set_conn (mkConn (isActive c) listening None 0 (reconnectTimer c)
                       (isUserDisconnecting c) (timers c) (nextTimer c)) w
  | interrupted =>
      let c := conn w in
      set_conn (mkConn (isActive c) listening (error c)
                       (reconnectAttempts c) (reconnectTimer c)
                       (isUserDisconnecting c) (timers c) (nextTimer c)) w
  | toolCall functionCalls =>
      snd (handleToolCalls tz sofia barbers services functionCalls w)
  | errorEvent message =>
      let w1 :=
        if truthy (conversationLogId w)
        then set_logRequests
               (logRequests w
                ++ [ConversationLog.AddEvent
                      (default "" (conversationLogId w))
                      ConversationLog.system ("Грешка: " ++ message) None])
               w
        else w in
      set_conn (scheduleReconnect active (conn w1)) w1
  | close _ => set_conn (scheduleReconnect active (conn w)) w
  end.

(** [handleToggle]; [connected] tells whether [connect] resolves when
    the session is started: with false the [catch] of line 371 runs.  The
    [connect] of MultimodalLiveClient resolves whatever happens, so a
    session of the component starts with [handleToggle true]. *)
Definition handleToggle (connected : bool) (w : World) : World :=
  let c := conn w in
  if isActive c then
    let c1 :=
      clearReconnectTimer
        (mkConn (isActive c) (status c) (error c) (reconnectAttempts c)
                (reconnectTimer c) true (timers c) (nextTimer c)) in
    let w1 :=
      if truthy (conversationLogId w)
      then
        set_conversationLogId None
          (set_logRequests
             (logRequests w
              ++ [ConversationLog.End
                    (default "" (conversationLogId w))
                    (if bookingCreated w then ConversationLog.completed
                     else ConversationLog.abandoned)
                    (bookingCreated w)])
             w)
      else w in
    set_conn (mkConn false idle None (reconnectAttempts c1)
                     (reconnectTimer c1) false (timers c1) (nextTimer c1))
             w1
  else
    let c1 :=
      mkConn (isActive c) connecting None 0 (reconnectTimer c)
             (isUserDisconnecting c) (timers c) (nextTimer c) in
    let w1 := set_net (tl (net w)) (set_conn c1 w) in
    (* startConversationLog, inside its try *)
    let w2 :=
      match match net w with [] => Reply 0 | o :: _ => o end with
      | Reply latency =>
          let logId := ConversationLog.logIdAt (clock w1) in
          set_clock (clock w1 + Z.max 0 latency)
            (set_bookingCreated false
               (set_conversationLogId (Some logId)
                  (set_logRequests
                     (logRequests w1 ++ [ConversationLog.Start logId])
                     w1)))
      | Lost latency => set_clock (clock w1 + Z.max 0 latency) w1
      end in
    if connected
    then
      let c2 := conn w2 in
      set_conn (mkConn true (status c2) (error c2) (reconnectAttempts c2)
                       (reconnectTimer c2) (isUserDisconnecting c2)
                       (timers c2) (nextTimer c2)) w2
    else set_conn (scheduleReconnect (isActive c) (conn w2)) w2.

(** What happens between the start and the stop of a session. *)
Inductive SessionEvent :=
| Live (active : bool) (event : LiveEvent)
| TimerRuns (active connected : bool) (h : nat)
| Wait (ms : Z)
| Elsewhere (act : AppointmentService.Collection
                   -> AppointmentService.Collection).

Definition sessionStep (w : World) (e : SessionEvent) : World :=
  match e with
  | Live active event => handleLiveEvent active event w
  | TimerRuns active connected h =>
      set_conn (reconnect active connected h (conn w)) w
  | Wait ms => set_clock (clock w + Z.max 0 ms) w
  | Elsewhere act => set_collection (act (collection w)) w
  end.

Definition sessionRun (es : list SessionEvent) (w : World) : World :=
  fold_left sessionStep es w.

(** The handler of the live client.  [handleToggle] creates the client
    with [handleLiveEvent] (line 368): the function of the render in
    which the button was pressed, which reads the [isActive] of that
    render; the timeout of [scheduleReconnect] hands the same function to
    the clients it creates (line 311).  So the events of a session are
    handled with the [isActive] the component had when the button was
    pressed.  [connect] catches what fails inside it, reports it as an
    [error] event and resolves (MultimodalLiveClient.connect), so a press
    that starts a session goes on to [setIsActive(true)]. *)
Definition reported (pressed : World) (events : list LiveEvent)
  : list SessionEvent :=
  map (Live (isActive (conn pressed))) events.

(** A press of the button in [w], then the events the client reports. *)
Definition started (events : list LiveEvent) (w : World) : World :=
  sessionRun (reported w events) (handleToggle true w).

(** The answers given to the tool calls of a run, batch by batch. *)
Fixpoint answersOf (es : list SessionEvent) (w : World)
  : list (list Call.t * list Response.t) :=
  match es with
  | [] => []
  | e :: es' =>
      match e with
      | Live _ (toolCall calls) =>
          [(calls, fst (handleToolCalls tz sofia barbers services calls w))]
      | _ => []
      end ++ answersOf es' (sessionStep w e)
  end.

End Session.

(** The connection as a started session keeps it: active, no error
    shown, no attempt counted, and the timers as they were when the
    button was pressed. *)
Definition untouched (pressed : Conn) (c : Conn) : Prop :=
  isActive c = true /\ error c = None /\ status c <> idle
  /\ reconnectAttempts c = 0
  /\ isUserDisconnecting c = isUserDisconnecting pressed
  /\ reconnectTimer c = reconnectTimer pressed /\ timers c = timers pressed
  /\ nextTimer c = nextTimer pressed.

(** Not the request that closes a log. *)
Definition notEnd (r : ConversationLog.Request (Args * option ToolResult))
  : Prop := ConversationLog.isEnd r = false.

(** The log service answers the [startConversationLog] of the next
    session start. *)
Definition logOpens (w : World) : Prop :=
  match net w with
  | Lost _ :: _ => False
  | _ => True
  end.

(** The calls of every batch of a run have ids of their own. *)
Definition ownIds (e : SessionEvent) : Prop :=
  match e with
  | Live _ (toolCall calls) => NoDup (map Call.id calls)
  | _ => True
  end.

(** A call of one of the three tools that change a booking got a
    success. *)
Definition actionSucceeded (r : Response.t) : bool :=
  success (Response.result r) && isAction (Response.name r).

Definition noArgs : Args :=
  mkArgs None None None None None None None None None.

Definition emptyCollection : AppointmentService.Collection :=
  AppointmentService.mkCollection [] 0.

(** A component that was just mounted, at instant [now]. *)
Definition mounted (now : Z) (replies : list Net)
           (c : AppointmentService.Collection) : World :=
  mkWorld now replies c [] [] ∅ None None None false
          (mkConn false idle None 0 None false [] 1).

End VoiceAgent.

(* ===================================================================== *)
(** * A salon, a day and a few sessions to run the model on               *)
(* ===================================================================== *)

Module Salon.
Import VoiceAgent.

Definition nalby : Barber.t :=
  Barber.mk "b1" "Asen" "Асен" "Head Barber" "Главен Бръснар".

Definition haircut : Service.t :=
  Service.mk "s1" "Haircut" "Подстригване" (Amount 25) 45.

(** Winter time in Sofia, and in Istanbul. *)
Definition EET : Z := 120.
Definition TRT : Z := 180.

(** 2026-01-20T08:00:00Z, ten o'clock in Sofia. *)
Definition tenInSofia : Z := 1768896000000.

(** An appointment with the barber on 2026-01-21 at 10:00 Sofia time. *)
Definition tomorrowAtTen : Appointment.t :=
  Appointment.mk "a1" "Petar" "+359888000000" "s1" "b1"
                 "2026-01-21T08:00:00.000Z" confirmed.

(** The ten o'clock of 2026-01-20, cancelled. *)
Definition cancelledAtTen : Appointment.t :=
  Appointment.mk "a1" "Ivan" "+359887112233" "s1" "b1"
                 "2026-01-20T08:00:00.000Z" cancelled.

(** *** A session in which one appointment is cancelled *)

Definition cancelCall : Call.t :=
  Call.mk "call-1" "cancel_appointment"
          (mkArgs None None None None None None (Some "a1") None None).

Definition cancelOnly : list SessionEvent :=
  [Live false setupComplete; Live false (toolCall [cancelCall])].

Definition beforeCancel : World :=
  mounted tenInSofia [Reply 50; Reply 80]
          (AppointmentService.mkCollection [tomorrowAtTen] 0).

(** *** Slots are read, then the slot is booked *)

Definition slotsArgs : Args :=
  mkArgs (Some "b1") None (Some "2026-01-21") None None None None None None.

Definition bookArgs : Args :=
  mkArgs (Some "b1") (Some "s1") (Some "2026-01-21") (Some "10:00")
         (Some "Ivan") (Some "0887 11 22 33") None None None.

Definition opened : World :=
  mounted tenInSofia [Reply 100; Reply 200] emptyCollection.

Definition slotsRead : Res ToolResult * World :=
  get_available_slots EET EET [nalby] slotsArgs opened.

(** Another session books tomorrow at ten right after the slots were
    read; [ms] later the agent is asked to book the same slot. *)
Definition takenElsewhere (ms : Z) (replies : list Net) : World :=
  set_clock (clock (snd slotsRead) + ms)
    (set_net replies
       (set_collection (AppointmentService.mkCollection [tomorrowAtTen] 0)
                       (snd slotsRead))).

Definition book (w : World) : Res ToolResult * World :=
  book_appointment EET [nalby] [haircut] bookArgs w.

(** The booking comes 9.9 s after the slots were read; the same call
    comes again 5.8 s after it was answered. *)
Definition firstBooking : Res ToolResult * World :=
  book (set_clock (clock (snd slotsRead) + 9900) (snd slotsRead)).

Definition soonAfter : World :=
  set_clock (clock (snd firstBooking) + 5800)
            (set_net [Reply 50] (snd firstBooking)).

(** The booking is the first call of the session; the same call comes
    again 3 s, or 10.1 s, after it was answered. *)
Definition directBooking : Res ToolResult * World := book opened.

Definition atOnce : World :=
  set_clock (clock (snd directBooking) + 3000) (snd directBooking).

Definition tenSecondsAfter : World :=
  set_clock (clock (snd directBooking) + 10100)
            (set_net [Reply 70] (snd directBooking)).

(** *** The backend answers the read of the slots after 7 s *)

Definition slotsCall : Call.t :=
  Call.mk "call-7" "get_available_slots" slotsArgs.

Definition slowBackend : World :=
  mounted tenInSofia [Reply 7000] emptyCollection.

(** *** The setup completes, then the connection breaks *)

Definition afterSetupBroken : list LiveEvent :=
  [setupComplete; errorEvent "Connection error"; close "Code: 1006"].

(** *** Half past eleven in the evening in Sofia, half past midnight in
    Istanbul *)

Definition lateEvening : Z := tenInSofia + 13 * 3600000 + 1800000.

Definition todayArgs : Args :=
  mkArgs (Some "b1") None (Some "2026-01-20") None None None None None None.

End Salon.

(* ===================================================================== *)
(** * Definitions used to state further properties                        *)
(* ===================================================================== *)

Module SlotSearch.
Import BookingManager.

Section Zone.
Variable tz : Z.

(** The date string of the [i]-th day of the search of
    [findSlotForBarber]. *)
Definition dayStr (sofia startDate i : Z) : string :=
  JsDate.toLocaleDateStringCA sofia
    (JsDate.setDate tz startDate (JsDate.getDate tz startDate + i)).

(** [slotHour <= currentHour] for the first piece of [slot.split(':')]. *)
Definition hourPassed (sofia now : Z) (slot : string) : bool :=
  match option_map JsDate.jsNumber (head (JsDate.splitColon slot)) with
  | Some (Some slotHour) => slotHour <=? JsDate.getHours sofia now
  | _ => false
  end.

(** The slot [slot] of day [i] is the one the search returns if it gets
    there: it is not skipped as a past slot of today, and it is free. *)
Definition candidate (now sofia : Z) (barberId : string)
           (appointments : list Appointment.t) (startDate : Z)
           (i : Z) (slot : string) : bool :=
  negb (String.eqb (dayStr sofia startDate i)
                   (JsDate.toLocaleDateStringCA sofia now)
        && hourPassed sofia now slot)
  && isSlotAvailable tz slot (dayStr sofia startDate i) barberId appointments.

(** [slot'] comes before [slot] in the grid. *)
Definition earlierInGrid (slot' slot : string) : Prop :=
  exists l1 l2, TIME_SLOTS = (l1 ++ slot :: l2)%list /\ In slot' l1.

End Zone.

(** The body of the loop of [findNextAvailableSlot] over the barbers, for
    any way [slotOf] of finding a slot and any reading [instant] of it. *)
Section Earliest.
Context {B S : Type}.
Variable slotOf : B -> option S.
Variable instant : S -> option Z.

Definition keepEarliest (earliestSlot : option S) (barber : B) : option S :=
  match slotOf barber with
  | Some slot =>
      match earliestSlot with
      | None => Some slot
      | Some e =>
          if dateLt (instant slot) (instant e)
          then Some slot else earliestSlot
      end
  | None => earliestSlot
  end.

End Earliest.

End SlotSearch.

(** A second barber, and an appointment with the first one today at
    eleven. *)
Module Salon2.
Import VoiceAgent.

Definition mario : Barber.t :=
  Barber.mk "b2" "Mario" "Марио" "Barber" "Бръснар".

Definition todayAtEleven : Appointment.t :=
  Appointment.mk "a2" "Georgi" "+359888111222" "s1" "b1"
                 "2026-01-20T09:00:00.000Z" confirmed.

End Salon2.

Module Iso.

(** The instants [toISOString] writes with a year of four digits:
    from 0000-01-01T00:00:00.000Z to 9999-12-31T23:59:59.999Z. *)
Definition isoRange (t : Z) : Prop :=
  -62167219200000 <= t < 253402300800000.

(** The date an appointment is stored with when it is made for the local
    date and time [date], [time]:
    [new Date(`${date}T${time}`).toISOString()]. *)
Definition storedDate (tz : Z) (date time : string) : option string :=
  JsDate.toISOString (JsDate.parse tz (date ++ "T" ++ time)).

(** No character of [s] is a decimal digit. *)
Definition noDigit (s : string) : bool :=
  forallb (fun c => match JsDate.digit c with
                    | Some _ => false
                    | None => true
                    end) (list_ascii_of_string s).

End Iso.

Module Booked.
Import VoiceAgent.

(** The appointment [book_appointment] has the backend store for the call
    [a], the name [n], the phone [raw] as given and the date [iso], in the
    collection [c]. *)
Definition appointment (a : Args) (n raw iso : string)
           (c : AppointmentService.Collection) : Appointment.t :=
  Appointment.mk
    (AppointmentService.docId (AppointmentService.nextDoc c))
    n ("+" ++ normalizePhone raw) (tpl (serviceId a))
    (default "" (barberId a)) iso pending.

End Booked.

(** Worlds and collections of the salon used below. *)
Module SalonCases.
Import VoiceAgent Salon.

(** The read of the appointments is answered at once, the write after
    seven seconds. *)
Definition slowWrite : World :=
  mounted tenInSofia [Reply 100; Reply 7000] emptyCollection.

Definition twoAppointments : AppointmentService.Collection :=
  AppointmentService.mkCollection [tomorrowAtTen; Salon2.todayAtEleven] 2.

End SalonCases.

(** What a computation of the component leaves as it was. *)
Module Frames.
Import VoiceAgent.

Definition preserves {A X : Type} (proj : World -> X) (m : M A) : Prop :=
  forall w : World, proj (snd (m w)) = proj w.

(** What the backend stores, what the page was handed and what the
    component remembers of its last booking. *)
Definition store (w : World)
  : AppointmentService.Collection * list Appointment.t
    * option (string * Z) :=
  (collection w, booked w, lastBookingRef w).

End Frames.

Module SalonCalls.
Import VoiceAgent Salon.

Definition earliestCall : Call.t :=
  Call.mk "call-8" "find_earliest_slot" slotsArgs.

Definition unknownCall : Call.t := Call.mk "call-9" "get_prices" noArgs.

Definition cancelArgs : Args :=
  mkArgs None None None None None None (Some "a1") None None.

(** The backend answers the next request after seven seconds. *)
Definition slowCancel : World :=
  mounted tenInSofia [Reply 7000]
          (AppointmentService.mkCollection [tomorrowAtTen] 1).

End SalonCalls.

Module HybridTurns.
Import Hybrid.

(** An event that is neither the end of the speech nor the failure of
    the turn. *)
Definition keepsBusy (e : Event) : bool :=
  match e with
  | TtsEnd | Failed => false
  | _ => true
  end.

(** The agent speaks; the customer talks over it for a while. *)
Definition talkingOver : list Event :=
  [Stt "iskam chas" false; Elapse 400; Stt "iskam chas za utre" false;
   Elapse 2000; Stt "iskam chas za utre" true; Elapse 5000].

Definition busy : Controller :=
  mkController speaking "" None true [] 1 0 ["zdravei"].

End HybridTurns.
Module ConversationRest.
Import Conversation.

(** [getMissingFields]. *)
Definition getMissingFields (h : Hook) : list string :=
  (if negb (filled (service (bookingData h))) then ["услуга"] else [])
  ++ (if negb (filled (dateTime (bookingData h))) then ["дата и час"] else [])
  ++ (if negb (filled (name (bookingData h))) then ["име"] else [])
  ++ (if negb (filled (phone (bookingData h))) then ["телефон"] else []).

(** A value inside a template literal. *)
Definition text (v : Nullable string) : string :=
  match v with
  | Null => "null"
  | Undefined => "undefined"
  | Val s => s
  end.

Definition number (v : Nullable Z) : string :=
  match v with
  | Null => "null"
  | Undefined => "undefined"
  | Val n => decimal n
  end.

(** [generateConfirmationSummary]; the template ends and begins with
    white space, which [trim] removes. *)
Definition generateConfirmationSummary (d : BookingData) : string :=
  if negb (filled (service d)) || negb (filled (dateTime d))
     || negb (filled (name d)) || negb (filled (phone d))
  then ""
  else "📋 РЕЗЕРВАЦИЯ

💈 Услуга: " ++ text (service d) ++ "
📅 Дата/Час: " ++ text (dateTime d) ++ "
👤 Име: " ++ text (name d) ++ "
📞 Телефон: " ++ text (phone d) ++ "
💰 Цена: " ++ number (price d) ++ " лв

Благодарим ви, че избрахте Blade & Bourbon! 🥃✂️".

(** What the page can do with the hook. *)
Inductive Action :=
| Update (updates : Partial.t)
| Say (role content : string)
| Reset.

Definition act (h : Hook) (a : Action) : Hook :=
  match a with
  | Update updates => updateBookingData updates h
  | Say r c => addMessage r c h
  | Reset => resetConversation h
  end.

Definition after (actions : list Action) : Hook :=
  fold_left act actions initial.

(** One update that brings the four fields and the price. *)
Definition allFour : Partial.t :=
  Partial.mk (Some (Val "Подстригване")) (Some (Val "утре в 10"))
             (Some (Val "Иван")) (Some (Val "0887112233")) (Some (Val 40)).

End ConversationRest.
Module Phone.

(** The characters [/\D/g] does not match. *)
Definition isDigit (c : ascii) : bool :=
  match JsDate.digit c with Some _ => true | None => false end.

End Phone.

(* ===================================================================== *)
(** * services/conversationLogService.ts: the documents of the logs      *)
(* ===================================================================== *)

Module LogStore.
Import ConversationLog.

#[global] Instance EventType_eq_dec : EqDecision EventType.
Proof. solve_decision. Defined.

Section Store.
(** What an event carries as metadata: a value Firestore accepts. *)
Context {Meta : Type} `{EqDecision Meta}.

(** [ConversationEvent]. *)
Record Event := mkEvent {
  ev_type : EventType;
  ev_content : string;
  ev_timestamp : Z;
  ev_metadata : option Meta
}.

#[global] Instance Event_eq_dec : EqDecision Event.
Proof. solve_decision. Defined.

(** [ConversationLog], a document of [shops/{shopId}/conversationLogs]. *)
Record Log := mkLog {
  id : string;
  startTime : Z;
  endTime : option Z;
  duration : option Z;
  outcome : Outcome;
  events : list Event;
  toolCalls : Z;
  bookingCreated : bool;
  appointmentId : option string
}.

(** Firestore's [arrayUnion] of one element: it is added unless the
    array holds an equal one. *)
Definition arrayUnion (e : Event) (l : list Event) : list Event :=
  if decide (e ∈ l) then l else l ++ [e].

(** [startConversationLog]; [now] and [startedAt] are its two readings
    of the clock.  [setDoc] replaces a document that exists. *)
Definition startConversationLog (now startedAt : Z)
           (store : gmap string Log) : string * gmap string Log :=
  let logId := logIdAt now in
  (logId,
   <[logId := mkLog logId startedAt None None active [] 0 false None]> store).

(** [addConversationEvent] at instant [now]; [updateDoc] fails on a
    document that does not exist, and the [catch] swallows it. *)
Definition addConversationEvent (now : Z) (logId : string)
           (type : EventType) (content : string) (metadata : option Meta)
           (store : gmap string Log) : gmap string Log :=
  match store !! logId with
  | Some log =>
      <[logId :=
          mkLog (id log) (startTime log) (endTime log) (duration log)
                (outcome log)
                (arrayUnion (mkEvent type content now metadata) (events log))
                (match type with
                 | tool_call => toolCalls log + 1
                 | _ => toolCalls log
                 end)
                (bookingCreated log) (appointmentId log)]> store
  | None => store
  end.

(** [Math.round(ms / 1000)]. *)
Definition roundSeconds (ms : Z) : Z := (ms + 500) / 1000.

(** [endConversationLog] at instant [now]. *)
Definition endConversationLog (now : Z) (logId : string) (result : Outcome)
           (created : bool) (appointment : option string)
           (startedAt : option Z) (store : gmap string Log)
  : gmap string Log :=
  let computed :=
    match startedAt with
    | Some s =>
        if Z.eqb s 0
        then option_map (fun log => roundSeconds (now - startTime log))
                        (store !! logId)
        else Some (roundSeconds (now - s))
    | None =>
        option_map (fun log => roundSeconds (now - startTime log))
                   (store !! logId)
    end in
  match store !! logId with
  | Some log =>
      <[logId :=
          mkLog (id log) (startTime log) (Some now)
                (match computed with
                 | Some d => Some d
                 | None => duration log
                 end)
                result (events log) (toolCalls log) created
                (if truthy appointment then appointment
                 else appointmentId log)]> store
  | None => store
  end.

(** A call of [addConversationEvent]: when, and with what. *)
Record Send := mkSend {
  at_ : Z;
  type_ : EventType;
  content_ : string;
  metadata_ : option Meta
}.

Definition sent (s : Send) : Event :=
  mkEvent (type_ s) (content_ s) (at_ s) (metadata_ s).

Definition isToolCall (s : Send) : bool :=
  match type_ s with
  | tool_call => true
  | _ => false
  end.

Definition sendAll (logId : string) (sends : list Send)
           (store : gmap string Log) : gmap string Log :=
  fold_left
    (fun st s =>
       addConversationEvent (at_ s) logId (type_ s) (content_ s)
                            (metadata_ s) st)
    sends store.

End Store.

Arguments Event Meta : clear implicits.
Arguments Log Meta : clear implicits.
Arguments Send Meta : clear implicits.

(** Two calls of [get_barbers] of one batch are logged at one instant. *)
Definition twice : list (Send string) :=
  [mkSend 1768896000500 tool_call "get_barbers" (Some "{}");
   mkSend 1768896000500 tool_call "get_barbers" (Some "{}")].

Definition opened : gmap string (Log string) :=
  snd (startConversationLog 1768896000000 1768896000000 ∅).

End LogStore.
(* ===================================================================== *)
(** * The session endpoint: the next slot it announces                    *)
(* ===================================================================== *)

Module NextSlot.

Definition days : list string :=
  ["неделя"; "понеделник"; "вторник"; "сряда"; "четвъртък"; "петък";
   "събота"].

(** [days[i]]. *)
Definition day (i : Z) : string := nth (Z.to_nat i) days "undefined".

(** [nextDay] and [nextTime] of [onRequestGet], from the day of the week
    (0 is Sunday) and the hour in Sofia. *)
Definition nextSlot (dayOfWeek hour : Z) : string * string :=
  if dayOfWeek =? 0 then ("утре (понеделник)", "10:00")
  else if (dayOfWeek =? 6) && (18 <=? hour) then ("понеделник", "10:00")
  else if ((1 <=? dayOfWeek) && (dayOfWeek <=? 5) && (20 <=? hour))
          || ((dayOfWeek =? 6) && (18 <=? hour))
  then
    let tomorrow :=
      if dayOfWeek =? 6 then "понеделник" else day ((dayOfWeek + 1) mod 7) in
    ("утре (" ++ tomorrow ++ ")", "10:00")
  else if hour <? 10 then ("днес (" ++ day dayOfWeek ++ ")", "10:00")
  else
    let nextHour := hour + 1 in
    ("днес (" ++ day dayOfWeek ++ ")", decimal nextHour ++ ":00").

(** The hour at which the shop closes: 18 on Saturday, 20 from Monday to
    Friday, as the prompt says. *)
Definition closing (dayOfWeek : Z) : Z := if dayOfWeek =? 6 then 18 else 20.

(** The slot is announced for today. *)
Definition today (slot : string * string) : bool :=
  String.prefix "днес" (fst slot).

(** The hour announced. *)
Definition announced (dayOfWeek hour : Z) : Z :=
  if today (nextSlot dayOfWeek hour) && (10 <=? hour) then hour + 1 else 10.

(** The integers from [lo], [n] of them. *)
Definition range (lo : Z) (n : nat) : list Z :=
  map (fun i => lo + Z.of_nat i) (seq 0 n).

(** What is checked of every day and hour. *)
Definition inOpeningHours (dayOfWeek hour : Z) : bool :=
  let slot := nextSlot dayOfWeek hour in
  let h := announced dayOfWeek hour in
  String.eqb (snd slot) (decimal h ++ ":00")
  && (10 <=? h)
  && (if today slot
      then (1 <=? dayOfWeek) && (hour <? closing dayOfWeek)
           && (hour <? h) && (h <=? closing dayOfWeek)
           && String.eqb (fst slot) ("днес (" ++ day dayOfWeek ++ ")")
      else ((dayOfWeek =? 0) || (closing dayOfWeek <=? hour))
           && negb (AppointmentService.contains "неделя" (fst slot))).

End NextSlot.

Module SalonDays.
Import VoiceAgent Salon.

(** Winter time in New York. *)
Definition EST : Z := -300.

(** 2026-01-21 at 10:00 in New York. *)
Definition tenInNewYork : Appointment.t :=
  Appointment.mk "a3" "John" "+359888333444" "s1" "b1"
                 "2026-01-21T15:00:00.000Z" confirmed.

(** Another customer asks for the slot of [bookArgs]. *)
Definition secondCustomer : Args :=
  mkArgs (Some "b1") (Some "s1") (Some "2026-01-21") (Some "10:00")
         (Some "Petar") (Some "0888 000 000") None None None.

(** Twenty seconds after the booking of [directBooking] was answered. *)
Definition afterExpiry : World :=
  set_clock (clock (snd directBooking) + 20000)
            (set_net [Reply 100] (snd directBooking)).

End SalonDays.

Module IsoText.

(** The text is what [toISOString] writes for an instant of the years 0
    to 9999: every date the code stores is written so. *)
Definition canonical (s : string) : Prop :=
  exists t : Z, Iso.isoRange t /\ JsDate.toISOString (Some t) = Some s.

End IsoText.
Module HybridTalk.
Import Hybrid HybridTurns.

(** One exchange: the customer says something, the agent answers; what
    reaches the controller while it answers, and how the answer ends
    ([TtsEnd] or [Failed]). *)
Record Exchange := mkExchange {
  said : list Partial;
  closed : Ending;
  meanwhile : list Event;
  ended : Event
}.

Definition exchange (x : Exchange) : list Event :=
  utterance (said x) (closed x) ++ meanwhile x ++ [ended x].

Definition conversation (xs : list Exchange) : list Event :=
  flat_map exchange xs.

Definition answered (x : Exchange) : Prop :=
  wellFormed (said x) (closed x)
  /\ forallb keepsBusy (meanwhile x) = true
  /\ keepsBusy (ended x) = false.

(** Two exchanges; the customer talks over the first answer. *)
Definition twoExchanges : list Exchange :=
  [mkExchange twoPartials (Silence 1600) talkingOver TtsEnd;
   mkExchange [] (FinalSignal 200 "утре в десет") [] TtsEnd].

End HybridTalk.

(* ===================================================================== *)
(** * Properties                                                          *)
(* ===================================================================== *)

Module BookingFacts.
Import BookingManager.

Lemma firstSome_ext {A B : Type} (f g : A -> option B) (l : list A) :
  (forall x, f x = g x) -> firstSome f l = firstSome g l.
Proof.
  intros Hfg. induction l as [|x l IH]; simpl.
  - reflexivity.
  - rewrite Hfg, IH. reflexivity.
Qed.

Lemma fold_left_ext {A B : Type} (f g : A -> B -> A) (l : list B) (a : A) :
  (forall x y, f x y = g x y) -> fold_left f l a = fold_left g l a.
Proof.
  intros Hfg. revert a. induction l as [|y l IH]; intros a.
  - reflexivity.
  - cbn [fold_left]. rewrite Hfg. apply IH.
Qed.

Section Zone.
Variable tz : Z.

(** The callback of [some] is the conjunction of its three tests. *)
Lemma occupies_bookedOn (time dateToCheck barberId : string)
      (apt : Appointment.t) :
  occupies tz barberId (JsDate.parse tz (dateToCheck ++ "T" ++ time)) apt
  = bookedOn tz time dateToCheck barberId apt && notCancelled apt.
Proof.
  unfold occupies, bookedOn, sameMinute, notCancelled.
  destruct (String.eqb (Appointment.barberId apt) barberId); simpl;
    [|reflexivity].
  destruct (Status_eqb (Appointment.status apt) cancelled); simpl.
  - rewrite andb_false_r. reflexivity.
  - rewrite andb_true_r.
    repeat match goal with
           | |- context [JsDate.numEq ?a ?b] =>
               destruct (JsDate.numEq a b); simpl; try reflexivity
           end.
Qed.

Lemma occupies_cancelled (barberId : string) (target : option Z)
      (apt : Appointment.t) :
  notCancelled apt = false -> occupies tz barberId target apt = false.
Proof.
  unfold notCancelled, occupies. intros H.
  apply negb_false_iff in H. rewrite H, orb_true_r. reflexivity.
Qed.

Lemma existsb_occupies_live (barberId : string) (target : option Z)
      (appointments : list Appointment.t) :
  existsb (occupies tz barberId target) (live appointments)
  = existsb (occupies tz barberId target) appointments.
Proof.
  induction appointments as [|apt l IH]; simpl; [reflexivity|].
  destruct (notCancelled apt) eqn:Hc; simpl.
  - rewrite IH. reflexivity.
  - rewrite (occupies_cancelled _ _ _ Hc). simpl. exact IH.
Qed.

Lemma isSlotAvailable_live (time dateToCheck barberId : string)
      (appointments : list Appointment.t) :
  isSlotAvailable tz time dateToCheck barberId (live appointments)
  = isSlotAvailable tz time dateToCheck barberId appointments.
Proof.
  unfold isSlotAvailable.
  destruct (String.eqb dateToCheck "" || String.eqb barberId "");
    [reflexivity|].
  rewrite existsb_occupies_live. reflexivity.
Qed.

Lemma getFreeSlots_live (date barberId : string)
      (appointments : list Appointment.t) :
  getFreeSlots tz date barberId (live appointments)
  = getFreeSlots tz date barberId appointments.
Proof.
  unfold getFreeSlots. apply filter_ext. intros slot.
  apply isSlotAvailable_live.
Qed.

Lemma findSlotForBarber_live (now sofia : Z) (barberId : string)
      (appointments : list Appointment.t) (startDate : Z) :
  findSlotForBarber tz now sofia barberId (live appointments) startDate
  = findSlotForBarber tz now sofia barberId appointments startDate.
Proof.
  unfold findSlotForBarber. apply firstSome_ext. intros i.
  apply firstSome_ext. intros slot.
  rewrite isSlotAvailable_live. reflexivity.
Qed.

Lemma findNextAvailableSlot_live (now sofia : Z)
      (appointments : list Appointment.t) (barbers : list Barber.t)
      (barberId : option string) (startDate : Z) :
  findNextAvailableSlot tz now sofia (live appointments) barbers barberId
                        startDate
  = findNextAvailableSlot tz now sofia appointments barbers barberId
                          startDate.
Proof.
  unfold findNextAvailableSlot.
  destruct (truthy barberId).
  - apply findSlotForBarber_live.
  - apply fold_left_ext. intros earliestSlot barber.
    rewrite findSlotForBarber_live. reflexivity.
Qed.

Lemma isSlotAvailable_only_cancelled (time dateToCheck barberId : string)
      (appointments : list Appointment.t) :
  (forall apt, In apt appointments ->
               bookedOn tz time dateToCheck barberId apt = true ->
               Appointment.status apt = cancelled) ->
  isSlotAvailable tz time dateToCheck barberId appointments = true.
Proof.
  intros Honly. unfold isSlotAvailable.
  destruct (String.eqb dateToCheck "" || String.eqb barberId "");
    [reflexivity|].
  apply negb_true_iff.
  destruct (existsb _ appointments) eqn:Hex; [|reflexivity].
  apply existsb_exists in Hex. destruct Hex as [apt [Hin Hocc]].
  rewrite occupies_bookedOn in Hocc.
  apply andb_true_iff in Hocc. destruct Hocc as [Hb Hn].
  specialize (Honly apt Hin Hb). unfold notCancelled in Hn.
  rewrite Honly in Hn. discriminate.
Qed.

End Zone.

(** C10. A cancelled appointment never occupies a slot: when every
    appointment booked on a (time, date, barber) triple is cancelled,
    [isSlotAvailable] answers true and the slot is among [getFreeSlots];
    [isSlotAvailable], [getFreeSlots] and [findNextAvailableSlot] give
    the same answer with and without the cancelled appointments; and
    [isSlotAvailable] is true whenever the date or the barber is empty. *)
Theorem cancelled_never_occupies (tz : Z) :
  (forall (time dateToCheck barberId : string)
          (appointments : list Appointment.t),
      (forall apt, In apt appointments ->
                   bookedOn tz time dateToCheck barberId apt = true ->
                   Appointment.status apt = cancelled) ->
      isSlotAvailable tz time dateToCheck barberId appointments = true
      /\ (In time TIME_SLOTS ->
          In time (getFreeSlots tz dateToCheck barberId appointments)))
  /\ (forall (time dateToCheck barberId : string)
             (appointments : list Appointment.t),
         isSlotAvailable tz time dateToCheck barberId appointments
         = isSlotAvailable tz time dateToCheck barberId (live appointments))
  /\ (forall (date barberId : string) (appointments : list Appointment.t),
         getFreeSlots tz date barberId appointments
         = getFreeSlots tz date barberId (live appointments))
  /\ (forall (now sofia : Z) (appointments : list Appointment.t)
             (barbers : list Barber.t) (barberId : option string)
             (startDate : Z),
         findNextAvailableSlot tz now sofia appointments barbers barberId
                               startDate
         = findNextAvailableSlot tz now sofia (live appointments) barbers
                                 barberId startDate)
  /\ (forall (time barberId : string) (appointments : list Appointment.t),
         isSlotAvailable tz time "" barberId appointments = true)
  /\ (forall (time dateToCheck : string) (appointments : list Appointment.t),
         isSlotAvailable tz time dateToCheck "" appointments = true).
Proof.
  split; [|split; [|split; [|split; [|split]]]].
  - intros time dateToCheck barberId appointments Honly. split.
    + apply isSlotAvailable_only_cancelled. exact Honly.
    + intros Hslot. unfold getFreeSlots. apply filter_In.
      split; [exact Hslot|].
      apply isSlotAvailable_only_cancelled. exact Honly.
  - intros. symmetry. apply isSlotAvailable_live.
  - intros. symmetry. apply getFreeSlots_live.
  - intros. symmetry. apply findNextAvailableSlot_live.
  - intros. reflexivity.
  - intros time dateToCheck appointments. unfold isSlotAvailable.
    destruct (String.eqb dateToCheck ""); reflexivity.
Qed.

(** In Sofia (UTC+2) the slot 10:00 of 2026-01-20 holds one appointment,
    and it is cancelled: the slot is free. *)
Lemma cancelled_never_occupies_witness :
  isSlotAvailable 120 "10:00" "2026-01-20" "b1" [Salon.cancelledAtTen] = true
  /\ In "10:00" (getFreeSlots 120 "2026-01-20" "b1" [Salon.cancelledAtTen]).
Proof.
  destruct (cancelled_never_occupies 120) as [Honly _].
  destruct (Honly "10:00" "2026-01-20" "b1" [Salon.cancelledAtTen])
    as [H1 H2].
  - intros apt [<-|[]] _. reflexivity.
  - split; [exact H1|]. apply H2. simpl. auto.
Defined.

End BookingFacts.

Module ConversationFacts.
Import Conversation.

(** The step the cascade of [updateBookingData] picks for a draft. *)
Lemma updateBookingData_step (u : Partial.t) (h : Hook) :
  let h' := updateBookingData u h in
  let d := bookingData h' in
  currentStep h' =
    if negb (filled (service d)) then Step.service
    else if negb (filled (dateTime d)) then Step.datetime
    else if negb (filled (name d)) then Step.name
    else if negb (filled (phone d)) then Step.phone
    else Step.confirmation.
Proof. reflexivity. Qed.

Lemma initial_inLine : inLine initial.
Proof. reflexivity. Qed.

Lemma run_inLine (calls : list Partial.t) (h : Hook) :
  inLine h -> inLine (run calls h).
Proof.
  revert h. induction calls as [|u calls IH]; intros h Hh; simpl.
  - exact Hh.
  - apply IH. unfold inLine. apply updateBookingData_step.
Qed.

Lemma spread_filled (prev : Nullable string) (upd : option (Nullable string)) :
  bringsValue upd -> filled prev = true -> filled (spread prev upd) = true.
Proof. destruct upd; simpl; auto. Qed.

Lemma update_rank (u : Partial.t) (h : Hook) :
  fills u -> inLine h ->
  (Step.rank (currentStep h) <= Step.rank (currentStep (updateBookingData u h)))%nat.
Proof.
  intros (Hs & Hd & Hn & Hp) Hh.
  rewrite updateBookingData_step. rewrite Hh. cbn zeta.
  unfold updateBookingData; cbn [bookingData service dateTime name phone].
  pose proof (spread_filled (service (bookingData h)) _ Hs) as Fs.
  pose proof (spread_filled (dateTime (bookingData h)) _ Hd) as Fd.
  pose proof (spread_filled (name (bookingData h)) _ Hn) as Fn.
  pose proof (spread_filled (phone (bookingData h)) _ Hp) as Fp.
  destruct (filled (service (bookingData h)));
    [rewrite (Fs eq_refl)|]; cbn [negb];
    [|destruct (negb _); [|destruct (negb _); [|destruct (negb _);
       [|destruct (negb _)]]]; cbn; lia].
  destruct (filled (dateTime (bookingData h)));
    [rewrite (Fd eq_refl)|]; cbn [negb];
    [|destruct (negb _); [|destruct (negb _); [|destruct (negb _)]];
      cbn; lia].
  destruct (filled (name (bookingData h)));
    [rewrite (Fn eq_refl)|]; cbn [negb];
    [|destruct (negb _); [|destruct (negb _)]; cbn; lia].
  destruct (filled (phone (bookingData h)));
    [rewrite (Fp eq_refl)|]; cbn [negb];
    [|destruct (negb _); cbn; lia].
  cbn. lia.
Qed.

Lemma run_rank (calls : list Partial.t) (h : Hook) :
  Forall fills calls -> inLine h ->
  (Step.rank (currentStep h) <= Step.rank (currentStep (run calls h)))%nat.
Proof.
  revert h. induction calls as [|u calls IH]; intros h Hall Hh; simpl.
  - lia.
  - inversion Hall as [|? ? Hu Hrest]; subst.
    etransitivity; [apply (update_rank u h Hu Hh)|].
    apply IH; [exact Hrest|]. unfold inLine. apply updateBookingData_step.
Qed.

(** C3. After every call of [updateBookingData], in every sequence of
    calls, [currentStep] is the first field of the draft that is not
    filled, in the order service, dateTime, name, phone, and it is
    [confirmation] when the four are filled; hence, along calls that bring
    values, in whatever order, the step never moves back. *)
Theorem currentStep_first_unfilled :
  (forall (calls : list Partial.t) (u : Partial.t),
      let h := updateBookingData u (run calls initial) in
      let d := bookingData h in
      (currentStep h = Step.service <-> filled (service d) = false)
      /\ (currentStep h = Step.datetime <->
          filled (service d) = true /\ filled (dateTime d) = false)
      /\ (currentStep h = Step.name <->
          filled (service d) = true /\ filled (dateTime d) = true
          /\ filled (name d) = false)
      /\ (currentStep h = Step.phone <->
          filled (service d) = true /\ filled (dateTime d) = true
          /\ filled (name d) = true /\ filled (phone d) = false)
      /\ (currentStep h = Step.confirmation <->
          filled (service d) = true /\ filled (dateTime d) = true
          /\ filled (name d) = true /\ filled (phone d) = true))
  /\ (forall (before after : list Partial.t),
         Forall fills after ->
         (Step.rank (currentStep (run before initial))
          <= Step.rank (currentStep (run (before ++ after) initial)))%nat).
Proof.
  split.
  - intros calls u h d. subst d.
    pose proof (updateBookingData_step u (run calls initial)) as Hstep.
    cbn zeta in Hstep. fold h in Hstep. rewrite Hstep. clear Hstep.
    destruct (filled (service (bookingData h)));
      destruct (filled (dateTime (bookingData h)));
      destruct (filled (name (bookingData h)));
      destruct (filled (phone (bookingData h)));
      cbn; repeat split; intros; try discriminate; try reflexivity;
      repeat match goal with H : _ /\ _ |- _ => destruct H end;
      try discriminate.
  - intros before after Hfill. unfold run. rewrite fold_left_app.
    apply run_rank; [exact Hfill|].
    apply run_inLine, initial_inLine.
Qed.

(** The phone comes before the service: the step goes from [service] to
    [datetime], not back. *)
Lemma currentStep_first_unfilled_witness :
  Forall fills [giveService]
  /\ (Step.rank (currentStep (run [givePhone] initial))
      <= Step.rank (currentStep (run ([givePhone] ++ [giveService]) initial)))%nat.
Proof.
  assert (Hf : Forall fills [giveService]).
  { repeat constructor. }
  split; [exact Hf|].
  exact (proj2 currentStep_first_unfilled [givePhone] [giveService] Hf).
Defined.

Lemma act_inLine (h : Hook) (a : ConversationRest.Action) :
  inLine h -> inLine (ConversationRest.act h a).
Proof.
  intros Hh. destruct a as [updates|r c|]; cbn [ConversationRest.act].
  - unfold inLine. apply updateBookingData_step.
  - exact Hh.
  - reflexivity.
Qed.

Lemma run_act_inLine (actions : list ConversationRest.Action) (h : Hook) :
  inLine h -> inLine (fold_left ConversationRest.act actions h).
Proof.
  revert h. induction actions as [|a actions IH]; intros h Hh; cbn.
  - exact Hh.
  - apply IH, act_inLine, Hh.
Qed.

Lemma filled_notNull (v : Nullable string) : filled v = true -> notNull v = true.
Proof. destruct v; [discriminate|discriminate|reflexivity]. Qed.

Lemma notNull_not_Null {A : Type} (v : Nullable A) : notNull v = true -> v <> Null.
Proof. destruct v; [discriminate|discriminate|discriminate]. Qed.

(** C4, amended.  In every state the hook reaches -- by calls of
    [updateBookingData], [addMessage] and [resetConversation] in any
    order -- [isComplete] is true only when the four fields are not null
    and the step is [confirmation]; the step is [confirmation] exactly
    when the four fields are filled and it is never [complete]; so
    [isComplete] is true exactly when the four fields are filled: the
    hook keeps no confirmation apart from the completeness of the
    draft. *)
Theorem isComplete_is_completeness (actions : list ConversationRest.Action) :
  let h := ConversationRest.after actions in
  let d := bookingData h in
  (isComplete h = true ->
   service d <> Null /\ dateTime d <> Null /\ name d <> Null
   /\ phone d <> Null /\ currentStep h = Step.confirmation)
  /\ (currentStep h = Step.confirmation <->
      filled (service d) = true /\ filled (dateTime d) = true
      /\ filled (name d) = true /\ filled (phone d) = true)
  /\ currentStep h <> Step.complete
  /\ (isComplete h = true <->
      filled (service d) = true /\ filled (dateTime d) = true
      /\ filled (name d) = true /\ filled (phone d) = true).
Proof.
  intros h d.
  pose proof (run_act_inLine actions initial initial_inLine)
    as Hline.
  fold (ConversationRest.after actions) in Hline. fold h in Hline. subst d.
  clearbody h. unfold inLine in Hline. unfold isComplete. rewrite Hline.
  pose proof (filled_notNull (service (bookingData h))) as Ns.
  pose proof (filled_notNull (dateTime (bookingData h))) as Nd.
  pose proof (filled_notNull (name (bookingData h))) as Nn.
  pose proof (filled_notNull (phone (bookingData h))) as Np.
  pose proof (@notNull_not_Null _ (service (bookingData h))) as Ms.
  pose proof (@notNull_not_Null _ (dateTime (bookingData h))) as Md.
  pose proof (@notNull_not_Null _ (name (bookingData h))) as Mn.
  pose proof (@notNull_not_Null _ (phone (bookingData h))) as Mp.
  destruct (filled (service (bookingData h)));
    destruct (filled (dateTime (bookingData h)));
    destruct (filled (name (bookingData h)));
    destruct (filled (phone (bookingData h)));
    cbn [negb]; rewrite ?andb_false_r;
    (split; [|split; [|split; [discriminate|]]]);
    try (intros H; discriminate H);
    try (split; [intros H; discriminate H
                |intros (H1 & H2 & H3 & H4); discriminate]).
  - intros _. rewrite (Ns eq_refl), (Nd eq_refl), (Nn eq_refl), (Np eq_refl) in *.
    repeat split; auto.
  - split; auto.
  - rewrite (Ns eq_refl), (Nd eq_refl), (Nn eq_refl), (Np eq_refl).
    split; auto.
Qed.

(** C4 as stated fails: one call of [updateBookingData] brings the four
    fields; nothing has been said or confirmed, and [isComplete] is
    true. *)
Lemma complete_without_confirmation :
  conversationHistory
    (ConversationRest.after [ConversationRest.Update ConversationRest.allFour])
  = []
  /\ currentStep
       (ConversationRest.after
          [ConversationRest.Update ConversationRest.allFour])
     = Step.confirmation
  /\ isComplete
       (ConversationRest.after
          [ConversationRest.Update ConversationRest.allFour])
     = true.
Proof. split; [reflexivity|]. split; reflexivity. Qed.

End ConversationFacts.

Module HybridFacts.
Import Hybrid.







Lemma armedFor_not_due (c : Controller) (last : option string) (g : Z) :
  armedFor c last -> g < SILENCE_MS ->
  List.filter (fun x => due x <=? now c + g) (timers c) = []
  /\ List.filter (fun x => negb (due x <=? now c + g)) (timers c) = timers c.
Proof.
  intros [_ Harmed] Hg.
  assert (Hcase : timers c = []
                  \/ exists h t, timers c = [mkTimer h (now c + SILENCE_MS) t]).
  { destruct last as [t|]; [|auto].
    destruct (5 <? Z.of_nat (JsString.length t)); [|auto].
    destruct Harmed as [h [Ht _]]. eauto. }
  destruct Hcase as [Ht|[h [t Ht]]]; rewrite Ht; cbn.
  - auto.
  - assert (Hno : (now c + SILENCE_MS <=? now c + g) = false)
      by (apply Z.leb_gt; lia).
    rewrite Hno. cbn. auto.
Qed.

Lemma elapse_close (c : Controller) (last : option string) (g : Z) :
  armedFor c last -> closeGap g ->
  step c (Elapse g)
  = mkController (status c) (transcript c) (vadTimeoutRef c)
                 (isProcessingRef c) (timers c) (nextHandle c) (now c + g)
                 (turns c).
Proof.
  intros Harmed [Hg0 Hg]. cbn [step]. unfold advance.
  rewrite Z.max_r by lia.
  destruct (armedFor_not_due c last g Harmed Hg) as [Hf Hk].
  rewrite Hf, Hk. reflexivity.
Qed.

Lemma partial_step (c : Controller) (last : option string) (p : Partial) :
  armedFor c last -> closeGap (gap p) -> text p <> "" ->
  armedFor (run c [Elapse (gap p); Stt (text p) false]) (Some (text p))
  /\ turns (run c [Elapse (gap p); Stt (text p) false]) = turns c.
Proof.
  intros Harmed Hgap Htext.
  unfold run. cbn [fold_left].
  rewrite (elapse_close c last (gap p) Harmed Hgap).
  destruct Harmed as [Hproc Harmed].
  cbn [step]. apply String.eqb_neq in Htext. rewrite Htext.
  unfold handleTranscript.
  cbn [vadTimeoutRef timers isProcessingRef now nextHandle status turns].
  assert (Hlive : match vadTimeoutRef c with
                  | Some h => clearTimeout h (timers c)
                  | None => timers c
                  end = []).
  { destruct last as [t|].
    - destruct (5 <? Z.of_nat (JsString.length t)).
      + destruct Harmed as [h [Ht Hr]]. rewrite Hr, Ht. cbn.
        rewrite Nat.eqb_refl. reflexivity.
      + rewrite Harmed. destruct (vadTimeoutRef c); reflexivity.
    - rewrite Harmed. destruct (vadTimeoutRef c); reflexivity. }
  rewrite Hlive, Hproc. cbn [negb andb].
  rewrite andb_true_r.
  unfold armedFor.
  destruct (5 <? Z.of_nat (JsString.length (text p))) eqn:Hlen; cbn.
  - split; [split; [reflexivity|]|reflexivity].
    eexists. split; reflexivity.
  - auto.
Qed.

Lemma run_app (c : Controller) (es1 es2 : list Event) :
  run c (es1 ++ es2) = run (run c es1) es2.
Proof. unfold run. apply fold_left_app. Qed.

Lemma partials_run (ps : list Partial) (c : Controller) (last : option string) :
  armedFor c last ->
  Forall (fun p => closeGap (gap p) /\ text p <> "") ps ->
  armedFor (run c (partials ps)) (lastText ps last)
  /\ turns (run c (partials ps)) = turns c.
Proof.
  revert c last. induction ps as [|p ps IH]; intros c last Harmed Hall.
  - cbn. auto.
  - inversion Hall as [|? ? [Hgap Htext] Hrest]; subst.
    change (partials (p :: ps))
      with ([Elapse (gap p); Stt (text p) false] ++ partials ps)%list.
    rewrite run_app.
    destruct (partial_step c last p Harmed Hgap Htext) as [H1 H2].
    destruct (IH _ _ H1 Hrest) as [H3 H4].
    split; [|congruence].
    destruct ps as [|q ps]; [exact H3|]. exact H3.
Qed.





(** The length is counted in characters, as [text.length] counts it: the
    five letters of "добре" arm no timer, and silence after them starts no
    turn. *)
Lemma short_text_arms_no_timer :
  JsString.length "добре" = 5%nat
  /\ timers (run start (partials shortAnswer)) = []
  /\ turns (run start (utterance shortAnswer (Silence 5000))) = [].
Proof. split; [reflexivity|]. split; reflexivity. Qed.

End HybridFacts.

Module ToolFacts.
Import VoiceAgent.

Lemma timely_ret {A : Type} (a : A) : timely (ret a).
Proof. intros w. exists []. split; [reflexivity|]. intros H. inversion H. Qed.

Lemma timely_throw {A : Type} (message : string) : timely (@throw A message).
Proof. intros w. exists []. split; [reflexivity|]. intros H. inversion H. Qed.

Lemma timely_get : timely get.
Proof. intros w. exists []. split; [reflexivity|]. intros H. inversion H. Qed.

Lemma timely_modify (f : World -> World) :
  (forall w, net (f w) = net w) -> timely (modify f).
Proof.
  intros Hf w. exists []. cbn. split; [symmetry; apply Hf|].
  intros H. inversion H.
Qed.

Lemma timely_bind {A B : Type} (c : M A) (k : A -> M B) :
  timely c -> (forall a, timely (k a)) -> timely (bind c k).
Proof.
  intros Hc Hk w. unfold bind.
  destruct (Hc w) as [used1 [Hnet1 Hslow1]].
  destruct (c w) as [[a|message] w1] eqn:Hcw; cbn [fst snd] in *.
  - destruct (Hk a w1) as [used2 [Hnet2 Hslow2]].
    exists (used1 ++ used2)%list. split.
    + rewrite Hnet1, Hnet2. apply app_assoc.
    + intros Hex. apply Exists_app in Hex. destruct Hex as [Hex|Hex].
      * specialize (Hslow1 Hex). discriminate.
      * exact (Hslow2 Hex).
  - exists used1. cbn [fst snd]. split; [assumption|].
    intros Hex. specialize (Hslow1 Hex). injection Hslow1 as ->. reflexivity.
Qed.

Lemma timely_call {A : Type} (failure : string)
      (op : AppointmentService.Collection
            -> option A * AppointmentService.Collection) :
  timely (withTimeout (request failure op) TOOL_TIMEOUT_MS).
Proof.
  intros w. unfold withTimeout, request.
  destruct (net w) as [|o rest] eqn:Hnet.
  - exists []. cbn. destruct (op (collection _)) as [r c'].
    cbn. split; [|intros H; inversion H].
    destruct (_ <? _); reflexivity.
  - exists [o]. destruct o as [latency|latency]; cbn [tl].
    + destruct (op (collection _)) as [r c'].
      destruct (Z.max 0 latency <? TOOL_TIMEOUT_MS) eqn:Hlt; cbn.
      * split; [reflexivity|]. intros Hex. exfalso.
        inversion Hex as [? ? Hs|? ? Hs]; [|inversion Hs].
        unfold slow in Hs. cbn in Hs. apply Z.ltb_lt in Hlt. lia.
      * split; reflexivity.
    + destruct (Z.max 0 latency <? TOOL_TIMEOUT_MS) eqn:Hlt; cbn.
      * split; [reflexivity|]. intros Hex. exfalso.
        inversion Hex as [? ? Hs|? ? Hs]; [|inversion Hs].
        unfold slow in Hs. cbn in Hs. apply Z.ltb_lt in Hlt. lia.
      * split; reflexivity.
Qed.

Ltac timely_step :=
  match goal with
  | |- timely (bind _ _) => apply timely_bind; [|intros ?]
  | |- timely (ret _) => apply timely_ret
  | |- timely (throw _) => apply timely_throw
  | |- timely get => apply timely_get
  | |- timely (modify _) => apply timely_modify; intros ?; reflexivity
  | |- timely (withTimeout (request _ _) TOOL_TIMEOUT_MS) => apply timely_call
  | |- timely (if ?b then _ else _) => destruct b
  | |- timely (match ?x with _ => _ end) => destruct x
  end.

Section Component.
Variables tz sofia : Z.
Variable barbers : list Barber.t.
Variable services : list Service.t.

Lemma timely_cached (barberId : string) (date : option string) :
  timely (getCachedAppointmentsForDate tz barberId date).
Proof. unfold getCachedAppointmentsForDate. cbv zeta. repeat timely_step. Qed.

Lemma timely_range : timely (getCachedAppointmentsRange tz).
Proof. unfold getCachedAppointmentsRange. cbv zeta. repeat timely_step. Qed.

Lemma timely_dispatch (call : Call.t) :
  timely (dispatch tz sofia barbers services call).
Proof.
  unfold dispatch. cbv zeta.
  repeat match goal with
         | |- timely (if ?b then _ else _) => destruct b
         end.
  - unfold get_barbers. repeat timely_step.
  - unfold get_services. repeat timely_step.
  - unfold get_available_slots. cbv zeta.
    repeat first [apply timely_cached | timely_step].
  - unfold find_earliest_slot. cbv zeta.
    repeat first [apply timely_range | timely_step].
  - unfold book_appointment. cbv zeta.
    repeat first [apply timely_cached | timely_step].
  - unfold get_customer_appointments. repeat timely_step.
  - unfold reschedule_appointment. repeat timely_step.
  - unfold cancel_appointment. repeat timely_step.
  - apply timely_ret.
Qed.

Lemma answer_keyed (call : Call.t) (w : World) :
  Response.id (fst (answer tz sofia barbers services call w)) = Call.id call
  /\ Response.name (fst (answer tz sofia barbers services call w))
     = Call.name call.
Proof.
  unfold answer.
  destruct (dispatch tz sofia barbers services call w) as [[r|m] w'];
    cbn; auto.
Qed.

Lemma answer_timely (call : Call.t) (w : World) :
  exists consumed : list Net,
    net w = (consumed ++ net (snd (answer tz sofia barbers services call w)))%list
    /\ (Exists slow consumed ->
        Response.result (fst (answer tz sofia barbers services call w))
        = ErrorResult SLOW_CONNECTION).
Proof.
  destruct (timely_dispatch call w) as [consumed [Hnet Hslow]].
  exists consumed. unfold answer.
  destruct (dispatch tz sofia barbers services call w) as [[r|m] w'];
    cbn [fst snd] in *.
  - split; [exact Hnet|]. intros Hex. specialize (Hslow Hex). discriminate.
  - split; [exact Hnet|]. intros Hex. specialize (Hslow Hex).
    injection Hslow as ->. reflexivity.
Qed.

Lemma answerAll_keyed (calls : list Call.t) (w : World) :
  map Response.id (fst (answerAll tz sofia barbers services calls w))
  = map Call.id calls
  /\ map Response.name (fst (answerAll tz sofia barbers services calls w))
     = map Call.name calls.
Proof.
  revert w. induction calls as [|call calls IH]; intros w; cbn [answerAll].
  - split; reflexivity.
  - destruct (answer_keyed call w) as [Hid Hname].
    destruct (answer tz sofia barbers services call w) as [r w1].
    destruct (IH w1) as [IHid IHname].
    destruct (answerAll tz sofia barbers services calls w1) as [rs w2].
    cbn [fst snd map] in *. split; congruence.
Qed.

Lemma answerAll_each (calls : list Call.t) (w : World) (i : nat)
      (call : Call.t) :
  calls !! i = Some call ->
  exists wi : World,
    fst (answerAll tz sofia barbers services calls w) !! i
    = Some (fst (answer tz sofia barbers services call wi)).
Proof.
  revert w i. induction calls as [|c calls IH]; intros w i Hi.
  - destruct i; discriminate.
  - cbn [answerAll].
    destruct (answer tz sofia barbers services c w) as [r w1] eqn:Hc.
    specialize (IH w1).
    destruct (answerAll tz sofia barbers services calls w1) as [rs w2].
    destruct i as [|i]; cbn in Hi |- *.
    + injection Hi as <-. exists w. rewrite Hc. reflexivity.
    + exact (IH i Hi).
Qed.

Lemma handleToolCalls_responses (calls : list Call.t) (w : World) :
  fst (handleToolCalls tz sofia barbers services calls w)
  = fst (answerAll tz sofia barbers services calls w).
Proof.
  unfold handleToolCalls.
  destruct (answerAll tz sofia barbers services calls w) as [rs w1].
  reflexivity.
Qed.

(** C9. [handleToolCalls] answers every call of a batch: the responses
    carry the ids and names of the calls, in order, and each is the answer
    the [try]/[catch] of the call computes, an exception of the handler
    included; and when one of the backend operations a call starts takes
    longer than the 6 s of [TOOL_TIMEOUT_MS], the result of that call is
    the "slow connection" error. *)
Theorem every_call_answered :
  (forall (calls : list Call.t) (w : World),
      map Response.id (fst (handleToolCalls tz sofia barbers services calls w))
      = map Call.id calls
      /\ map Response.name
             (fst (handleToolCalls tz sofia barbers services calls w))
         = map Call.name calls)
  /\ (forall (calls : list Call.t) (w : World) (i : nat) (call : Call.t),
         calls !! i = Some call ->
         exists wi : World,
           fst (handleToolCalls tz sofia barbers services calls w) !! i
           = Some (fst (answer tz sofia barbers services call wi)))
  /\ (forall (call : Call.t) (w : World),
         exists consumed : list Net,
           net w
           = (consumed
              ++ net (snd (answer tz sofia barbers services call w)))%list
           /\ (Exists slow consumed ->
               Response.result (fst (answer tz sofia barbers services call w))
               = ErrorResult SLOW_CONNECTION)).
Proof.
  split; [|split].
  - intros calls w. rewrite handleToolCalls_responses. apply answerAll_keyed.
  - intros calls w i call Hi. rewrite handleToolCalls_responses.
    apply answerAll_each, Hi.
  - intros call w. apply answer_timely.
Qed.

End Component.
End ToolFacts.

Module SessionFacts.
Import VoiceAgent.

Lemma sameSession_refl (w : World) : sameSession w w.
Proof. repeat split. Qed.

Lemma sameSession_trans (w1 w2 w3 : World) :
  sameSession w1 w2 -> sameSession w2 w3 -> sameSession w1 w3.
Proof.
  intros (A1 & A2 & A3 & A4) (B1 & B2 & B3 & B4).
  repeat split; congruence.
Qed.

Lemma keeps_ret {A : Type} (a : A) : keeps (ret a).
Proof. intros w. apply sameSession_refl. Qed.

Lemma keeps_throw {A : Type} (message : string) : keeps (@throw A message).
Proof. intros w. apply sameSession_refl. Qed.

Lemma keeps_get : keeps get.
Proof. intros w. apply sameSession_refl. Qed.

Lemma keeps_modify (f : World -> World) :
  (forall w, sameSession w (f w)) -> keeps (modify f).
Proof. intros Hf w. apply Hf. Qed.

Lemma keeps_bind {A B : Type} (c : M A) (k : A -> M B) :
  keeps c -> (forall a, keeps (k a)) -> keeps (bind c k).
Proof.
  intros Hc Hk w. unfold bind. specialize (Hc w).
  destruct (c w) as [[a|message] w1]; cbn [snd] in *.
  - eapply sameSession_trans; [exact Hc|]. apply Hk.
  - exact Hc.
Qed.

Lemma keeps_call {A : Type} (failure : string)
      (op : AppointmentService.Collection
            -> option A * AppointmentService.Collection) (ms : Z) :
  keeps (withTimeout (request failure op) ms).
Proof.
  intros w. unfold withTimeout, request.
  destruct (match net w with [] => Reply 0 | o :: _ => o end) as [l|l].
  - destruct (op (collection _)) as [r c'].
    destruct (_ <? _); repeat split.
  - destruct (_ <? _); repeat split.
Qed.

Ltac keeps_step :=
  match goal with
  | |- keeps (bind _ _) => apply keeps_bind; [|intros ?]
  | |- keeps (ret _) => apply keeps_ret
  | |- keeps (throw _) => apply keeps_throw
  | |- keeps get => apply keeps_get
  | |- keeps (modify _) => apply keeps_modify; intros ?; repeat split
  | |- keeps (withTimeout (request _ _) _) => apply keeps_call
  | |- keeps (if ?b then _ else _) => destruct b
  | |- keeps (match ?x with _ => _ end) => destruct x
  end.

Section Component.
Variables tz sofia : Z.
Variable barbers : list Barber.t.
Variable services : list Service.t.

Lemma keeps_cached (barberId : string) (date : option string) :
  keeps (getCachedAppointmentsForDate tz barberId date).
Proof. unfold getCachedAppointmentsForDate. cbv zeta. repeat keeps_step. Qed.

Lemma keeps_range : keeps (getCachedAppointmentsRange tz).
Proof. unfold getCachedAppointmentsRange. cbv zeta. repeat keeps_step. Qed.

Lemma keeps_dispatch (call : Call.t) :
  keeps (dispatch tz sofia barbers services call).
Proof.
  unfold dispatch. cbv zeta.
  repeat match goal with
         | |- keeps (if ?b then _ else _) => destruct b
         end.
  - unfold get_barbers. repeat keeps_step.
  - unfold get_services. repeat keeps_step.
  - unfold get_available_slots. cbv zeta.
    repeat first [apply keeps_cached | keeps_step].
  - unfold find_earliest_slot. cbv zeta.
    repeat first [apply keeps_range | keeps_step].
  - unfold book_appointment. cbv zeta.
    repeat first [apply keeps_cached | keeps_step].
  - unfold get_customer_appointments. repeat keeps_step.
  - unfold reschedule_appointment. repeat keeps_step.
  - unfold cancel_appointment. repeat keeps_step.
  - apply keeps_ret.
Qed.

Lemma answer_keeps (call : Call.t) (w : World) :
  sameSession w (snd (answer tz sofia barbers services call w)).
Proof.
  pose proof (keeps_dispatch call w) as H. unfold answer.
  destruct (dispatch tz sofia barbers services call w) as [[r|m] w'];
    exact H.
Qed.

Lemma answerAll_keeps (calls : list Call.t) (w : World) :
  sameSession w (snd (answerAll tz sofia barbers services calls w)).
Proof.
  revert w. induction calls as [|call calls IH]; intros w; cbn [answerAll].
  - apply sameSession_refl.
  - pose proof (answer_keeps call w) as H1.
    destruct (answer tz sofia barbers services call w) as [r w1].
    specialize (IH w1).
    destruct (answerAll tz sofia barbers services calls w1) as [rs w2].
    cbn [snd] in *. eapply sameSession_trans; eassumption.
Qed.

Lemma answerAll_paired (calls : list Call.t) (w : World) :
  Forall2 (fun call r => Response.id r = Call.id call
                         /\ Response.name r = Call.name call)
          calls (fst (answerAll tz sofia barbers services calls w)).
Proof.
  revert w. induction calls as [|call calls IH]; intros w; cbn [answerAll].
  - constructor.
  - pose proof (ToolFacts.answer_keyed tz sofia barbers services call w) as Hk.
    destruct (answer tz sofia barbers services call w) as [r w1].
    specialize (IH w1).
    destruct (answerAll tz sofia barbers services calls w1) as [rs w2].
    cbn [fst] in *. constructor; assumption.
Qed.

End Component.

Lemma find_own (rs : list Response.t) (i : nat) (r : Response.t) :
  NoDup (map Response.id rs) -> rs !! i = Some r ->
  find (fun x => String.eqb (Response.id x) (Response.id r)) rs = Some r.
Proof.
  revert i. induction rs as [|x rs IH]; intros i Hnd Hi.
  - destruct i; discriminate.
  - cbn [map] in Hnd. apply NoDup_cons in Hnd. destruct Hnd as [Hx Hnd].
    destruct i as [|i]; cbn in Hi |- *.
    + injection Hi as ->. rewrite String.eqb_refl. reflexivity.
    + destruct (String.eqb (Response.id x) (Response.id r)) eqn:Heq.
      * exfalso. apply String.eqb_eq in Heq. apply Hx. rewrite Heq.
        apply list_elem_of_fmap. exists r. split; [reflexivity|].
        apply list_elem_of_lookup. eauto.
      * exact (IH i Hnd Hi).
Qed.

(** With ids of their own, the loop over the calls sees, for each call,
    the answer given to that call. *)
Lemma marks_answers (calls : list Call.t) (rs : list Response.t) :
  Forall2 (fun call r => Response.id r = Call.id call
                         /\ Response.name r = Call.name call) calls rs ->
  NoDup (map Call.id calls) ->
  existsb (fun call =>
             match find (fun r => String.eqb (Response.id r) (Call.id call)) rs with
             | Some r => success (Response.result r)
             | None => false
             end && isAction (Call.name call)) calls
  = existsb actionSucceeded rs.
Proof.
  intros Hpair Hnd.
  assert (Hids : map Response.id rs = map Call.id calls).
  { clear Hnd. induction Hpair as [|call r calls rs [Hid _] _ IH]; cbn.
    - reflexivity.
    - rewrite Hid, IH. reflexivity. }
  assert (Hnd' : NoDup (map Response.id rs)) by (rewrite Hids; exact Hnd).
  apply Bool.eq_iff_eq_true. rewrite !existsb_exists. split.
  - intros [call [Hin Hmark]].
    apply list_elem_of_In, list_elem_of_lookup in Hin. destruct Hin as [i Hi].
    destruct (Forall2_lookup_l _ _ _ _ _ Hpair Hi) as [r [Hr [Hid Hname]]].
    exists r. split.
    + apply list_elem_of_In, list_elem_of_lookup. eauto.
    + rewrite <- Hid in Hmark. rewrite (find_own rs i r Hnd' Hr) in Hmark.
      unfold actionSucceeded. rewrite Hname. exact Hmark.
  - intros [r [Hin Hact]].
    apply list_elem_of_In, list_elem_of_lookup in Hin. destruct Hin as [i Hi].
    destruct (Forall2_lookup_r _ _ _ _ _ Hpair Hi) as [call [Hc [Hid Hname]]].
    exists call. split.
    + apply list_elem_of_In, list_elem_of_lookup. eauto.
    + rewrite <- Hid. rewrite (find_own rs i r Hnd' Hi).
      unfold actionSucceeded in Hact. rewrite Hname in Hact. exact Hact.
Qed.

Lemma logCall_loop (logId : string) (responses : list Response.t)
      (calls : list Call.t) (w : World) :
  let w' := fold_left (logCall logId responses) calls w in
  conversationLogId w' = conversationLogId w /\ conn w' = conn w
  /\ (exists evs, logRequests w' = (logRequests w ++ evs)%list
                  /\ Forall notEnd evs)
  /\ bookingCreated w'
     = bookingCreated w
       || existsb (fun call =>
             match find (fun r => String.eqb (Response.id r) (Call.id call))
                        responses with
             | Some r => success (Response.result r)
             | None => false
             end && isAction (Call.name call)) calls.
Proof.
  revert w. induction calls as [|call calls IH]; intros w; cbn [fold_left existsb].
  - repeat split; [|symmetry; apply orb_false_r]. exists []. split; [|constructor].
    symmetry. apply app_nil_r.
  - destruct (IH (logCall logId responses w call)) as (H1 & H2 & [evs [H3 H3']] & H4).
    cbn zeta in *. rewrite H1, H2, H3, H4. clear H1 H2 H3 H4 IH.
    unfold logCall.
    set (mark := match find _ responses with
                 | Some r => success (Response.result r)
                 | None => false
                 end && isAction (Call.name call)).
    destruct mark; cbn.
    + repeat split; [|rewrite orb_true_r; reflexivity].
      eexists. split; [rewrite <- app_assoc; reflexivity|].
      constructor; [reflexivity|exact H3'].
    + repeat split.
      eexists. split; [rewrite <- app_assoc; reflexivity|].
      constructor; [reflexivity|exact H3'].
Qed.

Section Session.
Variables tz sofia : Z.
Variable barbers : list Barber.t.
Variable services : list Service.t.

Lemma handleToolCalls_log (calls : list Call.t) (w : World) (logId : string) :
  conversationLogId w = Some logId -> logId <> "" ->
  NoDup (map Call.id calls) ->
  let out := handleToolCalls tz sofia barbers services calls w in
  conversationLogId (snd out) = Some logId /\ conn (snd out) = conn w
  /\ (exists evs, logRequests (snd out) = (logRequests w ++ evs)%list
                  /\ Forall notEnd evs)
  /\ bookingCreated (snd out)
     = bookingCreated w || existsb actionSucceeded (fst out).
Proof.
  intros Hid Hne Hnd. unfold handleToolCalls.
  pose proof (answerAll_keeps tz sofia barbers services calls w)
    as (K1 & K2 & K3 & K4).
  pose proof (answerAll_paired tz sofia barbers services calls w) as Hpair.
  destruct (answerAll tz sofia barbers services calls w) as [rs w1].
  cbn [fst snd] in *. rewrite K1, Hid.
  apply String.eqb_neq in Hne. rewrite Hne.
  destruct (logCall_loop logId rs calls w1) as (H1 & H2 & H3 & H4).
  cbn zeta in *. rewrite H1, H2, H4, K1, K2, K4, Hid.
  rewrite (marks_answers calls rs Hpair Hnd).
  repeat split. rewrite <- K3. exact H3.
Qed.

Lemma sessionStep_log (e : SessionEvent) (w : World) (logId : string) :
  conversationLogId w = Some logId -> logId <> "" -> ownIds e ->
  let w' := sessionStep tz sofia barbers services w e in
  conversationLogId w' = Some logId
  /\ (exists evs, logRequests w' = (logRequests w ++ evs)%list
                  /\ Forall notEnd evs)
  /\ bookingCreated w'
     = bookingCreated w
       || existsb (fun b => existsb actionSucceeded (snd b))
                  (answersOf tz sofia barbers services [e] w).
Proof.
  intros Hid Hne Hown.
  assert (Hnil : exists evs, logRequests w = (logRequests w ++ evs)%list
                             /\ Forall notEnd evs).
  { exists []. split; [symmetry; apply app_nil_r|constructor]. }
  destruct e as [active [| |calls|message|reason]|active connected h|ms|act];
    cbn [sessionStep handleLiveEvent answersOf app existsb];
    try (cbn; rewrite orb_false_r; repeat split; assumption).
  - destruct (handleToolCalls_log calls w logId Hid Hne Hown)
      as (H1 & _ & H3 & H4).
    cbn zeta in *. cbn [snd existsb]. rewrite orb_false_r.
    repeat split; assumption.
  - rewrite Hid. cbn [truthy default]. apply String.eqb_neq in Hne.
    rewrite Hne. cbn. rewrite orb_false_r. repeat split; [exact Hid|].
    eexists. split; [reflexivity|]. constructor; [reflexivity|constructor].
Qed.

Lemma answersOf_cons (e : SessionEvent) (es : list SessionEvent) (w : World) :
  answersOf tz sofia barbers services (e :: es) w
  = (answersOf tz sofia barbers services [e] w
     ++ answersOf tz sofia barbers services es
          (sessionStep tz sofia barbers services w e))%list.
Proof. cbn [answersOf]. rewrite app_nil_r. reflexivity. Qed.

Lemma sessionRun_log (es : list SessionEvent) (w : World) (logId : string) :
  conversationLogId w = Some logId -> logId <> "" -> Forall ownIds es ->
  let w' := sessionRun tz sofia barbers services es w in
  conversationLogId w' = Some logId
  /\ (exists evs, logRequests w' = (logRequests w ++ evs)%list
                  /\ Forall notEnd evs)
  /\ bookingCreated w'
     = bookingCreated w
       || existsb (fun b => existsb actionSucceeded (snd b))
                  (answersOf tz sofia barbers services es w).
Proof.
  revert w. induction es as [|e es IH]; intros w Hid Hne Hown.
  - cbn. rewrite orb_false_r. repeat split; [exact Hid|].
    exists []. split; [symmetry; apply app_nil_r|constructor].
  - inversion Hown as [|? ? He Hes]; subst.
    destruct (sessionStep_log e w logId Hid Hne He) as (S1 & [ev1 [S2 S2']] & S3).
    cbn zeta in *.
    destruct (IH _ S1 Hne Hes) as (R1 & [ev2 [R2 R2']] & R3).
    cbn zeta in *.
    change (sessionRun tz sofia barbers services (e :: es) w)
      with (sessionRun tz sofia barbers services es
              (sessionStep tz sofia barbers services w e)).
    split; [exact R1|]. split.
    + exists (ev1 ++ ev2)%list. split.
      * rewrite R2, S2. symmetry. apply app_assoc.
      * apply Forall_app. split; assumption.
    + rewrite R3, S3. rewrite (answersOf_cons e es w).
      rewrite existsb_app. symmetry. apply orb_assoc.
Qed.

(** C7, amended.  When the log was opened at the start of the session and
    the calls of every batch carry ids of their own, the stop of an active
    session sends exactly one [End] for that log: [bookingCreated] is true,
    and the outcome [completed], exactly when some call of
    [book_appointment], [reschedule_appointment] or [cancel_appointment]
    was answered with a success during the session; otherwise the outcome
    is [abandoned]. *)
Theorem log_finalized_once (w0 : World) (es : list SessionEvent)
        (connected : bool) :
  isActive (conn w0) = false -> logOpens w0 -> Forall ownIds es ->
  let w1 := handleToggle true w0 in
  let w2 := sessionRun tz sofia barbers services es w1 in
  let acted :=
    existsb (fun b => existsb actionSucceeded (snd b))
            (answersOf tz sofia barbers services es w1) in
  let logId := ConversationLog.logIdAt (clock w0) in
  isActive (conn w2) = true ->
  exists events,
    logRequests (handleToggle connected w2)
    = (logRequests w0
       ++ [ConversationLog.Start logId] ++ events
       ++ [ConversationLog.End logId
             (if acted then ConversationLog.completed
              else ConversationLog.abandoned) acted])%list
    /\ Forall notEnd events
    /\ conversationLogId (handleToggle connected w2) = None.
Proof.
  intros Hoff Hopens Hown w1 w2 acted logId Hon.
  assert (Hstart : conversationLogId w1 = Some logId
                   /\ bookingCreated w1 = false
                   /\ logRequests w1
                      = (logRequests w0 ++ [ConversationLog.Start logId])%list).
  { subst w1 logId. unfold handleToggle. rewrite Hoff.
    unfold logOpens in Hopens.
    destruct (net w0) as [|[l|l] rest]; [| |contradiction];
      cbn; repeat split. }
  destruct Hstart as (Hid & Hbc & Hlog).
  assert (Hne : logId <> "") by (subst logId; discriminate).
  destruct (sessionRun_log es w1 logId Hid Hne Hown) as (R1 & [evs [R2 R2']] & R3).
  cbn zeta in *. fold w2 in R1, R2, R3. fold acted in R3.
  rewrite Hbc in R3. cbn [orb] in R3.
  exists evs. unfold handleToggle. rewrite Hon, R1.
  cbn [truthy default]. apply String.eqb_neq in Hne. rewrite Hne.
  cbn. rewrite R2, R3, Hlog. rewrite <- !app_assoc. repeat split. exact R2'.
Qed.

End Session.

(** C7 as stated fails: in this session the only tool call is a
    [cancel_appointment]; no [book_appointment] succeeded, yet the log is
    closed as [completed] with [bookingCreated] true. *)
Lemma cancel_only_session_completed :
  answersOf Salon.EET Salon.EET [Salon.nalby] [Salon.haircut] Salon.cancelOnly
            (handleToggle true Salon.beforeCancel)
  = [([Salon.cancelCall],
      [Response.mk "call-1" "cancel_appointment" (Success None CANCELLED_OK)])]
  /\ List.filter ConversationLog.isEnd
       (logRequests
          (handleToggle false
             (sessionRun Salon.EET Salon.EET [Salon.nalby] [Salon.haircut]
                         Salon.cancelOnly
                         (handleToggle true Salon.beforeCancel))))
     = [ConversationLog.End (ConversationLog.logIdAt Salon.tenInSofia)
                            ConversationLog.completed true].
Proof. split; vm_compute; reflexivity. Qed.

Lemma log_finalized_once_witness :
  exists events,
    logRequests
      (handleToggle false
         (sessionRun Salon.EET Salon.EET [Salon.nalby] [Salon.haircut]
                     Salon.cancelOnly (handleToggle true Salon.beforeCancel)))
    = (logRequests Salon.beforeCancel
       ++ [ConversationLog.Start (ConversationLog.logIdAt Salon.tenInSofia)]
       ++ events
       ++ [ConversationLog.End (ConversationLog.logIdAt Salon.tenInSofia)
                               ConversationLog.completed true])%list
    /\ Forall notEnd events
    /\ conversationLogId
         (handleToggle false
            (sessionRun Salon.EET Salon.EET [Salon.nalby] [Salon.haircut]
                        Salon.cancelOnly
                        (handleToggle true Salon.beforeCancel))) = None.
Proof.
  assert (Hown : Forall ownIds Salon.cancelOnly).
  { repeat constructor. cbn. intros H. inversion H. }
  exact (log_finalized_once Salon.EET Salon.EET [Salon.nalby] [Salon.haircut]
           Salon.beforeCancel Salon.cancelOnly false
           eq_refl I Hown eq_refl).
Defined.

End SessionFacts.

Module BookingToolFacts.
Import VoiceAgent.

Section Component.
Variables tz sofia : Z.
Variable barbers : list Barber.t.
Variable services : list Service.t.

Lemma find_some_nonempty {A : Type} (f : A -> bool) (l : list A) :
  find f l <> None -> negb (Nat.eqb (length l) 0) = true.
Proof. destruct l; [intros H; contradiction H; reflexivity|reflexivity]. Qed.

Lemma validRefs_guards (a : Args) :
  validRefs barbers services a ->
  hasBarbers barbers = true /\ hasServices services = true
  /\ truthy (barberId a) = true
  /\ (exists b, findBarber barbers (barberId a) = Some b)
  /\ (exists s, findService services (serviceId a) = Some s).
Proof.
  intros (Ht & Hb & Hs). repeat split.
  - unfold hasBarbers. unfold findBarber in Hb.
    destruct (barberId a); [|contradiction Hb; reflexivity].
    eapply find_some_nonempty, Hb.
  - unfold hasServices. unfold findService in Hs.
    destruct (serviceId a); [|contradiction Hs; reflexivity].
    eapply find_some_nonempty, Hs.
  - exact Ht.
  - destruct (findBarber barbers (barberId a)); [eauto|contradiction Hb; reflexivity].
  - destruct (findService services (serviceId a)); [eauto|contradiction Hs; reflexivity].
Qed.

Lemma load_pure (barberId date : string) (c : AppointmentService.Collection) :
  snd (loadAppointmentsForDateRange tz barberId date c) = c.
Proof.
  unfold loadAppointmentsForDateRange, AppointmentService.getAppointments.
  destruct (AppointmentService.isoBound _); [|reflexivity].
  destruct (AppointmentService.isoBound _); reflexivity.
Qed.

(** What the backend read of the per-date cache does to the world. *)
Lemma load_step (barberId date : string) (w : World) :
  let out := withTimeout
               (request AppointmentService.LOAD_FAILED
                  (loadAppointmentsForDateRange tz barberId date))
               TOOL_TIMEOUT_MS w in
  collection (snd out) = collection w /\ booked (snd out) = booked w
  /\ lastBookingRef (snd out) = lastBookingRef w
  /\ appointmentsCache (snd out) = appointmentsCache w
  /\ net (snd out) = tl (net w).
Proof.
  unfold withTimeout, request.
  destruct (match net w with [] => Reply 0 | o :: _ => o end) as [l|l].
  - pose proof (load_pure barberId date (collection (set_net (tl (net w)) w)))
      as Hpure.
    destruct (loadAppointmentsForDateRange tz barberId date _) as [r c'].
    cbn [snd] in Hpure. subst c'.
    destruct (_ <? _); cbn; auto.
  - destruct (_ <? _); cbn; auto.
Qed.

(** The read leaves the collection, the bookings handed to the page and
    the remembered booking as they are. *)
Lemma read_frame (barberId : string) (date : option string) (w : World) :
  collection (snd (getCachedAppointmentsForDate tz barberId date w))
  = collection w
  /\ booked (snd (getCachedAppointmentsForDate tz barberId date w)) = booked w
  /\ lastBookingRef (snd (getCachedAppointmentsForDate tz barberId date w))
     = lastBookingRef w.
Proof.
  remember (getCachedAppointmentsForDate tz barberId date w) as out eqn:Hout.
  unfold getCachedAppointmentsForDate in Hout. cbv zeta in Hout.
  unfold bind at 1 in Hout. unfold get at 1 in Hout. cbn iota in Hout.
  assert (Hload : forall out0,
    out0 = bind
             (withTimeout
                (request AppointmentService.LOAD_FAILED
                   (loadAppointmentsForDateRange tz barberId (default "" date)))
                TOOL_TIMEOUT_MS)
             (fun data =>
                bind (modify (fun w1 =>
                        set_appointmentsCache
                          (<[(barberId ++ ":" ++ tpl date) :=
                               mkEntry data (clock w1)]>
                             (appointmentsCache w1)) w1))
                     (fun _ => ret data)) w ->
    collection (snd out0) = collection w /\ booked (snd out0) = booked w
    /\ lastBookingRef (snd out0) = lastBookingRef w).
  { intros out0 ->. unfold bind.
    destruct (load_step barberId (default "" date) w) as (H1 & H2 & H3 & _).
    cbn zeta in *.
    destruct (withTimeout _ _ w) as [[data|m] w1]; cbn in *; auto. }
  destruct (appointmentsCache w !! _) as [cached|].
  - destruct (_ <? APPOINTMENTS_CACHE_TTL_MS).
    + subst out. cbn. auto.
    + apply Hload, Hout.
  - apply Hload, Hout.
Qed.

(** [book_appointment] once its references are found valid: the read,
    then what [continue] does with the list read. *)
Lemma book_after_guards (a : Args) (w : World) :
  validRefs barbers services a ->
  exists continue : list Appointment.t -> M ToolResult,
    book_appointment tz barbers services a w
    = bind (recheckRead tz a) continue w
    /\ (forall checkAppts w1,
           slotFree tz a checkAppts = false ->
           continue checkAppts w1 = (Ok (Failure SLOT_TAKEN), w1))
    /\ (forall checkAppts w1 rawPhone,
           slotFree tz a checkAppts = true ->
           customerPhone a = Some rawPhone ->
           remembered w1 (bookingKeyOf a (normalizePhone rawPhone)) (clock w1)
           = true ->
           continue checkAppts w1
           = (Ok (Success (Some "duplicate")
                          (alreadyBooked (normalizePhone rawPhone))), w1))
    /\ (forall checkAppts w1 rawPhone n iso latency rest,
           slotFree tz a checkAppts = true ->
           customerPhone a = Some rawPhone ->
           remembered w1 (bookingKeyOf a (normalizePhone rawPhone)) (clock w1)
           = false ->
           customerName a = Some n ->
           JsDate.toISOString
             (JsDate.parse tz (tpl (date a) ++ "T" ++ tpl (time a))) = Some iso ->
           net w1 = Reply latency :: rest ->
           0 <= latency < TOOL_TIMEOUT_MS ->
           let newAppt :=
             Appointment.mk
               (AppointmentService.docId
                  (AppointmentService.nextDoc (collection w1)))
               n ("+" ++ normalizePhone rawPhone) (tpl (serviceId a))
               (default "" (barberId a)) iso pending in
           continue checkAppts w1
           = (Ok (Success (Some (Appointment.id newAppt))
                          (booked_message (tpl (date a)) (tpl (time a))
                                          (normalizePhone rawPhone))),
              set_lastBookingRef
                (Some (bookingKeyOf a (normalizePhone rawPhone),
                       clock w1 + latency))
                (set_booked (booked w1 ++ [newAppt])
                   (set_clock (clock w1 + latency)
                      (set_collection
                         (AppointmentService.mkCollection
                            (AppointmentService.docs (collection w1)
                             ++ [newAppt])
                            (S (AppointmentService.nextDoc (collection w1))))
                         (set_net rest w1)))))).
Proof.
  intros Hvalid.
  destruct (validRefs_guards a Hvalid) as (Hb & Hs & Ht & [b Hfb] & [s Hfs]).
  eexists. split; [|split; [|split]].
  - unfold book_appointment. rewrite Hb, Hs, Ht, Hfb, Hfs. cbn [negb orb].
    unfold recheckRead. reflexivity.
  - intros checkAppts w1 Hfree. unfold slotFree in Hfree.
    cbv beta. rewrite Hfree. reflexivity.
  - intros checkAppts w1 rawPhone Hfree Hphone Hrem.
    unfold slotFree in Hfree. cbv beta. rewrite Hfree, Hphone. cbn [negb].
    unfold remembered in Hrem. unfold bind at 1. unfold get at 1.
    cbv beta iota. rewrite Hrem. reflexivity.
  - intros checkAppts w1 rawPhone n iso latency rest Hfree Hphone Hrem Hname
           Hiso Hnet Hlat newAppt.
    unfold slotFree in Hfree. cbv beta.
    rewrite Hfree, Hphone. cbn [negb].
    unfold remembered in Hrem. unfold bind at 1. unfold get at 1.
    cbv beta iota. rewrite Hrem, Hiso, Hname.
    unfold bind, withTimeout, request, modify, ret. rewrite Hnet.
    cbn [tl]. unfold AppointmentService.createAppointment.
    cbn [collection set_net set_collection].
    rewrite Z.max_r by lia.
    assert (Hlt : (latency <? TOOL_TIMEOUT_MS) = true) by (apply Z.ltb_lt; lia).
    rewrite Hlt. cbn. subst newAppt. reflexivity.
Qed.

Lemma read_cached (a : Args) (w : World) (cached : CacheEntry) :
  freshEntry w (cacheKey a) = Some cached ->
  recheckRead tz a w = (Ok (data cached), w).
Proof.
  unfold freshEntry, cacheKey, recheckRead, getCachedAppointmentsForDate.
  cbv zeta. unfold bind at 1. unfold get at 1. cbv beta iota.
  destruct (appointmentsCache w !! _) as [e|]; [|discriminate].
  destruct (clock w - ts e <? APPOINTMENTS_CACHE_TTL_MS); [|discriminate].
  intros [= ->]. reflexivity.
Qed.

Lemma read_backend (a : Args) (w : World) (latency : Z) (rest : list Net)
      (appts : list Appointment.t) :
  freshEntry w (cacheKey a) = None ->
  net w = Reply latency :: rest -> 0 <= latency < TOOL_TIMEOUT_MS ->
  fst (loadAppointmentsForDateRange tz (default "" (barberId a))
         (default "" (date a)) (collection w)) = Some appts ->
  fst (recheckRead tz a w) = Ok appts.
Proof.
  intros Hfresh Hnet Hlat Hload.
  assert (Hgo : fst (bind
             (withTimeout
                (request AppointmentService.LOAD_FAILED
                   (loadAppointmentsForDateRange tz (default "" (barberId a))
                      (default "" (date a))))
                TOOL_TIMEOUT_MS)
             (fun data =>
                bind (modify (fun w1 =>
                        set_appointmentsCache
                          (<[(default "" (barberId a) ++ ":" ++ tpl (date a)) :=
                               mkEntry data (clock w1)]>
                             (appointmentsCache w1)) w1))
                     (fun _ => ret data)) w) = Ok appts).
  { unfold bind, withTimeout, request, modify, ret. rewrite Hnet. cbn [tl].
    cbn [collection set_net].
    destruct (loadAppointmentsForDateRange tz _ _ (collection w)) as [r c'].
    cbn [fst] in Hload. subst r. rewrite Z.max_r by lia.
    assert (Hlt : (latency <? TOOL_TIMEOUT_MS) = true) by (apply Z.ltb_lt; lia).
    rewrite Hlt. reflexivity. }
  unfold freshEntry, cacheKey in Hfresh.
  unfold recheckRead, getCachedAppointmentsForDate.
  cbv zeta. unfold bind at 1. unfold get at 1. cbv beta iota.
  destruct (appointmentsCache w !! _) as [e|]; [|exact Hgo].
  destruct (clock w - ts e <? APPOINTMENTS_CACHE_TTL_MS); [discriminate|].
  exact Hgo.
Qed.

(** What the re-check of [book_appointment] reads.  With valid barber and
    service the slot is checked against the list the cached read returns:
    the cached list when the per-barber-per-date cache holds an entry
    younger than 15 s, otherwise the list the backend returns now.  When
    the requested time is not free in that list the result is the "slot
    taken" failure and no appointment is created. *)
Theorem booking_rechecks_cached_read (a : Args) (w : World) :
  validRefs barbers services a ->
  (forall cached : CacheEntry,
      freshEntry w (cacheKey a) = Some cached ->
      recheckRead tz a w = (Ok (data cached), w))
  /\ (forall (latency : Z) (rest : list Net) (appts : list Appointment.t),
         freshEntry w (cacheKey a) = None ->
         net w = Reply latency :: rest -> 0 <= latency < TOOL_TIMEOUT_MS ->
         fst (loadAppointmentsForDateRange tz (default "" (barberId a))
                (default "" (date a)) (collection w)) = Some appts ->
         fst (recheckRead tz a w) = Ok appts)
  /\ (forall (checkAppts : list Appointment.t) (w1 : World),
         recheckRead tz a w = (Ok checkAppts, w1) ->
         slotFree tz a checkAppts = false ->
         book_appointment tz barbers services a w
         = (Ok (Failure SLOT_TAKEN), w1)
         /\ collection w1 = collection w /\ booked w1 = booked w).
Proof.
  intros Hvalid. split; [|split].
  - intros cached. apply read_cached.
  - intros latency rest appts. apply read_backend.
  - intros checkAppts w1 Hread Hfree.
    destruct (book_after_guards a w Hvalid) as [continue (Hbook & Htaken & _)].
    rewrite Hbook. unfold bind. rewrite Hread. split.
    + apply Htaken, Hfree.
    + pose proof (read_frame (default "" (barberId a)) (date a) w) as Hframe.
      unfold recheckRead in Hread. rewrite Hread in Hframe.
      cbn [snd] in Hframe. destruct Hframe as (? & ? & _). auto.
Qed.

(** What the test of [lastBookingRef] does, after the re-check.  For a
    booking with valid references and a phone: while the component
    remembers the same (barber, service, date, time, phone) as booked less
    than 10 s before the test that follows the read, the call creates no
    appointment, and when the re-check of the slot passes it answers with
    the success of a duplicate; when the booking is not remembered so, and
    the re-check over the list read through the cache passes, the call is
    a new booking attempt: answered in time by the backend, it creates the
    appointment, answers with its id and remembers the booking with the
    instant of the answer. *)
Theorem duplicate_booking_window (a : Args) (w : World) (rawPhone : string) :
  validRefs barbers services a -> customerPhone a = Some rawPhone ->
  (remembered w (bookingKeyOf a (normalizePhone rawPhone))
              (clock (snd (recheckRead tz a w))) = true ->
   collection (snd (book_appointment tz barbers services a w)) = collection w
   /\ booked (snd (book_appointment tz barbers services a w)) = booked w
   /\ (forall checkAppts : list Appointment.t,
          fst (recheckRead tz a w) = Ok checkAppts ->
          slotFree tz a checkAppts = true ->
          fst (book_appointment tz barbers services a w)
          = Ok (Success (Some "duplicate")
                        (alreadyBooked (normalizePhone rawPhone)))))
  /\ (remembered w (bookingKeyOf a (normalizePhone rawPhone))
                 (clock (snd (recheckRead tz a w))) = false ->
      forall (checkAppts : list Appointment.t) (n iso : string) (latency : Z)
             (rest : list Net),
        fst (recheckRead tz a w) = Ok checkAppts ->
        slotFree tz a checkAppts = true ->
        customerName a = Some n ->
        JsDate.toISOString
          (JsDate.parse tz (tpl (date a) ++ "T" ++ tpl (time a))) = Some iso ->
        net (snd (recheckRead tz a w)) = Reply latency :: rest ->
        0 <= latency < TOOL_TIMEOUT_MS ->
        let newAppt :=
          Appointment.mk
            (AppointmentService.docId
               (AppointmentService.nextDoc (collection w)))
            n ("+" ++ normalizePhone rawPhone) (tpl (serviceId a))
            (default "" (barberId a)) iso pending in
        fst (book_appointment tz barbers services a w)
        = Ok (Success (Some (Appointment.id newAppt))
                      (booked_message (tpl (date a)) (tpl (time a))
                                      (normalizePhone rawPhone)))
        /\ AppointmentService.docs
             (collection (snd (book_appointment tz barbers services a w)))
           = (AppointmentService.docs (collection w) ++ [newAppt])%list
        /\ lastBookingRef (snd (book_appointment tz barbers services a w))
           = Some (bookingKeyOf a (normalizePhone rawPhone),
                   clock (snd (recheckRead tz a w)) + latency)).
Proof.
  intros Hvalid Hphone.
  destruct (book_after_guards a w Hvalid)
    as [continue (Hbook & Htaken & Hdup & Hnew)].
  pose proof (read_frame (default "" (barberId a)) (date a) w) as Hframe.
  fold (recheckRead tz a) in Hframe.
  rewrite Hbook. unfold bind.
  destruct (recheckRead tz a w) as [[checkAppts|m] w1] eqn:Hread;
    cbn [fst snd] in *; destruct Hframe as (Hc & Hb & Hl).
  - assert (Hrem : forall k now, remembered w1 k now = remembered w k now).
    { intros k now. unfold remembered. rewrite Hl. reflexivity. }
    split.
    + intros Hwin. rewrite <- Hrem in Hwin.
      destruct (slotFree tz a checkAppts) eqn:Hfree.
      * rewrite (Hdup checkAppts w1 rawPhone Hfree Hphone Hwin).
        cbn [fst snd]. split; [exact Hc|]. split; [exact Hb|].
        intros ? _ _. reflexivity.
      * rewrite (Htaken checkAppts w1 Hfree). cbn [fst snd].
        split; [exact Hc|]. split; [exact Hb|].
        intros checkAppts' [= <-] Hfree'. congruence.
    + intros Hout checkAppts' n iso latency rest [= <-] Hfree Hname Hiso Hnet
             Hlat.
      rewrite <- Hrem in Hout.
      rewrite (Hnew checkAppts w1 rawPhone n iso latency rest Hfree Hphone Hout
                    Hname Hiso Hnet Hlat).
      cbn. rewrite Hc. auto.
  - split.
    + intros _. split; [exact Hc|]. split; [exact Hb|]. intros ? [=].
    + intros _ ? ? ? ? ? [=].
Qed.

End Component.
End BookingToolFacts.

Module SlotFacts.
Import VoiceAgent.

Section Component.
Variables tz sofia : Z.
Variable barbers : list Barber.t.

(** What [get_available_slots] answers once the barber is found and the
    list is read: the free slots, filtered when the date is today's in
    Sofia. *)
Lemma available_slots_result (a : Args) (w w1 : World) (b : Barber.t)
      (appointments : list Appointment.t) :
  findBarber barbers (barberId a) = Some b ->
  getCachedAppointmentsForDate tz (default "" (barberId a)) (date a) w
  = (Ok appointments, w1) ->
  get_available_slots tz sofia barbers a w
  = (Ok (Slots
           (if match date a with
               | Some d =>
                   String.eqb d (JsDate.toLocaleDateStringCA sofia (clock w1))
               | None => false
               end
            then List.filter (afterLeadTime tz (clock w1))
                   (BookingManager.getFreeSlots
                      tz (default "" (date a)) (default "" (barberId a))
                      appointments)
            else BookingManager.getFreeSlots
                   tz (default "" (date a)) (default "" (barberId a))
                   appointments)), w1).
Proof.
  intros Hb Hread. unfold get_available_slots.
  assert (Hhas : hasBarbers barbers = true).
  { unfold hasBarbers. unfold findBarber in Hb.
    destruct (barberId a); [|discriminate].
    destruct barbers; [discriminate|reflexivity]. }
  rewrite Hhas, Hb. cbn [negb]. unfold bind at 1. rewrite Hread.
  unfold bind, get. cbv beta iota.
  destruct (match date a with Some d => _ | None => false end); reflexivity.
Qed.

(** A slot that passes the filter lies more than 45 minutes after [now]
    on the day the browser's clock shows. *)
Lemma afterLeadTime_bound (now : Z) (slot : string) :
  afterLeadTime tz now slot = true ->
  exists hours minutes : Z,
    firstn 2 (map JsDate.jsNumber (JsDate.splitColon slot))
    = [Some hours; Some minutes]
    /\ bufferMinutes * JsDate.MS_PER_MINUTE
       < JsDate.setHours tz now hours minutes - now.
Proof.
  unfold afterLeadTime.
  destruct (map JsDate.jsNumber (JsDate.splitColon slot)) as [|[h|] [|[m|] rest]];
    try discriminate.
  intros H. apply Z.ltb_lt in H. exists h, m. split; [reflexivity|exact H].
Qed.

(** The slots returned for today all pass the filter. *)
Lemma available_slots_today (a : Args) (w w1 : World) (b : Barber.t)
      (appointments : list Appointment.t) (d slot : string)
      (slots : list string) :
  findBarber barbers (barberId a) = Some b ->
  getCachedAppointmentsForDate tz (default "" (barberId a)) (date a) w
  = (Ok appointments, w1) ->
  date a = Some d -> d = JsDate.toLocaleDateStringCA sofia (clock w1) ->
  fst (get_available_slots tz sofia barbers a w) = Ok (Slots slots) ->
  In slot slots ->
  afterLeadTime tz (clock w1) slot = true.
Proof.
  intros Hb Hread Hd Htoday Hres Hin.
  rewrite (available_slots_result a w w1 b appointments Hb Hread) in Hres.
  rewrite Hd in Hres. rewrite <- Htoday in Hres.
  rewrite String.eqb_refl in Hres. cbn [fst] in Hres.
  injection Hres as <-. apply filter_In in Hin. apply Hin.
Qed.

End Component.
End SlotFacts.

Module Scenarios.
Import VoiceAgent Salon.

Lemma bookArgs_valid : validRefs [nalby] [haircut] bookArgs.
Proof. split; [reflexivity|]. split; cbn; discriminate. Qed.

(** C1: the code at the failing input.  The slots were read at ten; right
    after, another session took tomorrow's ten o'clock, so the slot is
    taken in the collection; the booking asked 5 s later is re-checked
    against the list cached by the read of the slots, succeeds, and the
    slot holds two appointments.  The re-check stands under the comment
    "First check if slot is still available (prevent double booking)". *)
Lemma stale_cache_double_booking :
  fst slotsRead = Ok (Slots TIME_SLOTS)
  /\ BookingManager.isSlotAvailable
       EET "10:00" "2026-01-21" "b1"
       (AppointmentService.docs
          (collection (takenElsewhere 5000 [Reply 200]))) = false
  /\ fst (book (takenElsewhere 5000 [Reply 200]))
     = Ok (Success (Some "doc0")
                   (booked_message "2026-01-21" "10:00" "359887112233"))
  /\ map Appointment.date
         (AppointmentService.docs
            (collection (snd (book (takenElsewhere 5000 [Reply 200])))))
     = ["2026-01-21T08:00:00.000Z"; "2026-01-21T08:00:00.000Z"].
Proof.
  split; [vm_compute; reflexivity|]. split; [vm_compute; reflexivity|].
  split; vm_compute; reflexivity.
Qed.

(** The same booking asked 20 s after the slots were read: the cache
    entry has expired, the backend is read, the slot is refused
    ([booking_rechecks_cached_read] at that input). *)
Lemma booking_rechecks_cached_read_witness :
  fst (book (takenElsewhere 20000 [Reply 50; Reply 200]))
  = Ok (Failure SLOT_TAKEN)
  /\ collection (snd (book (takenElsewhere 20000 [Reply 50; Reply 200])))
     = collection (takenElsewhere 20000 [Reply 50; Reply 200]).
Proof.
  destruct (BookingToolFacts.booking_rechecks_cached_read
              EET [nalby] [haircut] bookArgs
              (takenElsewhere 20000 [Reply 50; Reply 200]) bookArgs_valid)
    as (_ & _ & Hcheck).
  destruct (recheckRead EET bookArgs (takenElsewhere 20000 [Reply 50; Reply 200]))
    as [r w1] eqn:Hread.
  assert (Hr : r = Ok [tomorrowAtTen]).
  { apply (f_equal fst) in Hread. cbn [fst] in Hread. rewrite <- Hread.
    vm_compute. reflexivity. }
  subst r.
  destruct (Hcheck [tomorrowAtTen] w1 eq_refl) as (Hbook & Hc & _).
  - vm_compute. reflexivity.
  - unfold book. rewrite Hbook. cbn [fst snd]. split; [reflexivity|exact Hc].
Defined.

(** C2: the code at the two failing inputs.  The same call 5.8 s after the
    first one was answered is refused as "slot taken": the re-check comes
    before the test of [lastBookingRef], the cache entry read 15.9 s
    before has expired and the backend lists the first booking.  And the
    same call 10.1 s after the first one was answered is re-checked
    against the cached list, which the component's own booking did not
    refresh and in which the slot is still free, and creates a second
    appointment for the slot. *)
Lemma repeated_booking_refused_or_doubled :
  (fst firstBooking
   = Ok (Success (Some "doc0")
                 (booked_message "2026-01-21" "10:00" "359887112233"))
   /\ clock soonAfter - clock (snd firstBooking) = 5800
   /\ fst (book soonAfter) = Ok (Failure SLOT_TAKEN))
  /\ (fst directBooking
      = Ok (Success (Some "doc0")
                    (booked_message "2026-01-21" "10:00" "359887112233"))
      /\ clock tenSecondsAfter - clock (snd directBooking) = 10100
      /\ BookingManager.isSlotAvailable
           EET "10:00" "2026-01-21" "b1"
           (AppointmentService.docs (collection tenSecondsAfter)) = false
      /\ fst (book tenSecondsAfter)
         = Ok (Success (Some "doc1")
                       (booked_message "2026-01-21" "10:00" "359887112233"))
      /\ map Appointment.id
             (AppointmentService.docs (collection (snd (book tenSecondsAfter))))
         = ["doc0"; "doc1"]).
Proof.
  split.
  - split; [vm_compute; reflexivity|]. split; vm_compute; reflexivity.
  - split; [vm_compute; reflexivity|]. split; [vm_compute; reflexivity|].
    split; [vm_compute; reflexivity|]. split; vm_compute; reflexivity.
Qed.

(** The same call 3 s after the first one was answered: no second
    appointment, and the success of a duplicate. *)
Lemma duplicate_booking_window_witness :
  fst (book atOnce)
  = Ok (Success (Some "duplicate") (alreadyBooked "359887112233"))
  /\ collection (snd (book atOnce)) = collection atOnce.
Proof.
  destruct (BookingToolFacts.duplicate_booking_window
              EET [nalby] [haircut] bookArgs atOnce "0887 11 22 33"
              bookArgs_valid eq_refl) as [Hwithin _].
  destruct Hwithin as (Hc & _ & Hdup).
  - vm_compute. reflexivity.
  - split; [|exact Hc].
    apply (Hdup []); vm_compute; reflexivity.
Defined.

(** The read of the slots takes 7 s: the call is answered with the "slow
    connection" error, under its own id. *)
Lemma every_call_answered_witness :
  fst (answer EET EET [nalby] [haircut] slotsCall slowBackend)
  = Response.mk "call-7" "get_available_slots" (ErrorResult SLOW_CONNECTION).
Proof.
  destruct (ToolFacts.every_call_answered EET EET [nalby] [haircut])
    as (_ & _ & Hslow).
  destruct (Hslow slotsCall slowBackend) as [consumed [Hnet Hlate]].
  assert (Hrest : net (snd (answer EET EET [nalby] [haircut] slotsCall
                                   slowBackend)) = []).
  { vm_compute. reflexivity. }
  rewrite Hrest, app_nil_r in Hnet.
  assert (Hres : Response.result
                   (fst (answer EET EET [nalby] [haircut] slotsCall slowBackend))
                 = ErrorResult SLOW_CONNECTION).
  { apply Hlate. rewrite <- Hnet. constructor.
    unfold slow, TOOL_TIMEOUT_MS. cbn. lia. }
  destruct (fst (answer EET EET [nalby] [haircut] slotsCall slowBackend))
    as [i n r] eqn:Hans.
  cbn [Response.result] in Hres. subst r.
  assert (Hid : Response.id
                  (fst (answer EET EET [nalby] [haircut] slotsCall slowBackend))
                = "call-7") by (vm_compute; reflexivity).
  assert (Hname : Response.name
                    (fst (answer EET EET [nalby] [haircut] slotsCall
                                 slowBackend))
                  = "get_available_slots") by (vm_compute; reflexivity).
  rewrite Hans in Hid, Hname. cbn in Hid, Hname. subst i n. reflexivity.
Defined.

(** C5: the code at the failing input.  At 23:30 in Sofia a browser in
    Istanbul (00:30, the next day) asks for the slots of 2026-01-20, today
    in Sofia: every slot of the grid is returned, and each of them started
    before now, read in the browser's zone or in Sofia's.  At the same
    instant [findNextAvailableSlot], which takes the hour in Sofia, skips
    the day. *)
Lemma lead_time_reads_browser_clock :
  JsDate.toLocaleDateStringCA EET lateEvening = "2026-01-20"
  /\ fst (get_available_slots TRT EET [nalby] todayArgs
                              (mounted lateEvening [] emptyCollection))
     = Ok (Slots TIME_SLOTS)
  /\ forallb (fun slot =>
                BookingManager.dateLt
                  (JsDate.parse TRT ("2026-01-20T" ++ slot)) (Some lateEvening))
             TIME_SLOTS = true
  /\ forallb (fun slot =>
                BookingManager.dateLt
                  (JsDate.parse EET ("2026-01-20T" ++ slot)) (Some lateEvening))
             TIME_SLOTS = true
  /\ BookingManager.findNextAvailableSlot TRT lateEvening EET [] [nalby]
                                          (Some "b1") lateEvening
     = Some (BookingManager.mkFound "2026-01-21" "10:00" "b1").
Proof.
  split; [vm_compute; reflexivity|]. split; [vm_compute; reflexivity|].
  split; [vm_compute; reflexivity|]. split; vm_compute; reflexivity.
Qed.

End Scenarios.

Module SlotSearchFacts.
Import BookingManager SlotSearch.

Lemma firstSome_Some {A B : Type} (f : A -> option B) (l : list A) (y : B) :
  firstSome f l = Some y ->
  exists l1 x l2, l = (l1 ++ x :: l2)%list /\ f x = Some y
                  /\ forall x', In x' l1 -> f x' = None.
Proof.
  induction l as [|a l IH]; simpl; [discriminate|].
  destruct (f a) as [b|] eqn:Ha.
  - intros [= <-]. exists [], a, l. repeat split; [exact Ha|]. intros ? [].
  - intros H. destruct (IH H) as (l1 & x & l2 & -> & Hx & Hbefore).
    exists (a :: l1), x, l2. repeat split; [exact Hx|].
    intros x' [<-|Hin]; [exact Ha|]. apply Hbefore, Hin.
Qed.

Lemma firstSome_None {A B : Type} (f : A -> option B) (l : list A) :
  firstSome f l = None <-> forall x, In x l -> f x = None.
Proof.
  induction l as [|a l IH]; simpl.
  - split; [intros _ ? []|reflexivity].
  - destruct (f a) as [b|] eqn:Ha; split.
    + discriminate.
    + intros H. specialize (H a (or_introl eq_refl)). congruence.
    + intros H x [<-|Hin]; [exact Ha|]. apply IH; assumption.
    + intros H. apply IH. intros x Hin. apply H. right. exact Hin.
Qed.

Lemma TIME_SLOTS_NoDup : List.NoDup TIME_SLOTS.
Proof.
  unfold TIME_SLOTS.
  repeat (constructor;
          [cbn; intros H;
           repeat (destruct H as [H|H]; [discriminate H|]); exact H|]).
  constructor.
Qed.

(** A list without repetition splits at an element in one way. *)
Lemma split_unique {A : Type} (l1 l1' l2 l2' : list A) (x : A) :
  List.NoDup (l1 ++ x :: l2) ->
  (l1 ++ x :: l2 = l1' ++ x :: l2')%list -> l1 = l1'.
Proof.
  revert l1'. induction l1 as [|a l1 IH]; intros l1' Hnodup Heq.
  - destruct l1' as [|b l1']; [reflexivity|].
    cbn in Heq. injection Heq as Hx Hrest. exfalso.
    cbn in Hnodup. inversion Hnodup as [|? ? Hnotin _].
    apply Hnotin. rewrite Hrest. apply in_or_app. right. left. reflexivity.
  - destruct l1' as [|b l1']; cbn in Heq.
    + injection Heq as Hx Hrest. exfalso.
      cbn in Hnodup. inversion Hnodup as [|? ? Hnotin _].
      apply Hnotin. rewrite Hx. apply in_or_app. right. left. reflexivity.
    + injection Heq as Hx Hrest. f_equal; [exact Hx|].
      apply IH; [|exact Hrest]. cbn in Hnodup. inversion Hnodup; assumption.
Qed.

(** The loop that keeps the earliest of the slots found. *)
Section Earliest.
Context {B S : Type}.
Variable slotOf : B -> option S.
Variable instant : S -> option Z.

Lemma earliest_fold (barbers : list B) (acc : option S) :
  match fold_left (keepEarliest slotOf instant) barbers acc with
  | None => acc = None /\ forall b, In b barbers -> slotOf b = None
  | Some f =>
      (acc = Some f \/ exists b, In b barbers /\ slotOf b = Some f)
      /\ (forall e, acc = Some e ->
                    f = e \/ dateLt (instant f) (instant e) = true)
      /\ (forall b g, In b barbers -> slotOf b = Some g ->
                      dateLt (instant g) (instant f) = false)
  end.
Proof.
  revert acc.
  assert (Hirr : forall x, dateLt x x = false).
  { intros [x|]; cbn; [apply Z.ltb_irrefl|reflexivity]. }
  assert (Hasym : forall a b, dateLt a b = true -> dateLt b a = false).
  { intros [a|] [b|]; cbn; try discriminate.
    intros H. apply Z.ltb_lt in H. apply Z.ltb_ge. lia. }
  assert (Htrans : forall a b c,
             dateLt a b = true -> dateLt b c = true -> dateLt a c = true).
  { intros [a|] [b|] [c|]; cbn; try discriminate.
    intros H1 H2. apply Z.ltb_lt in H1. apply Z.ltb_lt in H2.
    apply Z.ltb_lt. lia. }
  assert (Hmix : forall f e g,
             dateLt f e = true -> dateLt g e = false -> dateLt g f = false).
  { intros [f|] [e|] [g|]; cbn; try discriminate; try reflexivity.
    intros H1 H2. apply Z.ltb_lt in H1. apply Z.ltb_ge in H2.
    apply Z.ltb_ge. lia. }
  assert (Hnot : forall f g : S,
             f = g \/ dateLt (instant f) (instant g) = true ->
             dateLt (instant g) (instant f) = false).
  { intros f g [->|Hlt]; [apply Hirr|apply Hasym, Hlt]. }
  induction barbers as [|b barbers IH]; intros acc.
  - cbn [fold_left]. destruct acc as [f|].
    + split; [left; reflexivity|]. split.
      * intros e [= ->]. left. reflexivity.
      * intros ? ? [].
    + split; [reflexivity|]. intros ? [].
  - cbn [fold_left]. specialize (IH ((keepEarliest slotOf instant) acc b)).
    destruct (slotOf b) as [g|] eqn:Hg.
    + assert (Hk : (keepEarliest slotOf instant) acc b
                   = match acc with
                     | None => Some g
                     | Some e => if dateLt (instant g) (instant e)
                                 then Some g else acc
                     end)
        by (unfold keepEarliest; rewrite Hg; reflexivity).
      rewrite Hk in *. clear Hk.
      destruct acc as [e|].
      * destruct (dateLt (instant g) (instant e)) eqn:Hlt.
        -- destruct (fold_left (keepEarliest slotOf instant) barbers (Some g)) as [f|].
           ++ destruct IH as (Hfrom & Hacc & Hrest).
              pose proof (Hacc g eq_refl) as Hfg.
              split.
              { destruct Hfrom as [[= <-]|(b' & Hin & Hb')].
                - right. exists b. split; [left; reflexivity|exact Hg].
                - right. exists b'. split; [right; exact Hin|exact Hb']. }
              split.
              { intros e' [= <-]. right.
                destruct Hfg as [->|Hfg]; [exact Hlt|].
                exact (Htrans _ _ _ Hfg Hlt). }
              { intros b' g' [<-|Hin] Hb'.
                - rewrite Hg in Hb'. injection Hb' as <-. apply Hnot, Hfg.
                - apply (Hrest b' g' Hin Hb'). }
           ++ destruct IH as (Hacc & _). discriminate.
        -- destruct (fold_left (keepEarliest slotOf instant) barbers (Some e)) as [f|].
           ++ destruct IH as (Hfrom & Hacc & Hrest).
              pose proof (Hacc e eq_refl) as Hfe.
              split.
              { destruct Hfrom as [Hf|(b' & Hin & Hb')].
                - left. exact Hf.
                - right. exists b'. split; [right; exact Hin|exact Hb']. }
              split; [exact Hacc|].
              intros b' g' [<-|Hin] Hb'.
              ** rewrite Hg in Hb'. injection Hb' as <-.
                 destruct Hfe as [->|Hfe]; [exact Hlt|].
                 exact (Hmix _ _ _ Hfe Hlt).
              ** apply (Hrest b' g' Hin Hb').
           ++ destruct IH as (Hacc & _). discriminate.
      * destruct (fold_left (keepEarliest slotOf instant) barbers (Some g)) as [f|].
        -- destruct IH as (Hfrom & Hacc & Hrest).
           pose proof (Hacc g eq_refl) as Hfg.
           split.
           { destruct Hfrom as [[= <-]|(b' & Hin & Hb')].
             - right. exists b. split; [left; reflexivity|exact Hg].
             - right. exists b'. split; [right; exact Hin|exact Hb']. }
           split; [intros ? [=]|].
           intros b' g' [<-|Hin] Hb'.
           ++ rewrite Hg in Hb'. injection Hb' as <-. apply Hnot, Hfg.
           ++ apply (Hrest b' g' Hin Hb').
        -- destruct IH as (Hacc & _). discriminate.
    + assert (Hk : (keepEarliest slotOf instant) acc b = acc)
        by (unfold keepEarliest; rewrite Hg; reflexivity).
      rewrite Hk in *. clear Hk.
      destruct (fold_left (keepEarliest slotOf instant) barbers acc) as [f|].
      * destruct IH as (Hfrom & Hacc & Hrest). split.
        { destruct Hfrom as [Hf|(b' & Hin & Hb')].
          - left. exact Hf.
          - right. exists b'. split; [right; exact Hin|exact Hb']. }
        split; [exact Hacc|].
        intros b' g' [<-|Hin] Hb'.
        -- rewrite Hg in Hb'. discriminate.
        -- apply (Hrest b' g' Hin Hb').
      * destruct IH as (Hacc & Hrest). split; [exact Hacc|].
        intros b' [<-|Hin]; [exact Hg|]. apply Hrest, Hin.
Qed.

(** The slot the loop ends with is the accumulated one, which no barber
    beats, or the slot of a barber of the list that beats the
    accumulated one and every barber before, and that no barber after
    beats. *)
Lemma earliest_first (barbers : list B) (acc : option S) (f : S) :
  fold_left (keepEarliest slotOf instant) barbers acc = Some f ->
  (acc = Some f
   /\ forall b g, In b barbers -> slotOf b = Some g ->
                  dateLt (instant g) (instant f) = false)
  \/ (exists l1 b l2,
         barbers = (l1 ++ b :: l2)%list /\ slotOf b = Some f
         /\ (forall e, acc = Some e -> dateLt (instant f) (instant e) = true)
         /\ (forall b' g, In b' l1 -> slotOf b' = Some g ->
                          instant g = None
                          \/ dateLt (instant f) (instant g) = true)
         /\ (forall b' g, In b' l2 -> slotOf b' = Some g ->
                          dateLt (instant g) (instant f) = false)).
Proof.
  assert (Htrans : forall a b c,
             dateLt a b = true -> dateLt b c = true -> dateLt a c = true).
  { intros [a|] [b|] [c|]; cbn; try discriminate.
    intros H1 H2. apply Z.ltb_lt in H1. apply Z.ltb_lt in H2.
    apply Z.ltb_lt. lia. }
  assert (Hge : forall f e g,
             dateLt f e = true -> dateLt g e = false ->
             g = None \/ dateLt f g = true).
  { intros [x|] [y|] [z|]; cbn; try discriminate; auto.
    intros H1 H2. apply Z.ltb_lt in H1. apply Z.ltb_ge in H2.
    right. apply Z.ltb_lt. lia. }
  revert acc. induction barbers as [|b0 rest IH]; intros acc Hfold.
  - cbn in Hfold. left. split; [exact Hfold|]. intros ? ? [].
  - cbn [fold_left] in Hfold. specialize (IH _ Hfold). clear Hfold.
    assert (Hk : keepEarliest slotOf instant acc b0
                 = match slotOf b0 with
                   | Some slot =>
                       match acc with
                       | None => Some slot
                       | Some e => if dateLt (instant slot) (instant e)
                                   then Some slot else acc
                       end
                   | None => acc
                   end) by reflexivity.
    rewrite Hk in IH. clear Hk.
    destruct (slotOf b0) as [g0|] eqn:Hg0.
    + destruct acc as [e|].
      * destruct (dateLt (instant g0) (instant e)) eqn:Hlt.
        -- destruct IH as [[Hacc Hrest]|(l1 & b & l2 & -> & Hb & Hacc & H1 & H2)].
           ++ injection Hacc as <-. right. exists [], b0, rest.
              split; [reflexivity|]. split; [exact Hg0|].
              split; [intros e' [= <-]; exact Hlt|].
              split; [intros ? ? []|exact Hrest].
           ++ right. exists (b0 :: l1), b, l2.
              split; [reflexivity|]. split; [exact Hb|].
              pose proof (Hacc g0 eq_refl) as Hfg.
              split; [intros e' [= <-]; exact (Htrans _ _ _ Hfg Hlt)|].
              split; [|exact H2].
              intros b' g [<-|Hin] Hg.
              ** rewrite Hg0 in Hg. injection Hg as <-. right. exact Hfg.
              ** exact (H1 b' g Hin Hg).
        -- destruct IH as [[Hacc Hrest]|(l1 & b & l2 & -> & Hb & Hacc & H1 & H2)].
           ++ injection Hacc as <-. left. split; [reflexivity|].
              intros b' g [<-|Hin] Hg.
              ** rewrite Hg0 in Hg. injection Hg as <-. exact Hlt.
              ** exact (Hrest b' g Hin Hg).
           ++ right. exists (b0 :: l1), b, l2.
              split; [reflexivity|]. split; [exact Hb|].
              split; [exact Hacc|]. split; [|exact H2].
              intros b' g [<-|Hin] Hg.
              ** rewrite Hg0 in Hg. injection Hg as <-.
                 exact (Hge _ _ _ (Hacc e eq_refl) Hlt).
              ** exact (H1 b' g Hin Hg).
      * destruct IH as [[Hacc Hrest]|(l1 & b & l2 & -> & Hb & Hacc & H1 & H2)].
        -- injection Hacc as <-. right. exists [], b0, rest.
           split; [reflexivity|]. split; [exact Hg0|].
           split; [intros ? [=]|]. split; [intros ? ? []|exact Hrest].
        -- right. exists (b0 :: l1), b, l2.
           split; [reflexivity|]. split; [exact Hb|].
           split; [intros ? [=]|]. split; [|exact H2].
           intros b' g [<-|Hin] Hg.
           ++ rewrite Hg0 in Hg. injection Hg as <-. right.
              exact (Hacc g0 eq_refl).
           ++ exact (H1 b' g Hin Hg).
    + destruct IH as [[Hacc Hrest]|(l1 & b & l2 & -> & Hb & Hacc & H1 & H2)].
      * left. split; [exact Hacc|].
        intros b' g [<-|Hin] Hg; [congruence|]. exact (Hrest b' g Hin Hg).
      * right. exists (b0 :: l1), b, l2.
        split; [reflexivity|]. split; [exact Hb|].
        split; [exact Hacc|]. split; [|exact H2].
        intros b' g [<-|Hin] Hg; [congruence|]. exact (H1 b' g Hin Hg).
Qed.

End Earliest.

Section Zone.
Variable tz : Z.

(** The body of the inner loop, in terms of [candidate]. *)
Lemma findSlotForBarber_scan (now sofia : Z) (barberId : string)
      (appointments : list Appointment.t) (startDate : Z) :
  findSlotForBarber tz now sofia barberId appointments startDate
  = firstSome (fun i =>
      firstSome (fun slot =>
        if candidate tz now sofia barberId appointments startDate i slot
        then Some (mkFound (dayStr tz sofia startDate i) slot barberId)
        else None) TIME_SLOTS)
      (map Z.of_nat (seq 0 30)).
Proof.
  unfold findSlotForBarber. apply BookingFacts.firstSome_ext. intros i.
  apply BookingFacts.firstSome_ext. intros slot.
  unfold candidate, hourPassed, dayStr.
  destruct (String.eqb _ _ && _); cbn [negb andb]; [reflexivity|].
  reflexivity.
Qed.

Lemma in_days (i : Z) : In i (map Z.of_nat (seq 0 30)) <-> 0 <= i < 30.
Proof.
  rewrite in_map_iff. split.
  - intros [n [<- Hn]]. apply in_seq in Hn. lia.
  - intros Hi. exists (Z.to_nat i). split; [lia|]. apply in_seq. lia.
Qed.

Lemma days_split (l1 l2 : list Z) (i : Z) :
  map Z.of_nat (seq 0 30) = (l1 ++ i :: l2)%list ->
  forall i', In i' l1 <-> 0 <= i' < i.
Proof.
  intros Hsplit.
  assert (Hgen : forall (n len : nat) (l1 l2 : list Z) (i : Z),
             map Z.of_nat (seq n len) = (l1 ++ i :: l2)%list ->
             forall i', In i' l1 <-> Z.of_nat n <= i' < i).
  { clear. intros n len. revert n. induction len as [|len IH]; intros n l1 l2 i H i'.
    - destruct l1; discriminate.
    - cbn [seq map] in H. destruct l1 as [|a l1]; cbn in H.
      + injection H as <- _. split; [intros []|lia].
      + injection H as <- H. specialize (IH (S n) l1 l2 i H).
        assert (Hi : Z.of_nat (S n) <= i).
        { assert (Hin : In i (map Z.of_nat (seq (S n) len))).
          { rewrite H. apply in_or_app. right. left. reflexivity. }
          apply in_map_iff in Hin. destruct Hin as [k [<- Hk]].
          apply in_seq in Hk. lia. }
        split.
        * intros [<-|Hin]; [lia|]. apply IH in Hin. lia.
        * intros Hrange. destruct (Z.eq_dec i' (Z.of_nat n)) as [->|Hne];
            [left; reflexivity|]. right. apply IH. lia. }
  intros i'. rewrite (Hgen 0%nat 30%nat l1 l2 i Hsplit i'). cbn. tauto.
Qed.

Lemma candidate_free (now sofia : Z) (barberId : string)
      (appointments : list Appointment.t) (startDate i : Z) (slot : string) :
  candidate tz now sofia barberId appointments startDate i slot = true ->
  isSlotAvailable tz slot (dayStr tz sofia startDate i) barberId appointments
  = true.
Proof.
  unfold candidate. intros H. apply andb_true_iff in H. exact (proj2 H).
Qed.

(** X1. The search of [findSlotForBarber] returns the first slot, in the
    order of the days and then of the grid, that is neither a past slot of
    today (Sofia time) nor taken; it returns nothing exactly when the
    thirty days hold no such slot. *)
Theorem findSlotForBarber_first_candidate (now sofia : Z) (barberId : string)
        (appointments : list Appointment.t) (startDate : Z) :
  (forall f : Found,
      findSlotForBarber tz now sofia barberId appointments startDate = Some f ->
      exists (i : Z) (slot : string),
        0 <= i < 30 /\ In slot TIME_SLOTS
        /\ f = mkFound (dayStr tz sofia startDate i) slot barberId
        /\ candidate tz now sofia barberId appointments startDate i slot = true
        /\ isSlotAvailable tz (found_time f) (found_date f) barberId
                           appointments = true
        /\ (forall (i' : Z) (slot' : string),
               0 <= i' < i -> In slot' TIME_SLOTS ->
               candidate tz now sofia barberId appointments startDate i' slot'
               = false)
        /\ (forall slot' : string,
               earlierInGrid slot' slot ->
               candidate tz now sofia barberId appointments startDate i slot'
               = false))
  /\ (findSlotForBarber tz now sofia barberId appointments startDate = None <->
      forall (i : Z) (slot : string),
        0 <= i < 30 -> In slot TIME_SLOTS ->
        candidate tz now sofia barberId appointments startDate i slot = false).
Proof.
  rewrite findSlotForBarber_scan. split.
  - intros f Hf.
    apply firstSome_Some in Hf.
    destruct Hf as (d1 & i & d2 & Hdays & Hday & Hbefore).
    apply firstSome_Some in Hday.
    destruct Hday as (s1 & slot & s2 & Hslots & Hslot & Hearlier).
    destruct (candidate tz now sofia barberId appointments startDate i slot)
      eqn:Hc; [|discriminate].
    injection Hslot as <-.
    exists i, slot.
    assert (Hi : 0 <= i < 30).
    { apply (proj1 (in_days i)). rewrite Hdays. apply in_or_app. right. left. reflexivity. }
    assert (Hs : In slot TIME_SLOTS).
    { rewrite Hslots. apply in_or_app. right. left. reflexivity. }
    split; [exact Hi|]. split; [exact Hs|]. split; [reflexivity|].
    split; [exact Hc|]. split.
    { cbn [found_time found_date]. exact (candidate_free _ _ _ _ _ _ _ Hc). }
    split.
    + intros i' slot' Hi' Hs'.
      assert (Hin : In i' d1) by (apply (days_split d1 d2 i Hdays); exact Hi').
      specialize (Hbefore i' Hin).
      rewrite firstSome_None in Hbefore. specialize (Hbefore slot' Hs').
      destruct (candidate tz now sofia barberId appointments startDate i' slot');
        [discriminate|reflexivity].
    + intros slot' (l1 & l2 & Hgrid & Hin).
      assert (Hl : l1 = s1).
      { pose proof TIME_SLOTS_NoDup as Hnodup.
        rewrite Hslots in Hgrid, Hnodup.
        symmetry. exact (split_unique _ _ _ _ _ Hnodup Hgrid). }
      subst l1. specialize (Hearlier slot' Hin).
      destruct (candidate tz now sofia barberId appointments startDate i slot');
        [discriminate|reflexivity].
  - split.
    + intros H i slot Hi Hs. apply (proj2 (in_days i)) in Hi.
      pose proof (proj1 (firstSome_None _ _) H i Hi) as Hday.
      pose proof (proj1 (firstSome_None _ _) Hday slot Hs) as Hslot.
      cbv beta in Hslot.
      destruct (candidate tz now sofia barberId appointments startDate i slot);
        [discriminate|reflexivity].
    + intros H. apply (proj2 (firstSome_None _ _)). intros i Hi.
      apply (proj1 (in_days i)) in Hi. apply (proj2 (firstSome_None _ _)).
      intros slot Hs. rewrite (H i slot Hi Hs). reflexivity.
Qed.

(** X2. With a barber given, [findNextAvailableSlot] is the search for that
    barber, whatever the list of barbers; with none, or with the empty
    string for one, it goes through the barbers in the order of the list
    and returns the slot found for one of them that starts before the
    slot of every barber listed before it and not after the slot of any
    barber listed after it -- of the barbers whose slots start at the
    same earliest instant the first one of the list wins -- and it
    returns nothing exactly when no barber has a slot. *)
Theorem findNextAvailableSlot_earliest (now sofia : Z)
        (appointments : list Appointment.t) (barbers : list Barber.t)
        (startDate : Z) :
  (forall barberId : string,
      barberId <> "" ->
      findNextAvailableSlot tz now sofia appointments barbers (Some barberId)
                            startDate
      = findSlotForBarber tz now sofia barberId appointments startDate)
  /\ findNextAvailableSlot tz now sofia appointments barbers (Some "") startDate
     = findNextAvailableSlot tz now sofia appointments barbers None startDate
  /\ (forall f : Found,
         findNextAvailableSlot tz now sofia appointments barbers None startDate
         = Some f ->
         exists (before : list Barber.t) (b : Barber.t) (after : list Barber.t),
           barbers = (before ++ b :: after)%list
           /\ findSlotForBarber tz now sofia (Barber.id b) appointments
                                startDate = Some f
           /\ (forall b' g,
                  In b' before ->
                  findSlotForBarber tz now sofia (Barber.id b') appointments
                                    startDate = Some g ->
                  slotInstant tz g = None
                  \/ dateLt (slotInstant tz f) (slotInstant tz g) = true)
           /\ (forall b' g,
                  In b' after ->
                  findSlotForBarber tz now sofia (Barber.id b') appointments
                                    startDate = Some g ->
                  dateLt (slotInstant tz g) (slotInstant tz f) = false))
  /\ (findNextAvailableSlot tz now sofia appointments barbers None startDate
      = None <->
      forall b,
        In b barbers ->
        findSlotForBarber tz now sofia (Barber.id b) appointments startDate
        = None).
Proof.
  assert (Hrun : findNextAvailableSlot tz now sofia appointments barbers None
                                       startDate
                 = fold_left
                     (keepEarliest
                        (fun b : Barber.t =>
                           findSlotForBarber tz now sofia (Barber.id b)
                                             appointments startDate)
                        (slotInstant tz)) barbers None).
  { unfold findNextAvailableSlot, keepEarliest. cbn [truthy]. reflexivity. }
  split; [|split; [|split]].
  - intros barberId Hne. unfold findNextAvailableSlot. cbn [truthy default].
    apply String.eqb_neq in Hne. rewrite Hne. reflexivity.
  - reflexivity.
  - intros f Hf. rewrite Hrun in Hf.
    destruct (earliest_first _ _ barbers None f Hf)
      as [[Hacc _]|(l1 & b & l2 & Hsplit & Hb & _ & H1 & H2)];
      [discriminate|].
    exists l1, b, l2. split; [exact Hsplit|]. split; [exact Hb|].
    split; [exact H1|exact H2].
  - pose proof (earliest_fold
                  (fun b : Barber.t =>
                     findSlotForBarber tz now sofia (Barber.id b) appointments
                                       startDate)
                  (slotInstant tz) barbers None) as Hfold.
    rewrite Hrun. split.
    + intros Hnone. rewrite Hnone in Hfold. apply Hfold.
    + intros Hall.
      destruct (fold_left _ barbers None) as [f|]; [|reflexivity].
      destruct Hfold as ([Hacc|(b & Hin & Hb)] & _); [discriminate|].
      rewrite (Hall b Hin) in Hb. discriminate.
Qed.

End Zone.
End SlotSearchFacts.

Module AvailabilityFacts.
Import BookingManager.

Section Zone.
Variable tz : Z.

Lemma occupies_other_barber (barberId : string) (target : option Z)
      (apt : Appointment.t) :
  String.eqb (Appointment.barberId apt) barberId = false ->
  occupies tz barberId target apt = false.
Proof. unfold occupies. intros ->. reflexivity. Qed.

Lemma occupies_invalid_target (barberId : string) (apt : Appointment.t) :
  occupies tz barberId None apt = false.
Proof.
  unfold occupies.
  destruct (negb _ || _); [reflexivity|].
  destruct (JsDate.parse tz (Appointment.date apt)); reflexivity.
Qed.

(** X3. The availability of a slot over two lists put together is its
    availability over each of them: appointments added to a list can take
    slots, never free one. *)
Theorem availability_of_merged_lists (dateToCheck barberId : string)
        (l1 l2 : list Appointment.t) :
  (forall time : string,
      isSlotAvailable tz time dateToCheck barberId (l1 ++ l2)
      = isSlotAvailable tz time dateToCheck barberId l1
        && isSlotAvailable tz time dateToCheck barberId l2)
  /\ (forall slot : string,
         In slot (getFreeSlots tz dateToCheck barberId (l1 ++ l2)) <->
         In slot (getFreeSlots tz dateToCheck barberId l1)
         /\ In slot (getFreeSlots tz dateToCheck barberId l2)).
Proof.
  assert (Hav : forall time : string,
             isSlotAvailable tz time dateToCheck barberId (l1 ++ l2)
             = isSlotAvailable tz time dateToCheck barberId l1
               && isSlotAvailable tz time dateToCheck barberId l2).
  { intros time. unfold isSlotAvailable.
    destruct (String.eqb dateToCheck "" || String.eqb barberId "");
      [reflexivity|].
    rewrite existsb_app. apply negb_orb. }
  split; [exact Hav|].
  intros slot. unfold getFreeSlots. rewrite !filter_In, Hav, andb_true_iff.
  tauto.
Qed.

(** X4. Only the appointments of the barber asked for count. *)
Theorem other_barbers_ignored (dateToCheck barberId : string)
        (appointments : list Appointment.t) :
  (forall time : string,
      isSlotAvailable tz time dateToCheck barberId appointments
      = isSlotAvailable tz time dateToCheck barberId
          (List.filter
             (fun a => String.eqb (Appointment.barberId a) barberId)
             appointments))
  /\ getFreeSlots tz dateToCheck barberId appointments
     = getFreeSlots tz dateToCheck barberId
         (List.filter (fun a => String.eqb (Appointment.barberId a) barberId)
                      appointments).
Proof.
  assert (Hav : forall time : string,
             isSlotAvailable tz time dateToCheck barberId appointments
             = isSlotAvailable tz time dateToCheck barberId
                 (List.filter
                    (fun a => String.eqb (Appointment.barberId a) barberId)
                    appointments)).
  { intros time. unfold isSlotAvailable.
    destruct (String.eqb dateToCheck "" || String.eqb barberId "");
      [reflexivity|].
    f_equal.
    induction appointments as [|apt l IH]; [reflexivity|].
    cbn [existsb List.filter].
    destruct (String.eqb (Appointment.barberId apt) barberId) eqn:Hb.
    - cbn [existsb]. rewrite IH. reflexivity.
    - rewrite (occupies_other_barber _ _ _ Hb). exact IH. }
  split; [exact Hav|].
  unfold getFreeSlots. apply filter_ext. exact Hav.
Qed.

(** A text that does not begin with a digit is not one of the dates the
    model reads. *)
Lemma parse_no_leading_digit (c : ascii) (s : string) :
  JsDate.digit c = None -> JsDate.parse tz (String c s) = None.
Proof.
  intros Hc. unfold JsDate.parse. cbn [list_ascii_of_string].
  generalize (list_ascii_of_string s). intros cs.
  cbn [firstn].
  destruct (firstn 9 cs) as [|y2 [|y3 [|y4 [|s1 [|m1 [|m2 [|s2 [|d1 [|d2 [|x l]]]]]]]]]];
    try reflexivity.
  unfold JsDate.parseYMD.
  destruct (Ascii.eqb s1 "-" && Ascii.eqb s2 "-"); [|reflexivity].
  cbn [JsDate.digitsFrom]. rewrite Hc. reflexivity.
Qed.

Lemma parse_noDigit (date time : string) :
  Iso.noDigit date = true -> In time TIME_SLOTS ->
  JsDate.parse tz (date ++ "T" ++ time) = None.
Proof.
  intros Hno Hin. destruct date as [|c date].
  - unfold TIME_SLOTS in Hin. cbn in Hin.
    repeat (destruct Hin as [<-|Hin]; [reflexivity|]). contradiction.
  - cbn [append]. apply parse_no_leading_digit.
    unfold Iso.noDigit in Hno. cbn [list_ascii_of_string forallb] in Hno.
    apply andb_true_iff in Hno. destruct Hno as [Hc _].
    destruct (JsDate.digit c); [discriminate|reflexivity].
Qed.

(** X5. A date without any digit -- the word for tomorrow, say, where
    YYYY-MM-DD is expected -- makes no date with a slot of the grid: the
    slot is reported free whatever the list holds, and [getFreeSlots]
    returns the whole grid. *)
Theorem date_without_digits_is_free (dateToCheck barberId : string)
        (appointments : list Appointment.t) :
  Iso.noDigit dateToCheck = true ->
  (forall time : string,
      In time TIME_SLOTS ->
      isSlotAvailable tz time dateToCheck barberId appointments = true)
  /\ getFreeSlots tz dateToCheck barberId appointments = TIME_SLOTS.
Proof.
  intros Hno.
  assert (Hfree : forall time : string,
             In time TIME_SLOTS ->
             isSlotAvailable tz time dateToCheck barberId appointments = true).
  { intros time Hin. unfold isSlotAvailable.
    destruct (String.eqb dateToCheck "" || String.eqb barberId "");
      [reflexivity|].
    rewrite (parse_noDigit dateToCheck time Hno Hin). apply negb_true_iff.
    induction appointments as [|apt l IH]; [reflexivity|].
    cbn [existsb]. rewrite occupies_invalid_target. exact IH. }
  split; [exact Hfree|].
  unfold getFreeSlots.
  assert (Hall : forall l : list string,
             (forall x, In x l -> In x TIME_SLOTS) ->
             List.filter (fun slot => isSlotAvailable tz slot dateToCheck barberId
                                                 appointments) l = l).
  { induction l as [|x l IH]; intros Hsub; [reflexivity|].
    cbn [List.filter]. rewrite (Hfree x (Hsub x (or_introl eq_refl))).
    f_equal. apply IH. intros y Hy. apply Hsub. right. exact Hy. }
  apply Hall. auto.
Qed.
End Zone.

End AvailabilityFacts.

Module SlotExamples.
Import BookingManager SlotSearch Salon Salon2.

(** At ten in Sofia the ten o'clock slot of today is passed over and the
    search of an empty day stops at eleven. *)
Lemma findSlotForBarber_first_candidate_witness :
  exists (i : Z) (slot : string),
    0 <= i < 30 /\ In slot TIME_SLOTS
    /\ mkFound "2026-01-20" "11:00" "b1"
       = mkFound (dayStr EET EET tenInSofia i) slot "b1"
    /\ candidate EET tenInSofia EET "b1" [] tenInSofia i slot = true
    /\ candidate EET tenInSofia EET "b1" [] tenInSofia 0 "10:00" = false.
Proof.
  destruct (proj1 (SlotSearchFacts.findSlotForBarber_first_candidate
                     EET tenInSofia EET "b1" [] tenInSofia)
                  (mkFound "2026-01-20" "11:00" "b1"))
    as (i & slot & Hi & Hs & Hf & Hc & _).
  - vm_compute. reflexivity.
  - exists i, slot.
    split; [exact Hi|]. split; [exact Hs|]. split; [exact Hf|].
    split; [exact Hc|]. vm_compute. reflexivity.
Defined.

(** Both barbers are free at eleven: the slot of the first one of the
    list is returned, in either order of the list. *)
Lemma findNextAvailableSlot_earliest_witness :
  findNextAvailableSlot EET tenInSofia EET [] [mario; nalby] None tenInSofia
  = Some (mkFound "2026-01-20" "11:00" "b2")
  /\ exists (before : list Barber.t) (b : Barber.t) (after : list Barber.t),
      [nalby; mario] = (before ++ b :: after)%list
      /\ findSlotForBarber EET tenInSofia EET (Barber.id b) [] tenInSofia
         = Some (mkFound "2026-01-20" "11:00" "b1")
      /\ forall b' g,
          In b' before ->
          findSlotForBarber EET tenInSofia EET (Barber.id b') [] tenInSofia
          = Some g ->
          slotInstant EET g = None
          \/ dateLt (slotInstant EET (mkFound "2026-01-20" "11:00" "b1"))
                    (slotInstant EET g) = true.
Proof.
  split; [vm_compute; reflexivity|].
  destruct (SlotSearchFacts.findNextAvailableSlot_earliest
              EET tenInSofia EET [] [nalby; mario] tenInSofia)
    as (_ & _ & Hfound & _).
  destruct (Hfound (mkFound "2026-01-20" "11:00" "b1"))
    as (before & b & after & Hsplit & Hb & Hbefore & _).
  - vm_compute. reflexivity.
  - exists before, b, after. split; [exact Hsplit|]. split; [exact Hb|].
    exact Hbefore.
Defined.
(** The date of the call is the word for tomorrow: the slot is reported
    free although the list holds an appointment on it, and so is the
    whole grid. *)
Lemma date_without_digits_is_free_witness :
  isSlotAvailable EET "10:00" "утре" "b1" [tomorrowAtTen] = true
  /\ getFreeSlots EET "утре" "b1" [tomorrowAtTen] = TIME_SLOTS.
Proof.
  destruct (AvailabilityFacts.date_without_digits_is_free
              EET "утре" "b1" [tomorrowAtTen] eq_refl) as [Hslot Hgrid].
  split; [|exact Hgrid].
  apply Hslot. unfold TIME_SLOTS. cbn. auto.
Defined.

End SlotExamples.

Module CalendarFacts.
Import JsDate.

(** The day [z] split as [civilFromDays] does it: the era, the year of
    the era counted from March, the day of that year, the month counted
    from March. *)
Lemma civilFromDays_parts (z : Z) :
  exists era yoe doy mp m c : Z,
    z + 719468 = era * 146097 + (365 * yoe + yoe / 4 - yoe / 100) + doy
    /\ 0 <= yoe < 400
    /\ 0 <= doy < 366
    /\ (doy = 365 -> (yoe + 1) mod 4 = 0
                     /\ ((yoe + 1) mod 100 <> 0 \/ yoe = 399))
    /\ mp = (5 * doy + 2) / 153
    /\ 0 <= mp < 12
    /\ (mp < 10 /\ m = mp + 3 /\ c = 0 \/ 10 <= mp /\ m = mp - 9 /\ c = 1)
    /\ 1 <= m <= 12
    /\ civilFromDays z = (yoe + era * 400 + c, m, doy - (153 * mp + 2) / 5 + 1).
Proof.
  unfold civilFromDays. cbv zeta.
  set (z' := z + 719468).
  set (era := z' / 146097).
  set (doe := z' - era * 146097).
  set (yoe := (doe - doe / 1460 + doe / 36524 - doe / 146096) / 365).
  set (doy := doe - (365 * yoe + yoe / 4 - yoe / 100)).
  set (mp := (5 * doy + 2) / 153).
  assert (Hdoe : 0 <= doe < 146097).
  { subst doe era. Z.div_mod_to_equations. lia. }
  assert (Hyoe : 0 <= yoe < 400 /\ 0 <= doy < 366
                 /\ (doy = 365 -> (yoe + 1) mod 4 = 0
                     /\ ((yoe + 1) mod 100 <> 0 \/ yoe = 399))).
  { subst doy yoe. clearbody doe. clear -Hdoe.
    Z.div_mod_to_equations. lia. }
  destruct Hyoe as (Hy & Hd & Hleap).
  assert (Hmp : 0 <= mp < 12).
  { subst mp. clearbody doy. clear -Hd. Z.div_mod_to_equations. lia. }
  exists era, yoe, doy, mp,
         (if mp <? 10 then mp + 3 else mp - 9), (if mp <? 10 then 0 else 1).
  split; [subst doy doe; lia|].
  split; [exact Hy|]. split; [exact Hd|]. split; [exact Hleap|].
  split; [reflexivity|]. split; [exact Hmp|].
  clearbody mp doy yoe era.
  destruct (mp <? 10) eqn:Hlt.
  - apply Z.ltb_lt in Hlt.
    assert (Hm : (mp + 3 <=? 2) = false) by (apply Z.leb_gt; lia).
    rewrite Hm. split; [left; lia|]. split; [lia|].
    rewrite Z.add_0_r. reflexivity.
  - apply Z.ltb_ge in Hlt.
    assert (Hm : (mp - 9 <=? 2) = true) by (apply Z.leb_le; lia).
    rewrite Hm. split; [right; lia|]. split; [lia|]. reflexivity.
Qed.

Lemma isLeap_true (y : Z) :
  y mod 4 = 0 -> (y mod 100 <> 0 \/ y mod 400 = 0) -> isLeap y = true.
Proof.
  intros H4 H100. unfold isLeap. rewrite H4. cbn [Z.eqb andb].
  destruct H100 as [H|H].
  - apply Z.eqb_neq in H. rewrite H. reflexivity.
  - rewrite H. cbn. apply orb_true_r.
Qed.

(** Reduce the comparisons of two numerals. *)
Ltac numerals :=
  cbn [Z.leb Z.ltb Z.eqb Z.compare Pos.compare Pos.compare_cont Pos.eqb
       orb andb negb].

(** The date [civilFromDays] gives is a date of the calendar, and
    [daysFromCivil] leads back to the day. *)
Lemma civilFromDays_valid (z : Z) :
  validYMD (fst (fst (civilFromDays z))) (snd (fst (civilFromDays z)))
           (snd (civilFromDays z)) = true
  /\ daysFromCivil (fst (fst (civilFromDays z))) (snd (fst (civilFromDays z)))
                   (snd (civilFromDays z)) = z.
Proof.
  destruct (civilFromDays_parts z)
    as (era & yoe & doy & mp & m & c & Hz & Hy & Hd & Hleap & Hmp & Hmp12
        & Hm & Hmr & ->).
  cbn [fst snd].
  assert (Hcases : m = 1 \/ m = 2 \/ m = 3 \/ m = 4 \/ m = 5 \/ m = 6
                   \/ m = 7 \/ m = 8 \/ m = 9 \/ m = 10 \/ m = 11
                   \/ m = 12) by lia.
  assert (Hmp' : mp = (m + 9) mod 12).
  { clear -Hm Hmp12. destruct Hm as [(H1 & H2 & _)|(H1 & H2 & _)];
      Z.div_mod_to_equations; lia. }
  assert (Hfeb : m = 2 -> doy - (153 * mp + 2) / 5 + 1 = 29 ->
                 isLeap (yoe + era * 400 + c) = true).
  { intros H2 H29.
    assert (H11 : mp = 11) by (rewrite Hmp', H2; reflexivity).
    assert (Hc1 : c = 1) by (clear -Hm H11; lia).
    assert (H365 : doy = 365)
      by (clear -H29 H11 Hd; subst mp; Z.div_mod_to_equations; lia).
    destruct (Hleap H365) as [H4 H100].
    apply isLeap_true.
    - clear -H4 Hc1. Z.div_mod_to_equations. lia.
    - destruct H100 as [H100|H399].
      + left. clear -H100 Hc1. Z.div_mod_to_equations. lia.
      + right. clear -H399 Hc1. Z.div_mod_to_equations. lia. }
  split.
  - unfold validYMD, daysInMonth.
    rewrite !andb_true_iff, !Z.leb_le.
    split; [split; [split; [lia|lia]|]|].
    + clear -Hmp Hm Hd. destruct Hm as [(H1 & H2 & _)|(H1 & H2 & _)];
        Z.div_mod_to_equations; lia.
    + repeat (destruct Hcases as [Hc|Hcases]); try (rename Hcases into Hc);
        (assert (Hv : mp = (m + 9) mod 12) by exact Hmp';
         rewrite Hc in Hv; vm_compute in Hv);
        rewrite Hc in *; numerals;
        try (clear -Hv Hmp Hd; subst mp; Z.div_mod_to_equations; lia).
      destruct (isLeap (yoe + era * 400 + c)) eqn:Hl.
      * clear -Hv Hmp Hd. subst mp. Z.div_mod_to_equations. lia.
      * assert (Hne : doy - (153 * mp + 2) / 5 + 1 <> 29).
        { intros H29. discriminate (Hfeb eq_refl H29). }
        clear -Hv Hmp Hd Hne. subst mp. Z.div_mod_to_equations. lia.
  - unfold daysFromCivil. cbv zeta.
    assert (Hy' : (if m <=? 2 then yoe + era * 400 + c - 1
                   else yoe + era * 400 + c) = yoe + era * 400).
    { clear -Hm Hmp12. destruct (Z.leb_spec m 2); lia. }
    rewrite Hy'.
    assert (Hera : (yoe + era * 400) / 400 = era)
      by (clear -Hy; Z.div_mod_to_equations; lia).
    rewrite Hera.
    rewrite <- Hmp'.
    replace (yoe + era * 400 - era * 400) with yoe by lia.
    lia.
Qed.

(** The years of four digits. *)
Lemma civilFromDays_year (z : Z) :
  -719528 <= z < 2932897 -> 0 <= fst (fst (civilFromDays z)) <= 9999.
Proof.
  intros Hz.
  destruct (civilFromDays_parts z)
    as (era & yoe & doy & mp & m & c & Hsplit & Hy & Hd & _ & Hmp & Hmp12
        & Hm & _ & ->).
  cbn [fst].
  destruct Hm as [(H1 & _ & ->)|(H1 & _ & ->)];
    subst mp; Z.div_mod_to_equations; lia.
Qed.

(** ** Digits written and read back *)

Lemma digit_digitChar (d : Z) : digit (digitChar d) = Some (d mod 10).
Proof.
  unfold digit, digitChar.
  assert (Hr : 0 <= d mod 10 < 10) by (apply Z.mod_pos_bound; lia).
  rewrite N_ascii_embedding by lia.
  rewrite Z2N.id by lia.
  assert (H1 : (48 <=? 48 + d mod 10) = true) by (apply Z.leb_le; lia).
  assert (H2 : (48 + d mod 10 <=? 57) = true) by (apply Z.leb_le; lia).
  rewrite H1, H2. cbn [andb]. f_equal. lia.
Qed.

Lemma digitsFrom_2 (a b : Z) :
  digitsFrom 0 [digitChar a; digitChar b] = Some (a mod 10 * 10 + b mod 10).
Proof.
  cbn [digitsFrom]. rewrite !digit_digitChar. f_equal; lia.
Qed.

Lemma digitsFrom_3 (a b c : Z) :
  digitsFrom 0 [digitChar a; digitChar b; digitChar c]
  = Some ((a mod 10 * 10 + b mod 10) * 10 + c mod 10).
Proof.
  cbn [digitsFrom]. rewrite !digit_digitChar. f_equal; lia.
Qed.

Lemma digitsFrom_4 (a b c d : Z) :
  digitsFrom 0 [digitChar a; digitChar b; digitChar c; digitChar d]
  = Some (((a mod 10 * 10 + b mod 10) * 10 + c mod 10) * 10 + d mod 10).
Proof.
  cbn [digitsFrom]. rewrite !digit_digitChar. f_equal; lia.
Qed.

Lemma pad2_value (n : Z) :
  0 <= n < 100 -> (n / 10) mod 10 * 10 + n mod 10 = n.
Proof. intros H. Z.div_mod_to_equations. lia. Qed.

Lemma pad3_value (n : Z) :
  0 <= n < 1000 ->
  ((n / 100) mod 10 * 10 + (n mod 100 / 10) mod 10) * 10 + (n mod 100) mod 10
  = n.
Proof. intros H. Z.div_mod_to_equations. lia. Qed.

Lemma pad4_value (n : Z) :
  0 <= n < 10000 ->
  (((n / 1000) mod 10 * 10 + (n mod 1000 / 100) mod 10) * 10
   + (n mod 1000 mod 100 / 10) mod 10) * 10 + (n mod 1000 mod 100) mod 10
  = n.
Proof. intros H. Z.div_mod_to_equations. lia. Qed.

Lemma list_ascii_app (a b : string) :
  list_ascii_of_string (a ++ b)
  = (list_ascii_of_string a ++ list_ascii_of_string b)%list.
Proof.
  induction a as [|c a IH]; [reflexivity|].
  change (list_ascii_of_string (String c a ++ b))
    with (c :: list_ascii_of_string (a ++ b)).
  rewrite IH. reflexivity.
Qed.

Lemma pad2_chars (n : Z) :
  list_ascii_of_string (pad2 n) = [digitChar (n / 10); digitChar n].
Proof. reflexivity. Qed.

Lemma pad3_chars (n : Z) :
  list_ascii_of_string (pad3 n)
  = [digitChar (n / 100); digitChar (n mod 100 / 10); digitChar (n mod 100)].
Proof. reflexivity. Qed.

Lemma pad4_chars (n : Z) :
  list_ascii_of_string (pad4 n)
  = [digitChar (n / 1000); digitChar (n mod 1000 / 100);
     digitChar (n mod 1000 mod 100 / 10); digitChar (n mod 1000 mod 100)].
Proof. reflexivity. Qed.

(** ["YYYY-MM-DD"] read back. *)
Lemma parseYMD_chars (y m d : Z) :
  0 <= y < 10000 -> 0 <= m < 100 -> 0 <= d < 100 ->
  parseYMD [digitChar (y / 1000); digitChar (y mod 1000 / 100);
            digitChar (y mod 1000 mod 100 / 10);
            digitChar (y mod 1000 mod 100); "-"%char;
            digitChar (m / 10); digitChar m; "-"%char;
            digitChar (d / 10); digitChar d]
  = if validYMD y m d then Some (daysFromCivil y m d) else None.
Proof.
  intros Hy Hm Hd. unfold parseYMD.
  change (Ascii.eqb "-"%char "-"%char) with true. cbn [andb].
  rewrite digitsFrom_4, !digitsFrom_2.
  rewrite (pad4_value y Hy), (pad2_value m Hm), (pad2_value d Hd).
  reflexivity.
Qed.

(** ["HH:mm"] read back. *)
Lemma parseHM_chars (h n : Z) :
  0 <= h < 100 -> 0 <= n < 100 ->
  parseHM [digitChar (h / 10); digitChar h; ":"%char;
           digitChar (n / 10); digitChar n]
  = if (h <=? 23) && (n <=? 59)
    then Some (h * MS_PER_HOUR + n * MS_PER_MINUTE) else None.
Proof.
  intros Hh Hn. unfold parseHM.
  change (Ascii.eqb ":"%char ":"%char) with true. cbn iota.
  rewrite !digitsFrom_2.
  rewrite (pad2_value h Hh), (pad2_value n Hn).
  reflexivity.
Qed.

(** [":ss.sssZ"] read back. *)
Lemma parseSecMs_chars (sec f : Z) :
  0 <= sec < 100 -> 0 <= f < 1000 ->
  parseSecMs [":"%char; digitChar (sec / 10); digitChar sec; "."%char;
              digitChar (f / 100); digitChar (f mod 100 / 10);
              digitChar (f mod 100); "Z"%char]
  = if sec <=? 59 then Some (sec * 1000 + f) else None.
Proof.
  intros Hs Hf. unfold parseSecMs.
  change (Ascii.eqb ":"%char ":"%char) with true.
  change (Ascii.eqb "."%char "."%char) with true.
  change (Ascii.eqb "Z"%char "Z"%char) with true.
  cbn [andb]. cbn iota.
  rewrite digitsFrom_2, digitsFrom_3.
  rewrite (pad2_value sec Hs), (pad3_value f Hf).
  reflexivity.
Qed.

Lemma daysInMonth_le (y m : Z) : daysInMonth y m <= 31.
Proof.
  unfold daysInMonth.
  destruct (m =? 2); [destruct (isLeap y); lia|].
  destruct ((m =? 4) || (m =? 6) || (m =? 9) || (m =? 11)); lia.
Qed.

(** What [toISOString] writes, [new Date] reads back, in every zone. *)
Lemma parse_toISOString (tz t : Z) :
  Iso.isoRange t ->
  exists iso : string,
    toISOString (Some t) = Some iso /\ parse tz iso = Some t.
Proof.
  intros Ht. unfold Iso.isoRange in Ht. unfold toISOString.
  pose proof (civilFromDays_valid (dayOf 0 t)) as [Hvalid Hback].
  assert (Hday : -719528 <= dayOf 0 t < 2932897).
  { unfold dayOf, zoned, MS_PER_DAY, MS_PER_MINUTE.
    Z.div_mod_to_equations. lia. }
  pose proof (civilFromDays_year (dayOf 0 t) Hday) as Hyear.
  destruct (civilFromDays (dayOf 0 t)) as [[y m] dd].
  cbn [fst snd] in Hvalid, Hback, Hyear.
  eexists. split; [reflexivity|].
  assert (Hmd : 0 <= m < 100 /\ 0 <= dd < 100).
  { unfold validYMD in Hvalid.
    rewrite !andb_true_iff, !Z.leb_le in Hvalid.
    pose proof (daysInMonth_le y m). lia. }
  destruct Hmd as [Hm Hdd].
  set (ms := msOfDay 0 t).
  assert (Hms : 0 <= ms < 86400000).
  { subst ms. unfold msOfDay, zoned, MS_PER_DAY.
    apply Z.mod_pos_bound. lia. }
  assert (Hh : 0 <= ms / MS_PER_HOUR < 24).
  { unfold MS_PER_HOUR. Z.div_mod_to_equations. lia. }
  assert (Hmi : 0 <= (ms / MS_PER_MINUTE) mod 60 < 60)
    by (apply Z.mod_pos_bound; lia).
  assert (Hsec : 0 <= (ms / 1000) mod 60 < 60)
    by (apply Z.mod_pos_bound; lia).
  assert (Hf : 0 <= ms mod 1000 < 1000) by (apply Z.mod_pos_bound; lia).
  unfold parse.
  rewrite !list_ascii_app, pad4_chars, pad3_chars, !pad2_chars.
  cbn [list_ascii_of_string app firstn skipn].
  rewrite (parseYMD_chars y m dd) by lia.
  rewrite Hvalid, Hback.
  change (Ascii.eqb "T"%char "T"%char) with true. cbn iota.
  rewrite (parseHM_chars (ms / MS_PER_HOUR) ((ms / MS_PER_MINUTE) mod 60))
    by lia.
  assert (Hh23 : (ms / MS_PER_HOUR <=? 23) = true) by (apply Z.leb_le; lia).
  assert (Hm59 : ((ms / MS_PER_MINUTE) mod 60 <=? 59) = true)
    by (apply Z.leb_le; lia).
  rewrite Hh23, Hm59. cbn [andb].
  rewrite (parseSecMs_chars ((ms / 1000) mod 60) (ms mod 1000)) by lia.
  assert (Hs59 : ((ms / 1000) mod 60 <=? 59) = true) by (apply Z.leb_le; lia).
  rewrite Hs59. f_equal.
  subst ms. clear -Ht.
  unfold dayOf, msOfDay, zoned, MS_PER_DAY, MS_PER_HOUR, MS_PER_MINUTE.
  Z.div_mod_to_equations. lia.
Qed.

End CalendarFacts.

Module StoredDateFacts.
Import BookingManager.

(** A string that starts with the letter T is no date. *)
Lemma parse_T (tz : Z) (rest : string) :
  JsDate.parse tz (String "T"%char rest) = None.
Proof.
  unfold JsDate.parse.
  change (list_ascii_of_string (String "T"%char rest))
    with ("T"%char :: list_ascii_of_string rest).
  generalize (list_ascii_of_string rest). intros l.
  assert (H : JsDate.parseYMD (firstn 10 ("T"%char :: l)) = None).
  { cbn [firstn].
    destruct l as [|c1 [|c2 [|c3 [|c4 [|c5 [|c6 [|c7 [|c8 [|c9 l]]]]]]]]];
      cbn [firstn]; try reflexivity.
    unfold JsDate.parseYMD.
    destruct (Ascii.eqb c4 "-"%char && Ascii.eqb c7 "-"%char);
      reflexivity. }
  rewrite H. reflexivity.
Qed.

Section Zone.
Variable tz : Z.

Lemma sameMinute_refl (t : Z) : sameMinute tz (Some t) (Some t) = true.
Proof.
  unfold sameMinute.
  generalize JsDate.getDate, JsDate.getMonth, JsDate.getFullYear,
             JsDate.getHours, JsDate.getMinutes.
  intros g1 g2 g3 g4 g5. cbn [option_map JsDate.numEq].
  rewrite !Z.eqb_refl. reflexivity.
Qed.

(** The stored date read back is the instant it was made from. *)
Lemma storedDate_parse (date time iso : string) :
  Iso.storedDate tz date time = Some iso ->
  (exists t, JsDate.parse tz (date ++ "T" ++ time) = Some t /\ Iso.isoRange t) ->
  JsDate.parse tz iso = JsDate.parse tz (date ++ "T" ++ time).
Proof.
  unfold Iso.storedDate. intros Hiso (t & Ht & Hrange).
  rewrite Ht in Hiso |- *.
  destruct (CalendarFacts.parse_toISOString tz t Hrange) as (iso' & H1 & H2).
  rewrite H1 in Hiso. injection Hiso as <-. exact H2.
Qed.

Lemma stored_slot_taken (date time : string)
      (apt : Appointment.t) (appointments : list Appointment.t) :
  (exists t, JsDate.parse tz (date ++ "T" ++ time) = Some t /\ Iso.isoRange t) ->
  Iso.storedDate tz date time = Some (Appointment.date apt) ->
  Appointment.status apt <> cancelled ->
  Appointment.barberId apt <> "" ->
  In apt appointments ->
  isSlotAvailable tz time date (Appointment.barberId apt) appointments = false.
Proof.
  intros Hvalid Hstored Hstatus Hbarber Hin.
  pose proof (storedDate_parse date time _ Hstored Hvalid) as Hparse.
  destruct Hvalid as (t & Ht & _).
  assert (Hdate : date <> "").
  { intros ->. change ("" ++ "T" ++ time) with (String "T"%char time) in Ht.
    rewrite parse_T in Ht. discriminate. }
  apply String.eqb_neq in Hdate. apply String.eqb_neq in Hbarber.
  unfold isSlotAvailable. rewrite Hdate, Hbarber. cbn [orb].
  apply negb_false_iff. apply existsb_exists. exists apt.
  split; [exact Hin|].
  rewrite BookingFacts.occupies_bookedOn. apply andb_true_iff. split.
  - unfold bookedOn. rewrite String.eqb_refl, Hparse, Ht. cbn [andb].
    apply sameMinute_refl.
  - unfold notCancelled. destruct (Appointment.status apt);
      try reflexivity. contradiction Hstatus. reflexivity.
Qed.

End Zone.
End StoredDateFacts.
Module BookingOutcomeFacts.
Import VoiceAgent.

(** Read the fields of a world through the updates made to it. *)
Ltac fields :=
  cbn [collection booked lastBookingRef clock net logRequests
       appointmentsCache appointmentsRangeCache conversationLogId
       bookingCreated conn
       set_clock set_net set_collection set_booked set_lastBookingRef
       set_appointmentsCache set_appointmentsRangeCache set_logRequests
       set_conversationLogId set_bookingCreated set_conn
       fst snd tl AppointmentService.docs AppointmentService.nextDoc
       Appointment.id NewAppointment.customerName
       NewAppointment.customerEmail NewAppointment.serviceId
       NewAppointment.barberId NewAppointment.date NewAppointment.status].

Section Component.
Variables tz sofia : Z.
Variable barbers : list Barber.t.
Variable services : list Service.t.

(** What [book_appointment] does: nothing to the collection, or one
    appointment asked of the backend. *)
Lemma book_appointment_cases (a : Args) (w : World) :
  (collection (snd (book_appointment tz barbers services a w)) = collection w
   /\ booked (snd (book_appointment tz barbers services a w)) = booked w
   /\ lastBookingRef (snd (book_appointment tz barbers services a w))
      = lastBookingRef w
   /\ (forall id msg,
          fst (book_appointment tz barbers services a w)
          = Ok (Success (Some id) msg) -> id = "duplicate"))
  \/ (exists (n raw iso : string) (checkAppts : list Appointment.t)
             (w1 : World) (latency : Z),
         validRefs barbers services a
         /\ recheckRead tz a w = (Ok checkAppts, w1)
         /\ slotFree tz a checkAppts = true
         /\ customerName a = Some n /\ customerPhone a = Some raw
         /\ remembered w1 (bookingKeyOf a (normalizePhone raw)) (clock w1)
            = false
         /\ Iso.storedDate tz (tpl (date a)) (tpl (time a)) = Some iso
         /\ match net w1 with
            | [] => latency = 0
            | Reply l :: _ => latency = Z.max 0 l
            | Lost _ :: _ => False
            end
         /\ AppointmentService.docs
              (collection (snd (book_appointment tz barbers services a w)))
            = (AppointmentService.docs (collection w)
               ++ [Booked.appointment a n raw iso (collection w)])%list
         /\ ((latency < TOOL_TIMEOUT_MS
              /\ fst (book_appointment tz barbers services a w)
                 = Ok (Success
                         (Some (Appointment.id
                                  (Booked.appointment a n raw iso
                                                      (collection w))))
                         (booked_message (tpl (date a)) (tpl (time a))
                                         (normalizePhone raw)))
              /\ booked (snd (book_appointment tz barbers services a w))
                 = (booked w
                    ++ [Booked.appointment a n raw iso (collection w)])%list
              /\ lastBookingRef
                   (snd (book_appointment tz barbers services a w))
                 = Some (bookingKeyOf a (normalizePhone raw),
                         clock w1 + latency)
              /\ appointmentsCache
                   (snd (book_appointment tz barbers services a w))
                 = appointmentsCache w1
              /\ clock (snd (book_appointment tz barbers services a w))
                 = clock w1 + latency)
             \/ (TOOL_TIMEOUT_MS <= latency
                 /\ fst (book_appointment tz barbers services a w)
                    = Throw TIMEOUT
                 /\ booked (snd (book_appointment tz barbers services a w))
                    = booked w
                 /\ lastBookingRef
                      (snd (book_appointment tz barbers services a w))
                    = lastBookingRef w))).
Proof.
  pose proof (BookingToolFacts.read_frame tz (default "" (barberId a))
                (date a) w) as Hframe.
  fold (recheckRead tz a) in Hframe.
  remember (book_appointment tz barbers services a w) as out eqn:Hout.
  assert (Hsame : forall (r : Res ToolResult) (w' : World),
             out = (r, w') ->
             collection w' = collection w -> booked w' = booked w ->
             lastBookingRef w' = lastBookingRef w ->
             (forall id msg, r = Ok (Success (Some id) msg) -> id = "duplicate") ->
             collection (snd out) = collection w
             /\ booked (snd out) = booked w
             /\ lastBookingRef (snd out) = lastBookingRef w
             /\ (forall id msg,
                    fst out = Ok (Success (Some id) msg) -> id = "duplicate")).
  { intros r w' -> H1 H2 H3 H4. cbn [fst snd]. auto. }
  unfold book_appointment in Hout.
  destruct (negb (hasBarbers barbers) || negb (hasServices services)) eqn:Hcat.
  { left. apply (Hsame _ _ Hout); try reflexivity. intros ? ? [=]. }
  destruct (truthy (barberId a)) eqn:Htruthy; cbn [negb orb] in Hout;
    [|left; apply (Hsame _ _ Hout); try reflexivity; intros ? ? [=]].
  destruct (findBarber barbers (barberId a)) as [b|] eqn:Hb;
    [|left; apply (Hsame _ _ Hout); try reflexivity; intros ? ? [=]].
  destruct (findService services (serviceId a)) as [s|] eqn:Hs;
    [|left; apply (Hsame _ _ Hout); try reflexivity; intros ? ? [=]].
  assert (Hvalid : validRefs barbers services a).
  { split; [exact Htruthy|]. split; congruence. }
  unfold bind at 1 in Hout. fold (recheckRead tz a) in Hout.
  destruct (recheckRead tz a w) as [[checkAppts|m] w1] eqn:Hread;
    cbn [fst snd] in Hframe; destruct Hframe as (Hc1 & Hb1 & Hl1).
  2:{ left. apply (Hsame _ _ Hout); try assumption. intros ? ? [=]. }
  fold (slotFree tz a checkAppts) in Hout.
  destruct (slotFree tz a checkAppts) eqn:Hfree; cbn [negb] in Hout.
  2:{ left. apply (Hsame _ _ Hout); try assumption. intros ? ? [=]. }
  destruct (customerPhone a) as [raw|] eqn:Hphone.
  2:{ left. apply (Hsame _ _ Hout); try assumption. intros ? ? [=]. }
  unfold bind at 1 in Hout. unfold get at 1 in Hout. cbv beta iota in Hout.
  fold (remembered w1 (bookingKeyOf a (normalizePhone raw)) (clock w1))
    in Hout.
  destruct (remembered w1 (bookingKeyOf a (normalizePhone raw)) (clock w1))
    eqn:Hrem.
  { left. apply (Hsame _ _ Hout); try assumption.
    intros ? ? [= <- _]. reflexivity. }
  fold (Iso.storedDate tz (tpl (date a)) (tpl (time a))) in Hout.
  destruct (Iso.storedDate tz (tpl (date a)) (tpl (time a))) as [iso|]
    eqn:Hiso.
  2:{ left. apply (Hsame _ _ Hout); try assumption. intros ? ? [=]. }
  unfold bind, withTimeout, request, modify, ret in Hout.
  destruct (customerName a) as [n|] eqn:Hname.
  - destruct (net w1) as [|[l|l] rest] eqn:Hnet.
    + (* no answer scripted: the backend answers at once *)
      unfold AppointmentService.createAppointment in Hout.
      cbn [set_net set_collection collection net tl fst snd] in Hout.
      change (Z.max 0 0 <? TOOL_TIMEOUT_MS) with true in Hout.
      cbv beta iota in Hout.
      right. exists n, raw, iso, checkAppts, w1, 0. subst out.
      rewrite Hnet. fields. rewrite ?Hc1, ?Hb1, ?Hl1.
      unfold Booked.appointment.
      split; [exact Hvalid|]. split; [reflexivity|]. split; [exact Hfree|].
      split; [reflexivity|]. split; [reflexivity|]. split; [exact Hrem|].
      split; [reflexivity|]. split; [reflexivity|].
      split; [reflexivity|]. left.
      split; [unfold TOOL_TIMEOUT_MS; lia|].
      split; [reflexivity|]. split; [reflexivity|].
      change (Z.max 0 0) with 0.
      split; [reflexivity|]. split; reflexivity.
    + unfold AppointmentService.createAppointment in Hout.
      cbn [set_net set_collection collection net tl fst snd] in Hout.
      right. exists n, raw, iso, checkAppts, w1, (Z.max 0 l).
      rewrite Hnet.
      split; [exact Hvalid|]. split; [reflexivity|]. split; [exact Hfree|].
      split; [reflexivity|]. split; [reflexivity|]. split; [exact Hrem|].
      split; [reflexivity|]. split; [reflexivity|].
      unfold Booked.appointment.
      destruct (Z.max 0 l <? TOOL_TIMEOUT_MS) eqn:Hlat; subst out;
        fields; rewrite ?Hc1, ?Hb1, ?Hl1.
      * split; [reflexivity|]. left.
        split; [apply Z.ltb_lt, Hlat|].
        split; [reflexivity|]. split; [reflexivity|].
        split; [reflexivity|]. split; reflexivity.
      * split; [reflexivity|]. right.
        split; [apply Z.ltb_ge, Hlat|].
        split; [reflexivity|]. split; reflexivity.
    + left. cbn [set_net collection net tl fst snd] in Hout.
      destruct (Z.max 0 l <? TOOL_TIMEOUT_MS);
        apply (Hsame _ _ Hout); try assumption; intros ? ? [=].
  - left.
    destruct (net w1) as [|[l|l] rest];
      cbn [set_net set_collection collection net tl fst snd] in Hout;
      try change (Z.max 0 0 <? TOOL_TIMEOUT_MS) with true in Hout;
      try destruct (Z.max 0 l <? TOOL_TIMEOUT_MS);
      apply (Hsame _ _ Hout); try assumption; intros ? ? [=].
Qed.

Lemma slotFree_on_grid (a : Args) (checkAppts : list Appointment.t) :
  slotFree tz a checkAppts = true ->
  exists t, time a = Some t /\ In t TIME_SLOTS
            /\ BookingManager.isSlotAvailable
                 tz t (default "" (date a)) (default "" (barberId a))
                 checkAppts = true.
Proof.
  unfold slotFree. destruct (time a) as [t|]; [|discriminate].
  intros H. exists t. split; [reflexivity|].
  unfold includes in H. apply existsb_exists in H.
  destruct H as (x & Hin & Heq). apply String.eqb_eq in Heq. subst x.
  unfold BookingManager.getFreeSlots in Hin. apply filter_In in Hin.
  exact Hin.
Qed.

Lemma prefix_app (s x : string) : String.prefix s (s ++ x) = true.
Proof.
  induction s as [|c s IH]; [destruct x; reflexivity|].
  simpl.
  destruct (ascii_dec c c) as [_|Hne]; [exact IH|contradiction Hne; reflexivity].
Qed.



(** X7. When [book_appointment] answers with the id of a new appointment,
    the slot it was asked for is taken in the collection from then on:
    [isSlotAvailable] on the stored appointments answers false. *)
Theorem fresh_booking_takes_its_slot (a : Args) (w : World)
        (id message : string) :
  fst (book_appointment tz barbers services a w)
  = Ok (Success (Some id) message) ->
  id <> "duplicate" ->
  (exists t,
      JsDate.parse tz (tpl (date a) ++ "T" ++ tpl (time a)) = Some t
      /\ Iso.isoRange t) ->
  BookingManager.isSlotAvailable
    tz (tpl (time a)) (tpl (date a)) (tpl (barberId a))
    (AppointmentService.docs
       (collection (snd (book_appointment tz barbers services a w))))
  = false.
Proof.
  intros Hok Hfresh Hvalid.
  destruct (book_appointment_cases a w)
    as [(_ & _ & _ & Hdup)|(n & raw & iso & checkAppts & w1 & latency & Hrefs
                            & Hread & Hfree & Hname & Hphone & Hrem & Hiso
                            & Hnet & Hdocs & _)].
  - contradiction Hfresh. exact (Hdup id message Hok).
  - rewrite Hdocs. destruct Hrefs as (Htruthy & _ & _).
    destruct (barberId a) as [b|] eqn:Hbid; [|discriminate Htruthy].
    cbn [tpl]. cbn [truthy] in Htruthy.
    assert (Hb : b <> "").
    { intros ->. discriminate Htruthy. }
    remember (Booked.appointment a n raw iso (collection w)) as apt eqn:Hapt.
    assert (Hbarber : Appointment.barberId apt = b)
      by (subst apt; unfold Booked.appointment; cbn [Appointment.barberId];
          rewrite Hbid; reflexivity).
    assert (Hdate : Appointment.date apt = iso)
      by (subst apt; reflexivity).
    assert (Hstatus : Appointment.status apt = pending)
      by (subst apt; reflexivity).
    rewrite <- Hbarber.
    apply (StoredDateFacts.stored_slot_taken tz (tpl (date a)) (tpl (time a))).
    + exact Hvalid.
    + rewrite Hdate. exact Hiso.
    + rewrite Hstatus. discriminate.
    + rewrite Hbarber. exact Hb.
    + apply in_or_app. right. left. reflexivity.
Qed.

(** X8. The answer of the backend to the write comes after the tool timeout:
    the call ends on the timeout error, which the orchestrator reports as
    a slow connection, while the appointment is stored; the page is not
    told of it and the booking is not remembered as made. *)
Theorem slow_write_is_stored (a : Args) (w w1 : World)
        (checkAppts : list Appointment.t) (n raw iso : string)
        (latency : Z) (rest : list Net) :
  validRefs barbers services a ->
  recheckRead tz a w = (Ok checkAppts, w1) ->
  slotFree tz a checkAppts = true ->
  customerName a = Some n -> customerPhone a = Some raw ->
  remembered w1 (bookingKeyOf a (normalizePhone raw)) (clock w1) = false ->
  Iso.storedDate tz (tpl (date a)) (tpl (time a)) = Some iso ->
  net w1 = Reply latency :: rest -> TOOL_TIMEOUT_MS <= latency ->
  fst (book_appointment tz barbers services a w) = Throw TIMEOUT
  /\ Response.result
       (fst (answer tz sofia barbers services
                    (Call.mk "c" "book_appointment" a) w))
     = ErrorResult SLOW_CONNECTION
  /\ AppointmentService.docs
       (collection (snd (book_appointment tz barbers services a w)))
     = (AppointmentService.docs (collection w)
        ++ [Booked.appointment a n raw iso (collection w)])%list
  /\ booked (snd (book_appointment tz barbers services a w)) = booked w
  /\ lastBookingRef (snd (book_appointment tz barbers services a w))
     = lastBookingRef w.
Proof.
  intros Hvalid Hread Hfree Hname Hphone Hrem Hiso Hnet Hlate.
  pose proof (BookingToolFacts.read_frame tz (default "" (barberId a))
                (date a) w) as Hframe.
  fold (recheckRead tz a) in Hframe. rewrite Hread in Hframe.
  cbn [snd] in Hframe. destruct Hframe as (Hc1 & Hb1 & Hl1).
  assert (Hout : book_appointment tz barbers services a w
                 = (Throw TIMEOUT,
                    set_clock (clock w1 + TOOL_TIMEOUT_MS)
                      (set_collection
                         (AppointmentService.mkCollection
                            (AppointmentService.docs (collection w1)
                             ++ [Booked.appointment a n raw iso
                                                    (collection w1)])
                            (S (AppointmentService.nextDoc (collection w1))))
                         (set_net rest w1)))).
  { destruct (BookingToolFacts.validRefs_guards barbers services a Hvalid)
      as (Hb & Hs & Ht & [b Hfb] & [s Hfs]).
    unfold book_appointment. rewrite Hb, Hs, Ht, Hfb, Hfs. cbn [negb orb].
    unfold bind at 1. fold (recheckRead tz a). rewrite Hread.
    fold (slotFree tz a checkAppts). rewrite Hfree, Hphone. cbn [negb].
    unfold bind at 1. unfold get at 1. cbv beta iota.
    fold (remembered w1 (bookingKeyOf a (normalizePhone raw)) (clock w1)).
    rewrite Hrem.
    fold (Iso.storedDate tz (tpl (date a)) (tpl (time a))). rewrite Hiso.
    unfold bind, withTimeout, request. rewrite Hnet, Hname.
    unfold AppointmentService.createAppointment. fields.
    assert (Hnot : (Z.max 0 latency <? TOOL_TIMEOUT_MS) = false)
      by (apply Z.ltb_ge; unfold TOOL_TIMEOUT_MS in *; lia).
    rewrite Hnot. reflexivity. }
  split; [rewrite Hout; reflexivity|]. split.
  - unfold answer, dispatch. cbn [Call.name Call.args Call.id].
    change (String.eqb "book_appointment" "get_barbers") with false.
    change (String.eqb "book_appointment" "get_services") with false.
    change (String.eqb "book_appointment" "get_available_slots") with false.
    change (String.eqb "book_appointment" "find_earliest_slot") with false.
    change (String.eqb "book_appointment" "book_appointment") with true.
    cbv iota. rewrite Hout. reflexivity.
  - rewrite Hout. fields. rewrite Hc1, Hb1, Hl1. auto.
Qed.

End Component.
End BookingOutcomeFacts.
Module AppointmentServiceFacts.
Import AppointmentService.

(** [updateAppointment] as a whole: it fails, and changes nothing, exactly
    when the id is missing or names no document. *)
Lemma updateAppointment_cases (appointmentId : option string)
      (updates : Appointment.t -> Appointment.t) (c : Collection) :
  (truthy appointmentId = true
   /\ (exists apt, In apt (docs c)
                   /\ Appointment.id apt = default "" appointmentId)
   /\ updateAppointment appointmentId updates c
      = (Some tt,
         mkCollection
           (map (fun a =>
                   if String.eqb (Appointment.id a) (default "" appointmentId)
                   then updates a else a) (docs c))
           (nextDoc c)))
  \/ ((truthy appointmentId = false
       \/ forall apt, In apt (docs c) ->
                      Appointment.id apt <> default "" appointmentId)
      /\ updateAppointment appointmentId updates c = (None, c)).
Proof.
  unfold updateAppointment.
  destruct (truthy appointmentId) eqn:Ht; cbn [andb].
  - destruct (existsb _ (docs c)) eqn:Hex.
    + left. split; [reflexivity|]. split; [|reflexivity].
      apply existsb_exists in Hex. destruct Hex as (apt & Hin & Heq).
      exists apt. split; [exact Hin|]. apply String.eqb_eq, Heq.
    + right. split; [|reflexivity]. right. intros apt Hin Heq.
      assert (Hex' : existsb
                       (fun a => String.eqb (Appointment.id a)
                                            (default "" appointmentId))
                       (docs c) = true).
      { apply existsb_exists. exists apt. split; [exact Hin|].
        apply String.eqb_eq, Heq. }
      rewrite Hex' in Hex. discriminate.
  - right. split; [left; reflexivity|reflexivity].
Qed.

Section Zone.
Variable tz : Z.

Lemma occupies_withStatus_cancelled (barberId : string) (target : option Z)
      (a : Appointment.t) :
  BookingManager.occupies tz barberId target (withStatus cancelled a) = false.
Proof.
  unfold BookingManager.occupies, withStatus.
  cbn [Appointment.status Appointment.barberId Status_eqb].
  rewrite orb_true_r. reflexivity.
Qed.

Lemma existsb_without_cancelled (id barberId : string) (target : option Z)
      (l : list Appointment.t) :
  existsb (BookingManager.occupies tz barberId target)
          (map (fun a => if String.eqb (Appointment.id a) id
                         then withStatus cancelled a else a) l)
  = existsb (BookingManager.occupies tz barberId target)
            (List.filter
               (fun a => negb (String.eqb (Appointment.id a) id)) l).
Proof.
  induction l as [|a l IH]; [reflexivity|].
  cbn [map existsb List.filter].
  destruct (String.eqb (Appointment.id a) id); cbn [negb].
  - rewrite occupies_withStatus_cancelled. exact IH.
  - cbn [existsb]. rewrite IH. reflexivity.
Qed.

(** X9. Cancelling fails, and changes nothing, when the id is missing or
    names no stored appointment; otherwise it sets the status of that
    appointment and nothing else, and from then on every slot is as
    available as if the appointment were not in the collection. *)
Theorem cancel_frees_the_slot (appointmentId : option string)
        (c : Collection) :
  ((truthy appointmentId = false
    \/ forall apt, In apt (docs c) ->
                   Appointment.id apt <> default "" appointmentId) ->
   cancelAppointment appointmentId c = (None, c))
  /\ (truthy appointmentId = true ->
      (exists apt, In apt (docs c)
                   /\ Appointment.id apt = default "" appointmentId) ->
      exists c' : Collection,
        cancelAppointment appointmentId c = (Some tt, c')
        /\ docs c'
           = map (fun a =>
                    if String.eqb (Appointment.id a)
                                  (default "" appointmentId)
                    then withStatus cancelled a else a) (docs c)
        /\ forall time date barberId : string,
             BookingManager.isSlotAvailable tz time date barberId (docs c')
             = BookingManager.isSlotAvailable
                 tz time date barberId
                 (List.filter
                    (fun a => negb (String.eqb (Appointment.id a)
                                               (default "" appointmentId)))
                    (docs c))).
Proof.
  unfold cancelAppointment.
  destruct (updateAppointment_cases appointmentId (withStatus cancelled) c)
    as [(Ht & Hex & Hrun)|(Hwhy & Hrun)].
  - split.
    + intros [Hf|Hnone]; [congruence|].
      destruct Hex as (apt & Hin & Heq). contradiction (Hnone apt Hin Heq).
    + intros _ _. eexists. split; [exact Hrun|].
      cbn [docs]. split; [reflexivity|].
      intros time date barberId. unfold BookingManager.isSlotAvailable.
      destruct (String.eqb date "" || String.eqb barberId "");
        [reflexivity|].
      f_equal.
      apply existsb_without_cancelled.
  - split.
    + intros _. exact Hrun.
    + intros Ht (apt & Hin & Heq).
      destruct Hwhy as [Hf|Hnone]; [congruence|].
      contradiction (Hnone apt Hin Heq).
Qed.

(** X10. Rescheduling looks at no slot: for a stored id and a date and
    time that make a date it succeeds and rewrites the date of that
    appointment, whatever else the collection holds -- an appointment of
    the same barber on the new slot, the status of the one moved -- and
    with an id that is missing or unknown it fails and changes nothing,
    whatever the date and the time. *)
Theorem reschedule_checks_no_slot (appointmentId : option string)
        (newDate newTime : string) (c : Collection) :
  (forall iso : string,
      Iso.storedDate tz newDate newTime = Some iso ->
      truthy appointmentId = true ->
      (exists apt, In apt (docs c)
                   /\ Appointment.id apt = default "" appointmentId) ->
      rescheduleAppointment tz appointmentId newDate newTime c
      = (Some tt,
         mkCollection
           (map (fun a =>
                   if String.eqb (Appointment.id a) (default "" appointmentId)
                   then withDate iso a else a) (docs c))
           (nextDoc c)))
  /\ (truthy appointmentId = false
      \/ (forall apt, In apt (docs c) ->
                      Appointment.id apt <> default "" appointmentId) ->
      rescheduleAppointment tz appointmentId newDate newTime c = (None, c)).
Proof.
  unfold rescheduleAppointment.
  fold (Iso.storedDate tz newDate newTime).
  split.
  - intros iso Hiso Ht Hex. rewrite Hiso.
    destruct (updateAppointment_cases appointmentId (withDate iso) c)
      as [(_ & _ & Hrun)|(Hwhy & _)]; [exact Hrun|].
    destruct Hex as (apt & Hin & Heq).
    destruct Hwhy as [Hf|Hnone]; [congruence|].
    contradiction (Hnone apt Hin Heq).
  - intros Hwhy.
    destruct (Iso.storedDate tz newDate newTime) as [iso|]; [|reflexivity].
    destruct (updateAppointment_cases appointmentId (withDate iso) c)
      as [(Ht & Hex & _)|(_ & Hrun)]; [|exact Hrun].
    destruct Hex as (apt & Hin & Heq).
    destruct Hwhy as [Hf|Hnone];
      [congruence|contradiction (Hnone apt Hin Heq)].
Qed.

(** X11. After a reschedule that succeeded, the appointment, when it is not
    cancelled, takes the slot of the new date and time of its barber. *)
Theorem rescheduled_takes_new_slot (id newDate newTime : string)
        (c c' : Collection) (apt : Appointment.t) :
  rescheduleAppointment tz (Some id) newDate newTime c = (Some tt, c') ->
  (exists t, JsDate.parse tz (newDate ++ "T" ++ newTime) = Some t
             /\ Iso.isoRange t) ->
  In apt (docs c) -> Appointment.id apt = id ->
  Appointment.status apt <> cancelled -> Appointment.barberId apt <> "" ->
  BookingManager.isSlotAvailable tz newTime newDate (Appointment.barberId apt)
                                 (docs c') = false.
Proof.
  intros Hrun Hvalid Hin Hid Hstatus Hbarber.
  unfold rescheduleAppointment in Hrun.
  fold (Iso.storedDate tz newDate newTime) in Hrun.
  destruct (Iso.storedDate tz newDate newTime) as [iso|] eqn:Hiso;
    [|discriminate].
  destruct (updateAppointment_cases (Some id) (withDate iso) c)
    as [(_ & _ & Hrun')|(_ & Hrun')]; rewrite Hrun' in Hrun;
    [|discriminate].
  injection Hrun as <-. cbn [docs default].
  change (Appointment.barberId apt)
    with (Appointment.barberId (withDate iso apt)).
  apply (StoredDateFacts.stored_slot_taken tz newDate newTime).
  - exact Hvalid.
  - rewrite Hiso. reflexivity.
  - exact Hstatus.
  - exact Hbarber.
  - apply in_map_iff. exists apt. split; [|exact Hin].
    rewrite Hid, String.eqb_refl. reflexivity.
Qed.

End Zone.
End AppointmentServiceFacts.
Module BookingExamples.
Import VoiceAgent Salon SalonCases.

Lemma fresh_booking_takes_its_slot_witness :
  BookingManager.isSlotAvailable
    EET "10:00" "2026-01-21" "b1"
    (AppointmentService.docs (collection (snd (book opened))))
  = false.
Proof.
  apply (BookingOutcomeFacts.fresh_booking_takes_its_slot
           EET [nalby] [haircut] bookArgs opened "doc0"
           (fst (match fst (book opened) with
                 | Ok (Success _ m) => (m, tt)
                 | _ => ("", tt)
                 end))).
  - vm_compute. reflexivity.
  - discriminate.
  - exists 1768982400000. split.
    + vm_compute. reflexivity.
    + unfold Iso.isoRange. lia.
Defined.

Lemma slow_write_is_stored_witness :
  fst (book slowWrite) = Throw TIMEOUT
  /\ Response.result
       (fst (answer EET EET [nalby] [haircut]
                    (Call.mk "c" "book_appointment" bookArgs) slowWrite))
     = ErrorResult SLOW_CONNECTION
  /\ AppointmentService.docs (collection (snd (book slowWrite)))
     = [Appointment.mk "doc0" "Ivan" "+359887112233" "s1" "b1"
                       "2026-01-21T08:00:00.000Z" pending]
  /\ booked (snd (book slowWrite)) = []
  /\ lastBookingRef (snd (book slowWrite)) = None.
Proof.
  apply (BookingOutcomeFacts.slow_write_is_stored
           EET EET [nalby] [haircut] bookArgs slowWrite
           (snd (recheckRead EET bookArgs slowWrite)) []
           "Ivan" "0887 11 22 33" "2026-01-21T08:00:00.000Z" 7000 []).
  - vm_compute. repeat split; discriminate.
  - vm_compute. reflexivity.
  - vm_compute. reflexivity.
  - reflexivity.
  - reflexivity.
  - vm_compute. reflexivity.
  - vm_compute. reflexivity.
  - vm_compute. reflexivity.
  - unfold TOOL_TIMEOUT_MS. lia.
Defined.

Lemma rescheduled_takes_new_slot_witness :
  BookingManager.isSlotAvailable
    EET "15:00" "2026-01-22" "b1"
    (AppointmentService.docs
       (snd (AppointmentService.rescheduleAppointment
               EET (Some "a1") "2026-01-22" "15:00" twoAppointments)))
  = false.
Proof.
  apply (AppointmentServiceFacts.rescheduled_takes_new_slot
           EET "a1" "2026-01-22" "15:00" twoAppointments
           (snd (AppointmentService.rescheduleAppointment
                   EET (Some "a1") "2026-01-22" "15:00" twoAppointments))
           tomorrowAtTen).
  - vm_compute. reflexivity.
  - exists 1769086800000. split.
    + vm_compute. reflexivity.
    + unfold Iso.isoRange. lia.
  - left. reflexivity.
  - reflexivity.
  - discriminate.
  - discriminate.
Defined.

Lemma cancel_frees_the_slot_witness :
  exists c' : AppointmentService.Collection,
    AppointmentService.cancelAppointment (Some "a1") twoAppointments
    = (Some tt, c')
    /\ AppointmentService.docs c'
       = [AppointmentService.withStatus cancelled tomorrowAtTen;
          Salon2.todayAtEleven]
    /\ forall time date barberId : string,
         BookingManager.isSlotAvailable
           EET time date barberId (AppointmentService.docs c')
         = BookingManager.isSlotAvailable
             EET time date barberId [Salon2.todayAtEleven].
Proof.
  apply (proj2 (AppointmentServiceFacts.cancel_frees_the_slot
                  EET (Some "a1") twoAppointments)).
  - reflexivity.
  - exists tomorrowAtTen. split; [left; reflexivity|reflexivity].
Defined.

Lemma reschedule_checks_no_slot_witness :
  AppointmentService.rescheduleAppointment
    EET (Some "a2") "2026-01-21" "10:00" twoAppointments
  = (Some tt,
     AppointmentService.mkCollection
       [tomorrowAtTen;
        AppointmentService.withDate "2026-01-21T08:00:00.000Z"
                                    Salon2.todayAtEleven] 2).
Proof.
  apply (proj1 (AppointmentServiceFacts.reschedule_checks_no_slot
                  EET (Some "a2") "2026-01-21" "10:00" twoAppointments)
               "2026-01-21T08:00:00.000Z").
  - vm_compute. reflexivity.
  - reflexivity.
  - exists Salon2.todayAtEleven. split; [right; left; reflexivity|reflexivity].
Defined.

End BookingExamples.

Module FrameFacts.
Import VoiceAgent Frames.

Section Projection.
Context {X : Type}.
Variable proj : World -> X.

Lemma preserves_ret {A : Type} (a : A) : preserves proj (ret a).
Proof. intros w. reflexivity. Qed.

Lemma preserves_throw {A : Type} (message : string) :
  preserves proj (@throw A message).
Proof. intros w. reflexivity. Qed.

Lemma preserves_get : preserves proj get.
Proof. intros w. reflexivity. Qed.

Lemma preserves_modify (f : World -> World) :
  (forall w, proj (f w) = proj w) -> preserves proj (modify f).
Proof. intros Hf w. apply Hf. Qed.

Lemma preserves_bind {A B : Type} (c : M A) (k : A -> M B) :
  preserves proj c -> (forall a, preserves proj (k a)) ->
  preserves proj (bind c k).
Proof.
  intros Hc Hk w. unfold bind. specialize (Hc w).
  destruct (c w) as [[a|message] w1]; cbn [snd] in *.
  - rewrite Hk. exact Hc.
  - exact Hc.
Qed.

(** After the first computation, the rest leaves [proj] alone. *)
Lemma preserves_after {A B : Type} (c : M A) (k : A -> M B) (w : World) :
  (forall a, preserves proj (k a)) ->
  proj (snd (bind c k w)) = proj (snd (c w)).
Proof.
  intros Hk. unfold bind.
  destruct (c w) as [[a|message] w1]; cbn [snd].
  - apply Hk.
  - reflexivity.
Qed.

Hypothesis proj_clock : forall x w, proj (set_clock x w) = proj w.
Hypothesis proj_net : forall x w, proj (set_net x w) = proj w.

(** A request that only reads the collection. *)
Lemma preserves_read {A : Type} (failure : string)
      (op : AppointmentService.Collection
            -> option A * AppointmentService.Collection) (ms : Z) :
  (forall c, snd (op c) = c) ->
  (forall w, proj (set_collection (collection w) w) = proj w) ->
  preserves proj (withTimeout (request failure op) ms).
Proof.
  intros Hpure Hsame w. unfold withTimeout, request.
  destruct (match net w with [] => Reply 0 | o :: _ => o end) as [l|l].
  - pose proof (Hpure (collection (set_net (tl (net w)) w))) as Hp.
    destruct (op (collection (set_net (tl (net w)) w))) as [r c'].
    cbn [snd] in Hp. subst c'.
    destruct (_ <? _); cbn [snd]; rewrite proj_clock, Hsame, proj_net;
      reflexivity.
  - destruct (_ <? _); cbn [snd]; rewrite proj_clock, proj_net; reflexivity.
Qed.

(** A request, when [proj] does not look at the collection. *)
Lemma preserves_call {A : Type} (failure : string)
      (op : AppointmentService.Collection
            -> option A * AppointmentService.Collection) (ms : Z) :
  (forall x w, proj (set_collection x w) = proj w) ->
  preserves proj (withTimeout (request failure op) ms).
Proof.
  intros Hcol w. unfold withTimeout, request.
  destruct (match net w with [] => Reply 0 | o :: _ => o end) as [l|l].
  - destruct (op (collection (set_net (tl (net w)) w))) as [r c'].
    destruct (_ <? _); cbn [snd]; rewrite proj_clock, Hcol, proj_net;
      reflexivity.
  - destruct (_ <? _); cbn [snd]; rewrite proj_clock, proj_net; reflexivity.
Qed.

End Projection.

Lemma getAppointments_pure (barberId : option string)
      (startDate endDate : option (option Z))
      (c : AppointmentService.Collection) :
  snd (AppointmentService.getAppointments barberId startDate endDate c) = c.
Proof.
  unfold AppointmentService.getAppointments.
  destruct (AppointmentService.isoBound startDate); [|reflexivity].
  destruct (AppointmentService.isoBound endDate); reflexivity.
Qed.

Lemma getCustomerAppointments_pure (tz now : Z) (phoneOrName : string)
      (c : AppointmentService.Collection) :
  snd (AppointmentService.getCustomerAppointments tz now phoneOrName c) = c.
Proof.
  unfold AppointmentService.getCustomerAppointments. cbv zeta.
  destruct (JsDate.toISOString (Some (now - AppointmentService.WEEK_MS)));
    reflexivity.
Qed.

Ltac store_step :=
  match goal with
  | |- preserves _ (bind _ _) => apply preserves_bind; [|intros ?]
  | |- preserves _ (ret _) => apply preserves_ret
  | |- preserves _ (throw _) => apply preserves_throw
  | |- preserves _ get => apply preserves_get
  | |- preserves _ (modify _) =>
      apply preserves_modify; intros ?; reflexivity
  | |- preserves _ (if ?b then _ else _) => destruct b
  | |- preserves _ (match ?x with _ => _ end) => destruct x
  end.

Section Component.
Variables tz sofia : Z.
Variable barbers : list Barber.t.
Variable services : list Service.t.

Lemma store_read {A : Type} (failure : string)
      (op : AppointmentService.Collection
            -> option A * AppointmentService.Collection) (ms : Z) :
  (forall c, snd (op c) = c) ->
  preserves store (withTimeout (request failure op) ms).
Proof.
  intros Hpure. apply preserves_read; try exact Hpure; intros; reflexivity.
Qed.

Lemma store_cached (barberId : string) (date : option string) :
  preserves store (getCachedAppointmentsForDate tz barberId date).
Proof.
  unfold getCachedAppointmentsForDate. cbv zeta.
  repeat first
         [ apply store_read; intros ?; apply BookingToolFacts.load_pure
         | store_step ].
Qed.

Lemma store_range : preserves store (getCachedAppointmentsRange tz).
Proof.
  unfold getCachedAppointmentsRange. cbv zeta.
  repeat first
         [ apply store_read; intros ?; apply getAppointments_pure
         | store_step ].
Qed.

Lemma store_dispatch (call : Call.t) :
  isAction (Call.name call) = false ->
  preserves store (dispatch tz sofia barbers services call).
Proof.
  unfold isAction, dispatch. cbv zeta. intros Hname.
  apply orb_false_iff in Hname. destruct Hname as [Hname Hcancel].
  apply orb_false_iff in Hname. destruct Hname as [Hbook Hmove].
  rewrite Hbook, Hmove, Hcancel.
  repeat match goal with
         | |- preserves _ (if ?b then _ else _) => destruct b
         end.
  - unfold get_barbers. repeat store_step.
  - unfold get_services. repeat store_step.
  - unfold get_available_slots. cbv zeta.
    repeat first [apply store_cached | store_step].
  - unfold find_earliest_slot. cbv zeta.
    repeat first [apply store_range | store_step].
  - unfold get_customer_appointments.
    repeat first
           [ apply store_read; intros ?; destruct (customerPhone _);
             [apply getCustomerAppointments_pure|reflexivity]
           | store_step ].
  - apply preserves_ret.
Qed.

Lemma store_answer (call : Call.t) (w : World) :
  isAction (Call.name call) = false ->
  store (snd (answer tz sofia barbers services call w)) = store w.
Proof.
  intros Hname. pose proof (store_dispatch call Hname w) as H.
  unfold answer.
  destruct (dispatch tz sofia barbers services call w) as [[r|m] w'];
    exact H.
Qed.

Lemma store_logCall (logId : string) (responses : list Response.t)
      (w : World) (call : Call.t) :
  store (logCall logId responses w call) = store w.
Proof.
  unfold logCall. cbv zeta. destruct (_ && _); reflexivity.
Qed.

Lemma store_log (logId : string) (responses : list Response.t)
      (calls : list Call.t) (w : World) :
  store (fold_left (logCall logId responses) calls w) = store w.
Proof.
  revert w. induction calls as [|call calls IH]; intros w; [reflexivity|].
  cbn [fold_left]. rewrite IH. apply store_logCall.
Qed.

(** X12. The tools that are not [book_appointment],
    [reschedule_appointment] or [cancel_appointment] -- the reads, and a
    name that is no tool -- write nothing: after a batch of such calls,
    whatever the backend answers and whatever is logged, the collection,
    the bookings handed to the page and the remembered last booking are
    as they were. *)
Theorem reads_never_write (calls : list Call.t) (w : World) :
  Forall (fun call => isAction (Call.name call) = false) calls ->
  store (snd (handleToolCalls tz sofia barbers services calls w)) = store w.
Proof.
  intros Hreads. unfold handleToolCalls.
  assert (Hall : store (snd (answerAll tz sofia barbers services calls w))
                 = store w).
  { revert w. induction Hreads as [|call calls Hcall _ IH]; intros w;
      [reflexivity|].
    cbn [answerAll].
    pose proof (store_answer call w Hcall) as Hone.
    destruct (answer tz sofia barbers services call w) as [r w1].
    cbn [snd] in Hone. specialize (IH w1).
    destruct (answerAll tz sofia barbers services calls w1) as [rs w2].
    cbn [snd] in *. congruence. }
  destruct (answerAll tz sofia barbers services calls w) as [responses w1].
  cbn [snd] in *.
  destruct (conversationLogId w1) as [logId|]; [|exact Hall].
  destruct (String.eqb logId ""); [exact Hall|].
  rewrite store_log. exact Hall.
Qed.

End Component.
End FrameFacts.
Module StaleCacheFacts.
Import VoiceAgent.

Section Component.
Variables tz : Z.
Variable barbers : list Barber.t.
Variable services : list Service.t.

(** After the read of [book_appointment] the cache holds, under the key
    of the call, the list the read returned, not yet expired. *)
Lemma read_entry (a : Args) (w w1 : World) (l : list Appointment.t) :
  recheckRead tz a w = (Ok l, w1) ->
  exists e : CacheEntry,
    appointmentsCache w1 !! cacheKey a = Some e /\ data e = l
    /\ clock w1 - ts e < APPOINTMENTS_CACHE_TTL_MS
    /\ (freshEntry w (cacheKey a) = None -> ts e = clock w1).
Proof.
  unfold recheckRead, getCachedAppointmentsForDate, cacheKey, freshEntry.
  cbv zeta. unfold bind at 1. unfold get at 1. cbv beta iota.
  assert (Hload :
    bind
      (withTimeout
         (request AppointmentService.LOAD_FAILED
            (loadAppointmentsForDateRange tz (default "" (barberId a))
               (default "" (date a))))
         TOOL_TIMEOUT_MS)
      (fun data =>
         bind (modify (fun w1 =>
                 set_appointmentsCache
                   (<[(default "" (barberId a) ++ ":" ++ tpl (date a)) :=
                        mkEntry data (clock w1)]>
                      (appointmentsCache w1)) w1))
              (fun _ => ret data)) w = (Ok l, w1) ->
    exists e : CacheEntry,
      appointmentsCache w1 !! (default "" (barberId a) ++ ":" ++ tpl (date a))
      = Some e /\ data e = l
      /\ clock w1 - ts e < APPOINTMENTS_CACHE_TTL_MS /\ ts e = clock w1).
  { unfold bind, withTimeout, request, modify, ret.
    destruct (match net w with [] => Reply 0 | o :: _ => o end) as [lat|lat].
    - destruct (loadAppointmentsForDateRange _ _ _ _) as [[r|] c'];
        destruct (_ <? _); try discriminate.
      intros [= <- <-]. eexists.
      cbn [appointmentsCache set_appointmentsCache].
      rewrite lookup_insert_eq. split; [reflexivity|].
      cbn [data ts]. BookingOutcomeFacts.fields.
      split; [reflexivity|]. split; [|reflexivity].
      unfold APPOINTMENTS_CACHE_TTL_MS. lia.
    - destruct (_ <? _); discriminate. }
  destruct (appointmentsCache w !! _) as [cached|] eqn:Hlook.
  - destruct (clock w - ts cached <? APPOINTMENTS_CACHE_TTL_MS) eqn:Hfresh.
    + intros [= <- <-]. exists cached. rewrite Hlook.
      split; [reflexivity|]. split; [reflexivity|].
      split; [apply Z.ltb_lt, Hfresh|discriminate].
    + intros Hrun. destruct (Hload Hrun) as (e & H1 & H2 & H3 & H4).
      exists e. auto.
  - intros Hrun. destruct (Hload Hrun) as (e & H1 & H2 & H3 & H4).
    exists e. auto.
Qed.

(** X13. The component's own booking does not reach its cache.  When
    [book_appointment] answers with the id of a new appointment, the cache
    still holds, for the barber and the date of the call, a list in which
    the slot just booked is free; it is at most 6 s old at the answer when
    the read went to the backend.  Until that entry is 15 s old, the read
    of a later booking of the same slot returns it and the re-check of the
    slot passes. *)
Theorem own_booking_not_in_cache (a : Args) (w : World)
        (id message : string) :
  fst (book_appointment tz barbers services a w)
  = Ok (Success (Some id) message) ->
  id <> "duplicate" ->
  exists e : CacheEntry,
    appointmentsCache (snd (book_appointment tz barbers services a w))
    !! cacheKey a = Some e
    /\ slotFree tz a (data e) = true
    /\ (freshEntry w (cacheKey a) = None ->
        0 <= clock (snd (book_appointment tz barbers services a w)) - ts e
          < TOOL_TIMEOUT_MS)
    /\ forall (later : Args) (w2 : World),
         barberId later = barberId a -> date later = date a ->
         time later = time a ->
         appointmentsCache w2
         = appointmentsCache (snd (book_appointment tz barbers services a w)) ->
         clock w2 - ts e < APPOINTMENTS_CACHE_TTL_MS ->
         recheckRead tz later w2 = (Ok (data e), w2)
         /\ slotFree tz later (data e) = true.
Proof.
  intros Hok Hfresh.
  destruct (BookingOutcomeFacts.book_appointment_cases tz barbers services a w)
    as [(_ & _ & _ & Hdup)|(n & raw & iso & checkAppts & w1 & latency & _
                            & Hread & Hfree & _ & _ & _ & _ & Hnet & _
                            & [(Hlat & _ & _ & _ & Hcache & Hclock)
                              |(_ & Hthrow & _)])].
  - contradiction (Hfresh (Hdup id message Hok)).
  - destruct (read_entry a w w1 checkAppts Hread)
      as (e & Hlook & Hdata & Hage & Hts).
    exists e. rewrite Hcache, Hclock.
    split; [exact Hlook|]. split; [rewrite Hdata; exact Hfree|]. split.
    + intros Hnone. rewrite (Hts Hnone).
      unfold TOOL_TIMEOUT_MS in *.
      destruct (net w1) as [|[l|l] rest]; [lia|lia|contradiction].
    + intros later w2 Hb Hd Ht Hsame Hyoung.
      assert (Hentry : freshEntry w2 (cacheKey later) = Some e).
      { unfold freshEntry, cacheKey. rewrite Hb, Hd, Hsame.
        unfold cacheKey in Hlook. rewrite Hlook.
        apply Z.ltb_lt in Hyoung. rewrite Hyoung. reflexivity. }
      split.
      * apply (BookingToolFacts.read_cached tz later w2 e Hentry).
      * unfold slotFree in *. rewrite Hb, Hd, Ht, Hdata. exact Hfree.
  - rewrite Hthrow in Hok. discriminate.
Qed.

End Component.
End StaleCacheFacts.

Module LateAnswerFacts.
Import VoiceAgent.

Section Component.
Variables tz sofia : Z.
Variable barbers : list Barber.t.
Variable services : list Service.t.

(** A request answered after the timeout: the caller gets the timeout
    error, the backend has done what it was asked. *)
Lemma late_request {A : Type} (failure : string)
      (op : AppointmentService.Collection
            -> option A * AppointmentService.Collection)
      (w : World) (latency : Z) (rest : list Net) :
  net w = Reply latency :: rest -> TOOL_TIMEOUT_MS <= latency ->
  withTimeout (request failure op) TOOL_TIMEOUT_MS w
  = (Throw TIMEOUT,
     set_clock (clock w + TOOL_TIMEOUT_MS)
       (set_collection (snd (op (collection w))) (set_net rest w))).
Proof.
  intros Hnet Hlate. unfold withTimeout, request. rewrite Hnet.
  cbn [tl collection set_net].
  destruct (op (collection w)) as [r c'].
  assert (Hnot : (Z.max 0 latency <? TOOL_TIMEOUT_MS) = false)
    by (apply Z.ltb_ge; unfold TOOL_TIMEOUT_MS in *; lia).
  rewrite Hnot. reflexivity.
Qed.

(** X14. [cancel_appointment] for a stored appointment, and
    [reschedule_appointment] for a stored appointment with a date and
    time that make a date, answered by the backend after the 6 s of the
    tool timeout: the model is told that the connection is slow and to
    try again, while the write went through: the collection is what
    [cancelAppointment], or [rescheduleAppointment], made of it. *)
Theorem late_answer_still_applied (callId : string) (a : Args) (w : World)
        (latency : Z) (rest : list Net) :
  net w = Reply latency :: rest -> TOOL_TIMEOUT_MS <= latency ->
  truthy (appointmentId a) = true ->
  (exists apt, In apt (AppointmentService.docs (collection w))
               /\ Appointment.id apt = default "" (appointmentId a)) ->
  (Response.result
     (fst (answer tz sofia barbers services
                  (Call.mk callId "cancel_appointment" a) w))
   = ErrorResult SLOW_CONNECTION
   /\ AppointmentService.cancelAppointment (appointmentId a) (collection w)
      = (Some tt,
         collection
           (snd (answer tz sofia barbers services
                        (Call.mk callId "cancel_appointment" a) w))))
  /\ (forall iso : string,
         truthy (newDate a) = true -> truthy (newTime a) = true ->
         Iso.storedDate tz (tpl (newDate a)) (tpl (newTime a)) = Some iso ->
         Response.result
           (fst (answer tz sofia barbers services
                        (Call.mk callId "reschedule_appointment" a) w))
         = ErrorResult SLOW_CONNECTION
         /\ AppointmentService.rescheduleAppointment
              tz (appointmentId a) (tpl (newDate a)) (tpl (newTime a))
              (collection w)
            = (Some tt,
               collection
                 (snd (answer tz sofia barbers services
                              (Call.mk callId "reschedule_appointment" a)
                              w)))).
Proof.
  intros Hnet Hlate Hid Hex. split.
  - unfold answer, dispatch. cbn [Call.name Call.args Call.id].
    change (String.eqb "cancel_appointment" "get_barbers") with false.
    change (String.eqb "cancel_appointment" "get_services") with false.
    change (String.eqb "cancel_appointment" "get_available_slots") with false.
    change (String.eqb "cancel_appointment" "find_earliest_slot") with false.
    change (String.eqb "cancel_appointment" "book_appointment") with false.
    change (String.eqb "cancel_appointment" "get_customer_appointments")
      with false.
    change (String.eqb "cancel_appointment" "reschedule_appointment")
      with false.
    change (String.eqb "cancel_appointment" "cancel_appointment") with true.
    cbv iota. unfold cancel_appointment, bind.
    rewrite (late_request _ _ w latency rest Hnet Hlate).
    split; [reflexivity|].
    cbn [snd collection set_clock set_collection].
    unfold AppointmentService.cancelAppointment.
    destruct (AppointmentServiceFacts.updateAppointment_cases
                (appointmentId a)
                (AppointmentService.withStatus cancelled) (collection w))
      as [(_ & _ & Hrun)|([Hf|Hnone] & _)].
    + rewrite Hrun. reflexivity.
    + congruence.
    + destruct Hex as (apt & Hin & Heq). contradiction (Hnone apt Hin Heq).
  - intros iso Hdate Htime Hiso.
    unfold answer, dispatch. cbn [Call.name Call.args Call.id].
    change (String.eqb "reschedule_appointment" "get_barbers") with false.
    change (String.eqb "reschedule_appointment" "get_services") with false.
    change (String.eqb "reschedule_appointment" "get_available_slots")
      with false.
    change (String.eqb "reschedule_appointment" "find_earliest_slot")
      with false.
    change (String.eqb "reschedule_appointment" "book_appointment")
      with false.
    change (String.eqb "reschedule_appointment" "get_customer_appointments")
      with false.
    change (String.eqb "reschedule_appointment" "reschedule_appointment")
      with true.
    cbv iota. unfold reschedule_appointment, bind.
    rewrite Hid, Hdate, Htime. cbn [negb orb].
    rewrite (late_request _ _ w latency rest Hnet Hlate).
    split; [reflexivity|].
    cbn [snd collection set_clock set_collection].
    unfold AppointmentService.rescheduleAppointment.
    fold (Iso.storedDate tz (tpl (newDate a)) (tpl (newTime a))).
    rewrite Hiso.
    destruct (AppointmentServiceFacts.updateAppointment_cases
                (appointmentId a)
                (AppointmentService.withDate iso) (collection w))
      as [(_ & _ & Hrun)|([Hf|Hnone] & _)].
    + rewrite Hrun. reflexivity.
    + congruence.
    + destruct Hex as (apt & Hin & Heq). contradiction (Hnone apt Hin Heq).
Qed.

End Component.
End LateAnswerFacts.
Module ToolExamples.
Import VoiceAgent Salon SalonCalls Frames.

Lemma reads_never_write_witness :
  store (snd (handleToolCalls EET EET [nalby] [haircut]
                              [slotsCall; earliestCall; unknownCall]
                              beforeCancel))
  = store beforeCancel.
Proof.
  apply (FrameFacts.reads_never_write EET EET [nalby] [haircut]).
  repeat constructor.
Defined.

Lemma own_booking_not_in_cache_witness :
  exists e : CacheEntry,
    appointmentsCache (snd (book opened)) !! cacheKey bookArgs = Some e
    /\ slotFree EET bookArgs (data e) = true
    /\ (freshEntry opened (cacheKey bookArgs) = None ->
        0 <= clock (snd (book opened)) - ts e < TOOL_TIMEOUT_MS)
    /\ forall (later : Args) (w2 : World),
         barberId later = barberId bookArgs -> date later = date bookArgs ->
         time later = time bookArgs ->
         appointmentsCache w2 = appointmentsCache (snd (book opened)) ->
         clock w2 - ts e < APPOINTMENTS_CACHE_TTL_MS ->
         recheckRead EET later w2 = (Ok (data e), w2)
         /\ slotFree EET later (data e) = true.
Proof.
  apply (StaleCacheFacts.own_booking_not_in_cache
           EET [nalby] [haircut] bookArgs opened "doc0"
           (fst (match fst (book opened) with
                 | Ok (Success _ m) => (m, tt)
                 | _ => ("", tt)
                 end))).
  - vm_compute. reflexivity.
  - discriminate.
Defined.

Lemma late_answer_still_applied_witness :
  Response.result
    (fst (answer EET EET [nalby] [haircut]
                 (Call.mk "call-1" "cancel_appointment" cancelArgs)
                 slowCancel))
  = ErrorResult SLOW_CONNECTION
  /\ map Appointment.status
         (AppointmentService.docs
            (collection
               (snd (answer EET EET [nalby] [haircut]
                            (Call.mk "call-1" "cancel_appointment" cancelArgs)
                            slowCancel))))
     = [cancelled].
Proof.
  destruct (LateAnswerFacts.late_answer_still_applied
              EET EET [nalby] [haircut] "call-1" cancelArgs slowCancel
              7000 [] eq_refl
              ltac:(unfold TOOL_TIMEOUT_MS; lia) eq_refl)
    as [[Hslow Hdone] _].
  - exists tomorrowAtTen. split; [left; reflexivity|reflexivity].
  - split; [exact Hslow|].
    apply (f_equal
             (fun p => map Appointment.status
                           (AppointmentService.docs (snd p)))) in Hdone.
    cbn [snd] in Hdone. rewrite <- Hdone. reflexivity.
Defined.

End ToolExamples.

Module HybridBusyFacts.
Import Hybrid HybridTurns.

Lemma busy_final (text : string) (c : Controller) :
  isProcessingRef c = true -> handleFinalTranscript text c = c.
Proof.
  intros Hbusy. unfold handleFinalTranscript. rewrite Hbusy. reflexivity.
Qed.

Lemma busy_fired (fired : list Timer) (c : Controller) :
  isProcessingRef c = true ->
  fold_left (fun st x => handleFinalTranscript (captured x) st) fired c = c.
Proof.
  intros Hbusy. induction fired as [|x fired IH]; [reflexivity|].
  cbn [fold_left]. rewrite busy_final by exact Hbusy. exact IH.
Qed.

Lemma incl_filter {A : Type} (f : A -> bool) (l : list A) :
  incl (List.filter f l) l.
Proof. intros x Hx. apply filter_In in Hx. exact (proj1 Hx). Qed.

Lemma busy_step (c : Controller) (e : Event) :
  isProcessingRef c = true -> keepsBusy e = true ->
  isProcessingRef (step c e) = true /\ turns (step c e) = turns c
  /\ incl (timers (step c e)) (timers c).
Proof.
  intros Hbusy He. destruct e as [text isFinal|ms| | |]; try discriminate;
    cbn [step].
  - destruct (String.eqb text "");
      [split; [exact Hbusy|split; [reflexivity|apply incl_refl]]|].
    assert (Hc1 : (if isFinal then handleFinalTranscript text c else c) = c)
      by (destruct isFinal; [apply busy_final, Hbusy|reflexivity]).
    rewrite Hc1. unfold handleTranscript. rewrite Hbusy.
    rewrite andb_false_r.
    cbn [isProcessingRef turns timers].
    split; [reflexivity|]. split; [reflexivity|].
    destruct (vadTimeoutRef c); [apply incl_filter|apply incl_refl].
  - unfold advance. rewrite busy_fired by exact Hbusy.
    cbn [isProcessingRef turns timers].
    split; [exact Hbusy|]. split; [reflexivity|apply incl_filter].
  - cbn. split; [exact Hbusy|]. split; [reflexivity|apply incl_refl].
Qed.

(** X15. While a turn is in progress (the answer is being fetched or
    spoken) nothing the customer says starts a turn or arms the silence
    timer: until the end of the speech or the failure of the turn arrives,
    whatever transcripts arrive and however long it takes, the controller
    stays busy, the turns started are the same and no timer is pending
    that was not pending before. *)
Theorem busy_drops_speech (es : list Event) (c : Controller) :
  isProcessingRef c = true ->
  forallb keepsBusy es = true ->
  isProcessingRef (run c es) = true /\ turns (run c es) = turns c
  /\ incl (timers (run c es)) (timers c).
Proof.
  revert c. induction es as [|e es IH]; intros c Hbusy Hes.
  - split; [exact Hbusy|]. split; [reflexivity|apply incl_refl].
  - cbn [forallb] in Hes. apply andb_true_iff in Hes.
    destruct Hes as [He Hes].
    destruct (busy_step c e Hbusy He) as (H1 & H2 & H3).
    destruct (IH (step c e) H1 Hes) as (K1 & K2 & K3).
    unfold run in *. cbn [fold_left].
    split; [exact K1|]. split; [congruence|].
    intros x Hx. apply H3, K3, Hx.
Qed.

Lemma busy_drops_speech_witness :
  isProcessingRef (run busy talkingOver) = true
  /\ turns (run busy talkingOver) = ["zdravei"]
  /\ incl (timers (run busy talkingOver)) [].
Proof.
  apply (busy_drops_speech talkingOver busy); reflexivity.
Defined.

End HybridBusyFacts.
Module ReconnectFacts.
Import VoiceAgent Salon.

(** In a render whose [isActive] is false [scheduleReconnect] returns at
    its first line. *)
Lemma scheduleReconnect_inactive (c : Conn) : scheduleReconnect false c = c.
Proof. reflexivity. Qed.

(** With the user-disconnect flag set it changes nothing, whatever the
    count. *)
Lemma scheduleReconnect_user_disconnecting (active : bool) (c : Conn) :
  isUserDisconnecting c = true -> scheduleReconnect active c = c.
Proof.
  intros Hu. unfold scheduleReconnect. rewrite Hu, orb_true_r. reflexivity.
Qed.

(** What the function does when it reads [isActive] as true: below
    [MAX_RECONNECTS] attempts it counts one more and arms one timer; from
    [MAX_RECONNECTS] attempts on it shows the "connection unstable" error
    and ends the session. *)
Lemma scheduleReconnect_active (c : Conn) :
  isUserDisconnecting c = false ->
  (reconnectAttempts c < MAX_RECONNECTS ->
   let c' := scheduleReconnect true c in
   reconnectAttempts c' = reconnectAttempts c + 1
   /\ status c' = connecting
   /\ error c' = Some (reconnecting_message (reconnectAttempts c + 1))
   /\ reconnectTimer c' = Some (nextTimer c) /\ isActive c' = isActive c)
  /\ (MAX_RECONNECTS <= reconnectAttempts c ->
      let c' := scheduleReconnect true c in
      error c' = Some CONNECTION_UNSTABLE /\ status c' = idle
      /\ isActive c' = false /\ timers c' = timers c
      /\ reconnectAttempts c' = reconnectAttempts c).
Proof.
  intros Hu. unfold scheduleReconnect. rewrite Hu. cbn [negb orb]. split.
  - intros Hlt. apply Z.leb_gt in Hlt. rewrite Hlt.
    unfold clearReconnectTimer. destruct (reconnectTimer c); cbn; auto.
  - intros Hle. apply Z.leb_le in Hle. rewrite Hle. cbn. auto.
Qed.

Section Session.
Variables tz sofia : Z.
Variable barbers : list Barber.t.
Variable services : list Service.t.

Lemma handleToolCalls_conn (calls : list Call.t) (w : World) :
  conn (snd (handleToolCalls tz sofia barbers services calls w)) = conn w.
Proof.
  unfold handleToolCalls.
  pose proof (SessionFacts.answerAll_keeps tz sofia barbers services calls w)
    as (_ & _ & _ & K).
  destruct (answerAll tz sofia barbers services calls w) as [rs w1].
  cbn [fst snd] in *. rewrite <- K.
  destruct (conversationLogId w1) as [logId|]; [|reflexivity].
  destruct (String.eqb logId ""); [reflexivity|].
  apply (SessionFacts.logCall_loop logId rs calls w1).
Qed.

Lemma handler_untouched (pressed : Conn) (event : LiveEvent) (w : World) :
  untouched pressed (conn w) ->
  untouched pressed (conn (handleLiveEvent tz sofia barbers services false
                                           event w)).
Proof.
  intros (Ha & He & Hs & Hn & Hu & Hr & Ht & Hx).
  destruct event as [| |calls|message|reason]; cbn [handleLiveEvent].
  - cbn. repeat split; auto; discriminate.
  - cbn. repeat split; auto; discriminate.
  - rewrite handleToolCalls_conn. repeat split; auto.
  - rewrite scheduleReconnect_inactive.
    destruct (truthy (conversationLogId w)); cbn; repeat split; auto.
  - rewrite scheduleReconnect_inactive. cbn. repeat split; auto.
Qed.

Lemma press_untouched (w : World) :
  isActive (conn w) = false ->
  untouched (conn w) (conn (handleToggle true w)).
Proof.
  intros Ha. unfold handleToggle. rewrite Ha. cbv zeta.
  destruct (match net w with [] => Reply 0 | o :: _ => o end);
    cbn; repeat split; discriminate.
Qed.

(** C6: what the code does with the failures of the connection.  A
    session is started by a press of the button while the component is
    not active; whatever the live client then reports, and however many
    [error] and [close] events are among it, the handler it was given
    reads [isActive] as false and [scheduleReconnect] returns at once: the
    session stays active, no error is shown, least of all the "connection
    unstable" one, no attempt is counted and no reconnect is scheduled. *)
Theorem failures_never_reconnect (events : list LiveEvent) (w : World) :
  isActive (conn w) = false ->
  isActive (conn (started tz sofia barbers services events w)) = true
  /\ error (conn (started tz sofia barbers services events w)) = None
  /\ status (conn (started tz sofia barbers services events w)) <> idle
  /\ reconnectAttempts (conn (started tz sofia barbers services events w)) = 0
  /\ reconnectTimer (conn (started tz sofia barbers services events w))
     = reconnectTimer (conn w)
  /\ timers (conn (started tz sofia barbers services events w))
     = timers (conn w).
Proof.
  intros Ha.
  assert (H : untouched (conn w)
                (conn (started tz sofia barbers services events w))).
  { unfold started, reported. rewrite Ha.
    pose proof (press_untouched w Ha) as Hp.
    generalize dependent (handleToggle true w). clear Ha.
    induction events as [|event events IH]; intros w1 Hp; cbn.
    - exact Hp.
    - apply IH. apply handler_untouched, Hp. }
  destruct H as (H1 & H2 & H3 & H4 & _ & H5 & H6 & _).
  split; [exact H1|]. split; [exact H2|]. split; [exact H3|].
  split; [exact H4|]. split; [exact H5|exact H6].
Qed.

End Session.

(** The session is started, the setup completes, then the connection
    breaks: the client reports an error and the close of the socket,
    [MAX_RECONNECTS] failures.  The session is still shown as active and
    listening, without any error, and nothing is scheduled. *)
Lemma failures_never_reconnect_witness :
  isActive (conn opened) = false
  /\ Z.of_nat (length (List.filter
                         (fun e => match e with
                                   | errorEvent _ | close _ => true
                                   | _ => false
                                   end) afterSetupBroken)) = MAX_RECONNECTS
  /\ isActive (conn (started EET EET [nalby] [haircut] afterSetupBroken opened))
     = true
  /\ status (conn (started EET EET [nalby] [haircut] afterSetupBroken opened))
     = listening
  /\ error (conn (started EET EET [nalby] [haircut] afterSetupBroken opened))
     = None
  /\ timers (conn (started EET EET [nalby] [haircut] afterSetupBroken opened))
     = [].
Proof.
  split; [reflexivity|]. split; [reflexivity|].
  destruct (failures_never_reconnect
              EET EET [nalby] [haircut] afterSetupBroken opened eq_refl)
    as (Ha & He & _ & _ & _ & Ht).
  split; [exact Ha|]. split; [vm_compute; reflexivity|].
  split; [exact He|exact Ht].
Defined.

End ReconnectFacts.

Module ConnectionFacts.
Import VoiceAgent Salon.

Section Session.
Variables tz sofia : Z.
Variable barbers : list Barber.t.
Variable services : list Service.t.

(** X16. A start whose [connect] fails goes unnoticed.  [connect] catches
    the failure, reports it to the handler as an [error] event and
    resolves; the handler, which reads [isActive] as false, schedules
    nothing, and [handleToggle] goes on to [setIsActive(true)].  The
    component shows an active session, still connecting, with no error
    and no reconnect pending; the log opened by the start holds the
    system event of the error, and the next press of the button stops
    the session and closes that log as abandoned. *)
Theorem failed_start_goes_unnoticed (message : string) (w : World) :
  isActive (conn w) = false -> logOpens w ->
  isActive (conn (started tz sofia barbers services [errorEvent message] w))
  = true
  /\ status (conn (started tz sofia barbers services [errorEvent message] w))
     = connecting
  /\ error (conn (started tz sofia barbers services [errorEvent message] w))
     = None
  /\ timers (conn (started tz sofia barbers services [errorEvent message] w))
     = timers (conn w)
  /\ forall connected : bool,
       isActive
         (conn (handleToggle connected
                  (started tz sofia barbers services [errorEvent message] w)))
       = false
       /\ logRequests
            (handleToggle connected
               (started tz sofia barbers services [errorEvent message] w))
          = (logRequests w
             ++ [ConversationLog.Start (ConversationLog.logIdAt (clock w));
                 ConversationLog.AddEvent
                   (ConversationLog.logIdAt (clock w))
                   ConversationLog.system ("Грешка: " ++ message) None;
                 ConversationLog.End (ConversationLog.logIdAt (clock w))
                                     ConversationLog.abandoned false])%list.
Proof.
  intros Hoff Hopens.
  assert (Hstart :
    conn (handleToggle true w)
    = mkConn true connecting None 0 (reconnectTimer (conn w))
             (isUserDisconnecting (conn w)) (timers (conn w))
             (nextTimer (conn w))
    /\ conversationLogId (handleToggle true w)
       = Some (ConversationLog.logIdAt (clock w))
    /\ bookingCreated (handleToggle true w) = false
    /\ logRequests (handleToggle true w)
       = (logRequests w
          ++ [ConversationLog.Start (ConversationLog.logIdAt (clock w))])%list).
  { unfold handleToggle. rewrite Hoff. unfold logOpens in Hopens.
    destruct (net w) as [|[l|l] rest]; [| |contradiction];
      cbn; repeat split. }
  destruct Hstart as (Hconn & Hid & Hbc & Hlog).
  unfold started, reported, sessionRun. rewrite Hoff.
  cbn [map fold_left sessionStep handleLiveEvent].
  generalize dependent (handleToggle true w). intros w1 Hconn Hid Hbc Hlog.
  rewrite Hid. cbn [truthy default].
  change (negb (ConversationLog.logIdAt (clock w) =? "")%string) with true.
  cbv iota. unfold scheduleReconnect. cbn [negb orb].
  cbn [conn set_conn set_logRequests]. rewrite Hconn.
  cbn [isActive status error timers].
  split; [reflexivity|]. split; [reflexivity|]. split; [reflexivity|].
  split; [reflexivity|].
  intros connected. unfold handleToggle.
  cbn [conn set_conn set_logRequests isActive conversationLogId logRequests
       bookingCreated].
  rewrite Hid, Hbc, Hlog. cbn [truthy default].
  change (negb (ConversationLog.logIdAt (clock w) =? "")%string) with true.
  cbn. rewrite <- !app_assoc. split; reflexivity.
Qed.

End Session.

(** The first start of the component fails to connect; the user presses
    the button again. *)
Lemma failed_start_goes_unnoticed_witness :
  isActive (conn (started EET EET [nalby] [haircut]
                          [errorEvent "Failed to connect"] opened))
  = true
  /\ map ConversationLog.isEnd
         (logRequests
            (handleToggle true
               (started EET EET [nalby] [haircut]
                        [errorEvent "Failed to connect"] opened)))
     = [false; false; true].
Proof.
  destruct (failed_start_goes_unnoticed
              EET EET [nalby] [haircut]
              "Failed to connect" opened eq_refl I)
    as (Hon & _ & _ & _ & Hstop).
  split; [exact Hon|].
  destruct (Hstop true) as [_ Hlog]. rewrite Hlog. reflexivity.
Defined.

End ConnectionFacts.

Module ConversationRestFacts.
Import Conversation ConversationRest.

(** X19. In every state the hook reaches -- by calls of
    [updateBookingData], [addMessage] and [resetConversation] in any
    order -- the three views of a finished draft agree: [isComplete]
    holds exactly when [getMissingFields] is empty, exactly when the step
    is [confirmation], and exactly when [generateConfirmationSummary]
    gives a text. *)
Theorem complete_iff_nothing_missing (actions : list Action) :
  (isComplete (after actions) = true <-> getMissingFields (after actions) = [])
  /\ (getMissingFields (after actions) = []
      <-> currentStep (after actions) = Step.confirmation)
  /\ (getMissingFields (after actions) = []
      <-> generateConfirmationSummary (bookingData (after actions)) <> "").
Proof.
  pose proof (ConversationFacts.run_act_inLine actions initial
                ConversationFacts.initial_inLine)
    as Hline.
  fold (after actions) in Hline. generalize dependent (after actions).
  intros h Hline. unfold inLine in Hline.
  unfold isComplete, getMissingFields, generateConfirmationSummary.
  rewrite Hline.
  pose proof (ConversationFacts.filled_notNull (service (bookingData h))) as Ns.
  pose proof (ConversationFacts.filled_notNull (dateTime (bookingData h))) as Nd.
  pose proof (ConversationFacts.filled_notNull (name (bookingData h))) as Nn.
  pose proof (ConversationFacts.filled_notNull (phone (bookingData h))) as Np.
  destruct (filled (service (bookingData h))); cbn [negb orb app];
    [rewrite (Ns eq_refl)
    |rewrite ?andb_false_r; repeat split; intros H; try discriminate H;
     try contradiction H; reflexivity].
  destruct (filled (dateTime (bookingData h))); cbn [negb orb app];
    [rewrite (Nd eq_refl)
    |rewrite ?andb_false_r; repeat split; intros H; try discriminate H;
     try contradiction H; reflexivity].
  destruct (filled (name (bookingData h))); cbn [negb orb app];
    [rewrite (Nn eq_refl)
    |rewrite ?andb_false_r; repeat split; intros H; try discriminate H;
     try contradiction H; reflexivity].
  destruct (filled (phone (bookingData h))); cbn [negb orb app];
    [rewrite (Np eq_refl)
    |rewrite ?andb_false_r; repeat split; intros H; try discriminate H;
     try contradiction H; reflexivity].
  cbn [andb Step.eqb].
  repeat split; intros H; try reflexivity; discriminate.
Qed.

End ConversationRestFacts.
Module PhoneFacts.
Import VoiceAgent Phone.

Lemma digitsOnly_filter (s : string) :
  digitsOnly s
  = string_of_list_ascii (List.filter isDigit (list_ascii_of_string s)).
Proof. reflexivity. Qed.

Lemma digitsOnly_cons (c : ascii) (s : string) :
  digitsOnly (String c s)
  = if isDigit c then String c (digitsOnly s) else digitsOnly s.
Proof.
  rewrite !digitsOnly_filter. cbn [list_ascii_of_string List.filter].
  destruct (isDigit c); reflexivity.
Qed.

Lemma digitsOnly_list (l : list ascii) :
  digitsOnly (string_of_list_ascii l)
  = string_of_list_ascii (List.filter isDigit l).
Proof.
  rewrite digitsOnly_filter, list_ascii_of_string_of_list_ascii. reflexivity.
Qed.

Lemma filter_all {A : Type} (f : A -> bool) (l : list A) :
  Forall (fun x => f x = true) l -> List.filter f l = l.
Proof.
  induction 1 as [|x l Hx _ IH]; [reflexivity|].
  cbn [List.filter]. rewrite Hx, IH. reflexivity.
Qed.

Lemma filter_Forall {A : Type} (f : A -> bool) (l : list A) :
  Forall (fun x => f x = true) (List.filter f l).
Proof.
  induction l as [|x l IH]; cbn [List.filter]; [constructor|].
  destruct (f x) eqn:Hx; [constructor; assumption|exact IH].
Qed.

Lemma string_of_list_app (a b : list ascii) :
  string_of_list_ascii (a ++ b)
  = string_of_list_ascii a ++ string_of_list_ascii b.
Proof.
  induction a as [|c a IH]; [reflexivity|].
  cbn [app string_of_list_ascii append]. rewrite IH. reflexivity.
Qed.

Lemma dropFirst_list (l : list ascii) :
  dropFirst (string_of_list_ascii l) = string_of_list_ascii (tl l).
Proof. destruct l; reflexivity. Qed.

(** The normal form is a string of digits that begins with 359. *)
Lemma normalizePhone_digits (raw : string) :
  exists l : list ascii,
    normalizePhone raw = string_of_list_ascii l
    /\ Forall (fun c => isDigit c = true) l.
Proof.
  unfold normalizePhone. cbv zeta.
  pose proof (filter_Forall isDigit (list_ascii_of_string raw)) as Hall.
  rewrite (digitsOnly_filter raw).
  set (l0 := List.filter isDigit (list_ascii_of_string raw)) in *.
  assert (H359 : Forall (fun c => isDigit c = true)
                        (list_ascii_of_string "359"))
    by (repeat constructor).
  assert (Htl : Forall (fun c => isDigit c = true) (tl l0))
    by (destruct Hall; [constructor|assumption]).
  assert (H1 : exists l1,
             (if String.prefix "0" (string_of_list_ascii l0)
              then "359" ++ dropFirst (string_of_list_ascii l0)
              else string_of_list_ascii l0) = string_of_list_ascii l1
             /\ Forall (fun c => isDigit c = true) l1).
  { destruct (String.prefix "0" (string_of_list_ascii l0)).
    - exists (list_ascii_of_string "359" ++ tl l0)%list. split.
      + rewrite string_of_list_app, dropFirst_list. reflexivity.
      + apply Forall_app. split; assumption.
    - exists l0. split; [reflexivity|exact Hall]. }
  destruct H1 as (l1 & -> & Hl1).
  destruct (String.prefix "359" (string_of_list_ascii l1)); cbn [negb].
  - exists l1. split; [reflexivity|exact Hl1].
  - exists (list_ascii_of_string "359" ++ l1)%list. split.
    + rewrite string_of_list_app. reflexivity.
    + apply Forall_app. split; assumption.
Qed.

Lemma normalizePhone_359 (raw : string) :
  String.prefix "359" (normalizePhone raw) = true.
Proof.
  unfold normalizePhone. cbv zeta.
  match goal with
  | |- context [negb (String.prefix "359" ?p)] =>
      destruct (String.prefix "359" p) eqn:Hp; cbn [negb]
  end.
  - exact Hp.
  - apply BookingOutcomeFacts.prefix_app.
Qed.

Lemma digitsOnly_normalizePhone (raw : string) :
  digitsOnly (normalizePhone raw) = normalizePhone raw.
Proof.
  destruct (normalizePhone_digits raw) as (l & -> & Hl).
  rewrite digitsOnly_list, filter_all by exact Hl. reflexivity.
Qed.

(** What [normalizePhone] makes of a string depends on its digits only,
    and a normal form is left as it is. *)
Lemma normalizePhone_of_digits (s p : string) :
  digitsOnly s = p -> String.prefix "359" p = true -> normalizePhone s = p.
Proof.
  intros Hs Hp. unfold normalizePhone. cbv zeta. rewrite Hs.
  assert (H0 : String.prefix "0" p = false).
  { destruct p as [|c p]; [discriminate|].
    cbn [String.prefix] in Hp |- *.
    destruct (ascii_dec "3" c) as [<-|_]; [|discriminate Hp].
    destruct (ascii_dec "0" "3"); [discriminate|reflexivity]. }
  rewrite H0, Hp. reflexivity.
Qed.

Lemma digitsOnly_formatPhoneDigits (s : string) :
  digitsOnly (formatPhoneDigits s) = digitsOnly s.
Proof.
  induction s as [|c s IH]; [reflexivity|].
  destruct s as [|c' s]; [reflexivity|].
  change (formatPhoneDigits (String c (String c' s)))
    with (String c (String " "%char (formatPhoneDigits (String c' s)))).
  rewrite (digitsOnly_cons c (String " "%char _)).
  rewrite (digitsOnly_cons " "%char).
  change (isDigit " "%char) with false. cbv iota.
  rewrite IH. rewrite (digitsOnly_cons c (String c' s)). reflexivity.
Qed.

(** X20. The phone [book_appointment] stores and keys its bookings by is
    a normal form: digits only, beginning with 359, left unchanged by a
    second normalisation.  The stored form with its + in front, and the
    form the agent reads back digit by digit, normalise to it again, so
    a phone repeated from what was stored or spoken gives the same key. *)
Theorem normalizePhone_canonical (raw : string) :
  String.prefix "359" (normalizePhone raw) = true
  /\ digitsOnly (normalizePhone raw) = normalizePhone raw
  /\ normalizePhone (normalizePhone raw) = normalizePhone raw
  /\ normalizePhone ("+" ++ normalizePhone raw) = normalizePhone raw
  /\ normalizePhone (formatPhoneDigits (normalizePhone raw))
     = normalizePhone raw
  /\ forall a : Args,
       bookingKeyOf a (normalizePhone
                         (formatPhoneDigits (normalizePhone raw)))
       = bookingKeyOf a (normalizePhone raw).
Proof.
  pose proof (normalizePhone_359 raw) as H359.
  pose proof (digitsOnly_normalizePhone raw) as Hdig.
  assert (Hspoken : normalizePhone (formatPhoneDigits (normalizePhone raw))
                    = normalizePhone raw).
  { apply normalizePhone_of_digits; [|exact H359].
    rewrite digitsOnly_formatPhoneDigits. exact Hdig. }
  split; [exact H359|]. split; [exact Hdig|]. split; [|split; [|split]].
  - apply normalizePhone_of_digits; assumption.
  - apply normalizePhone_of_digits; [|exact H359].
    change ("+" ++ normalizePhone raw)
      with (String "+"%char (normalizePhone raw)).
    rewrite digitsOnly_cons. exact Hdig.
  - exact Hspoken.
  - intros a. rewrite Hspoken. reflexivity.
Qed.

End PhoneFacts.

Module CustomerSearchFacts.
Import VoiceAgent AppointmentService.

Lemma In_insertByDate (x a : Appointment.t) (l : list Appointment.t) :
  In x (insertByDate a l) <-> x = a \/ In x l.
Proof.
  induction l as [|b l IH]; cbn [insertByDate].
  - cbn. intuition.
  - destruct (String.ltb (Appointment.date a) (Appointment.date b)).
    + cbn. intuition.
    + cbn [In]. rewrite IH. intuition.
Qed.

Lemma In_orderByDate (x : Appointment.t) (l : list Appointment.t) :
  In x (orderByDate l) <-> In x l.
Proof.
  unfold orderByDate.
  assert (H : forall acc, In x (fold_left (fun sorted a => insertByDate a sorted)
                                          l acc)
                          <-> In x acc \/ In x l).
  { induction l as [|a l IH]; intros acc; cbn [fold_left].
    - cbn. intuition.
    - rewrite IH, In_insertByDate. cbn [In]. intuition. }
  rewrite H. cbn. intuition.
Qed.

Lemma length_append (a b : string) :
  String.length (a ++ b) = (String.length a + String.length b)%nat.
Proof.
  induction a as [|c a IH]; [reflexivity|].
  simpl. rewrite IH. reflexivity.
Qed.

(** With nine digits or more the phone the search looks for is the
    phone [book_appointment] stores. *)
Lemma search_phone (raw : string) :
  (9 <= String.length (digitsOnly raw))%nat ->
  let p0 := digitsOnly raw in
  let p1 := if String.prefix "0" p0 then "359" ++ dropFirst p0 else p0 in
  let normalizedPhone :=
    if negb (String.prefix "359" p1) && (5 <? Z.of_nat (String.length p1))
    then "359" ++ p1 else p1 in
  (if 9 <=? Z.of_nat (String.length normalizedPhone)
   then Some ("+" ++ normalizedPhone) else None)
  = Some ("+" ++ normalizePhone raw).
Proof.
  intros Hlen p0 p1 normalizedPhone.
  assert (H1 : (9 <= String.length p1)%nat).
  { subst p1. destruct (String.prefix "0" p0); [|exact Hlen].
    rewrite length_append. subst p0.
    destruct (digitsOnly raw) as [|c s]; cbn in *; lia. }
  assert (Hsame : normalizedPhone = normalizePhone raw).
  { subst normalizedPhone. unfold normalizePhone. cbv zeta.
    fold p0. fold p1.
    assert (H5 : (5 <? Z.of_nat (String.length p1)) = true)
      by (apply Z.ltb_lt; lia).
    rewrite H5, andb_true_r. reflexivity. }
  assert (H9 : (9 <=? Z.of_nat (String.length normalizedPhone)) = true).
  { apply Z.leb_le. subst normalizedPhone.
    destruct (negb _ && _); [rewrite length_append|]; cbn; lia. }
  rewrite H9, Hsame. reflexivity.
Qed.

Section Zone.
Variable tz : Z.

(** X21. What [getCustomerAppointments] returns comes from the
    collection, is not cancelled and is not older than a week, by its
    stored string and by the date it parses to; the collection is left as
    it is. *)
Theorem customer_search_sound (now : Z) (phoneOrName : string)
        (c c' : Collection) (found : list Appointment.t) :
  getCustomerAppointments tz now phoneOrName c = (Some found, c') ->
  c' = c
  /\ forall apt : Appointment.t,
       In apt found ->
       In apt (docs c)
       /\ Appointment.status apt <> cancelled
       /\ BookingManager.dateLt (JsDate.parse tz (Appointment.date apt))
                                (Some (now - WEEK_MS)) = false
       /\ exists weekAgoIso,
            JsDate.toISOString (Some (now - WEEK_MS)) = Some weekAgoIso
            /\ String.leb weekAgoIso (Appointment.date apt) = true.
Proof.
  unfold getCustomerAppointments. cbv zeta.
  destruct (JsDate.toISOString (Some (now - WEEK_MS))) as [weekAgoIso|];
    [|discriminate].
  intros [= <- <-]. split; [reflexivity|].
  intros apt Hin. apply filter_In in Hin. destruct Hin as [Hin Hmatch].
  apply (proj1 (In_orderByDate _ _)) in Hin. apply filter_In in Hin.
  destruct Hin as [Hin Hrecent].
  split; [exact Hin|].
  destruct (BookingManager.dateLt _ _) eqn:Hold; [discriminate|].
  cbn [orb] in Hmatch.
  destruct (Appointment.status apt) eqn:Hst; cbn [Status_eqb] in Hmatch;
    try discriminate;
    (split; [discriminate|]; split; [reflexivity|];
     exists weekAgoIso; split; [reflexivity|exact Hrecent]).
Qed.

(** X22. An appointment stored with the phone [book_appointment] makes
    of a number is found by [getCustomerAppointments] with that number,
    in whatever form it is written, when the number has nine digits or
    more and the appointment is not cancelled and not older than a
    week. *)
Theorem customer_found_by_phone (now : Z) (raw weekAgoIso : string)
        (c : Collection) (apt : Appointment.t) :
  (9 <= String.length (digitsOnly raw))%nat ->
  JsDate.toISOString (Some (now - WEEK_MS)) = Some weekAgoIso ->
  In apt (docs c) ->
  Appointment.customerEmail apt = "+" ++ normalizePhone raw ->
  Appointment.status apt <> cancelled ->
  String.leb weekAgoIso (Appointment.date apt) = true ->
  BookingManager.dateLt (JsDate.parse tz (Appointment.date apt))
                        (Some (now - WEEK_MS)) = false ->
  exists found : list Appointment.t,
    getCustomerAppointments tz now raw c = (Some found, c)
    /\ In apt found.
Proof.
  intros Hlen Hiso Hin Hphone Hstatus Hrecent Hnew.
  unfold getCustomerAppointments.
  pose proof (search_phone raw Hlen) as Hsearch. cbv zeta in Hsearch |- *.
  rewrite Hsearch, Hiso. eexists. split; [reflexivity|].
  apply filter_In. split.
  - apply (proj2 (In_orderByDate _ _)). apply filter_In.
    split; assumption.
  - rewrite Hnew. cbn [orb].
    assert (Hst : Status_eqb (Appointment.status apt) cancelled = false)
      by (destruct (Appointment.status apt); try reflexivity;
          contradiction Hstatus; reflexivity).
    rewrite Hst, Hphone, String.eqb_refl. reflexivity.
Qed.

End Zone.
End CustomerSearchFacts.
Module CustomerExamples.
Import VoiceAgent Salon SalonCases AppointmentService.

Lemma customer_search_sound_witness :
  twoAppointments = twoAppointments
  /\ forall apt : Appointment.t,
       In apt [tomorrowAtTen] ->
       In apt (docs twoAppointments)
       /\ Appointment.status apt <> cancelled
       /\ BookingManager.dateLt (JsDate.parse EET (Appointment.date apt))
                                (Some (tenInSofia - WEEK_MS)) = false
       /\ exists weekAgoIso,
            JsDate.toISOString (Some (tenInSofia - WEEK_MS)) = Some weekAgoIso
            /\ String.leb weekAgoIso (Appointment.date apt) = true.
Proof.
  apply (CustomerSearchFacts.customer_search_sound
           EET tenInSofia "0888 000 000" twoAppointments twoAppointments
           [tomorrowAtTen]).
  vm_compute. reflexivity.
Defined.

Lemma customer_found_by_phone_witness :
  exists found : list Appointment.t,
    getCustomerAppointments EET tenInSofia "0888 000 000" twoAppointments
    = (Some found, twoAppointments)
    /\ In tomorrowAtTen found.
Proof.
  apply (CustomerSearchFacts.customer_found_by_phone
           EET tenInSofia "0888 000 000" "2026-01-13T08:00:00.000Z"
           twoAppointments tomorrowAtTen).
  - vm_compute. lia.
  - vm_compute. reflexivity.
  - left. reflexivity.
  - vm_compute. reflexivity.
  - discriminate.
  - vm_compute. reflexivity.
  - vm_compute. reflexivity.
Defined.

(** Capitals are lowered in both alphabets of the names. *)
Lemma toLowerCase_names :
  AppointmentService.toLowerCase "Иван Petrov" = "иван petrov".
Proof. vm_compute. reflexivity. Qed.

End CustomerExamples.

Module LogStoreFacts.
Import ConversationLog LogStore.

Section Store.
Context {Meta : Type} `{EqDecision Meta}.

Lemma arrayUnion_NoDup (e : Event Meta) (l : list (Event Meta)) :
  NoDup l -> NoDup (arrayUnion e l).
Proof.
  intros Hl. unfold arrayUnion. destruct (decide (e ∈ l)) as [Hin|Hout].
  - exact Hl.
  - apply NoDup_app. split; [exact Hl|]. split.
    + intros x Hx Hx'. apply list_elem_of_singleton in Hx'. subst x.
      contradiction.
    + apply NoDup_singleton.
Qed.

Lemma arrayUnion_elem (e x : Event Meta) (l : list (Event Meta)) :
  x ∈ arrayUnion e l <-> x ∈ l \/ x = e.
Proof.
  unfold arrayUnion. destruct (decide (e ∈ l)) as [Hin|Hout].
  - split; [auto|]. intros [Hx | ->]; assumption.
  - rewrite elem_of_app, list_elem_of_singleton. reflexivity.
Qed.

Lemma arrayUnion_length (e : Event Meta) (l : list (Event Meta)) :
  (length l <= length (arrayUnion e l) <= S (length l))%nat.
Proof.
  unfold arrayUnion. destruct (decide (e ∈ l)).
  - lia.
  - rewrite length_app. cbn. lia.
Qed.

(** One send to a log that exists. *)
Lemma add_present (now : Z) (logId : string) (type : EventType)
      (content : string) (metadata : option Meta) (store : gmap string (Log Meta))
      (log : Log Meta) :
  store !! logId = Some log ->
  exists log',
    addConversationEvent now logId type content metadata store !! logId
    = Some log'
    /\ events log' = arrayUnion (mkEvent type content now metadata) (events log)
    /\ toolCalls log'
       = toolCalls log + (match type with tool_call => 1 | _ => 0 end)
    /\ startTime log' = startTime log /\ outcome log' = outcome log
    /\ forall other, other <> logId ->
         addConversationEvent now logId type content metadata store !! other
         = store !! other.
Proof.
  intros Hlog. unfold addConversationEvent. rewrite Hlog.
  eexists. rewrite lookup_insert_eq. split; [reflexivity|].
  cbn [events toolCalls startTime outcome].
  split; [reflexivity|]. split; [destruct type; lia|].
  split; [reflexivity|]. split; [reflexivity|].
  intros other Hother. apply lookup_insert_ne. congruence.
Qed.

(** The count and the frame of a run of sends. *)
Lemma sendAll_counts (logId : string) (sends : list (Send Meta))
      (store : gmap string (Log Meta)) (log : Log Meta) :
  store !! logId = Some log ->
  exists log',
    sendAll logId sends store !! logId = Some log'
    /\ toolCalls log'
       = toolCalls log + Z.of_nat (length (List.filter isToolCall sends))
    /\ startTime log' = startTime log /\ outcome log' = outcome log
    /\ forall other, other <> logId ->
         sendAll logId sends store !! other = store !! other.
Proof.
  revert store log. induction sends as [|s sends IH]; intros store log Hlog.
  - exists log. cbn [sendAll fold_left List.filter length].
    split; [exact Hlog|]. split; [lia|]. auto.
  - destruct (add_present (at_ s) logId (type_ s) (content_ s) (metadata_ s)
                          store log Hlog)
      as (log1 & Hlog1 & _ & Htc1 & Hst1 & Hout1 & Hother1).
    destruct (IH _ log1 Hlog1) as (log' & Hlog' & Htc & Hst & Hout & Hother).
    exists log'. unfold sendAll in *. cbn [fold_left].
    split; [exact Hlog'|]. split.
    { rewrite Htc, Htc1. cbn [List.filter]. unfold isToolCall at 2.
      destruct (type_ s); cbn [length]; lia. }
    split; [congruence|]. split; [congruence|].
    intros other Hne. rewrite Hother by exact Hne. apply Hother1, Hne.
Qed.

(** The events a run of sends leaves. *)
Lemma sendAll_events (logId : string) (sends : list (Send Meta))
      (store : gmap string (Log Meta)) (log log' : Log Meta) :
  store !! logId = Some log -> NoDup (events log) ->
  sendAll logId sends store !! logId = Some log' ->
  NoDup (events log')
  /\ (forall e, e ∈ events log' <-> e ∈ events log \/ e ∈ map sent sends)
  /\ (length (events log) <= length (events log')
      <= length (events log) + length sends)%nat.
Proof.
  revert store log. induction sends as [|s sends IH];
    intros store log Hlog Hnd Hrun.
  - cbn [sendAll fold_left] in Hrun. rewrite Hlog in Hrun.
    injection Hrun as <-. cbn [map length].
    split; [exact Hnd|].
    split; [intros e; split; [auto|intros [He|He]; [exact He|inversion He]]|].
    lia.
  - destruct (add_present (at_ s) logId (type_ s) (content_ s) (metadata_ s)
                          store log Hlog)
      as (log1 & Hlog1 & Hev1 & _).
    assert (Hnd1 : NoDup (events log1))
      by (rewrite Hev1; apply arrayUnion_NoDup, Hnd).
    unfold sendAll in Hrun. cbn [fold_left] in Hrun.
    destruct (IH _ log1 Hlog1 Hnd1 Hrun) as (Hnd' & Hev & Hlen).
    split; [exact Hnd'|]. split.
    { intros e. rewrite Hev, Hev1, arrayUnion_elem. cbn [map].
      rewrite elem_of_cons. fold (sent s). intuition. }
    pose proof (arrayUnion_length (sent s) (events log)) as Hone.
    unfold sent in Hone. rewrite <- Hev1 in Hone. cbn [length]. lia.
Qed.

(** X23. The events sent to a log that exists, one call of
    [addConversationEvent] after the other: [toolCalls] grows by the
    number of tool calls sent, while [events] grows by the events that
    were not yet there -- it never holds an event twice, so two equal tool
    calls logged in the same millisecond are counted twice and stored
    once.  Nothing else of the log and no other log changes. *)
Theorem toolCalls_counts_sends (logId : string) (sends : list (Send Meta))
        (store : gmap string (Log Meta)) (log : Log Meta) :
  store !! logId = Some log -> NoDup (events log) ->
  exists log',
    sendAll logId sends store !! logId = Some log'
    /\ toolCalls log'
       = toolCalls log + Z.of_nat (length (List.filter isToolCall sends))
    /\ NoDup (events log')
    /\ (forall e, e ∈ events log' <-> e ∈ events log \/ e ∈ map sent sends)
    /\ (length (events log) <= length (events log')
        <= length (events log) + length sends)%nat
    /\ startTime log' = startTime log /\ outcome log' = outcome log
    /\ forall other, other <> logId ->
         sendAll logId sends store !! other = store !! other.
Proof.
  intros Hlog Hnd.
  destruct (sendAll_counts logId sends store log Hlog)
    as (log' & Hrun & Htc & Hst & Hout & Hother).
  destruct (sendAll_events logId sends store log log' Hlog Hnd Hrun)
    as (Hnd' & Hev & Hlen).
  exists log'. split; [exact Hrun|]. split; [exact Htc|].
  split; [exact Hnd'|]. split; [exact Hev|]. split; [exact Hlen|].
  split; [exact Hst|]. split; [exact Hout|exact Hother].
Qed.

(** X24. A log from its start to its end: whatever was sent to it in
    between, [endConversationLog] called without a start time stores the
    outcome and the flag it is given, the instant of the end and the
    seconds since the start rounded to the nearest, and keeps the events
    and the count of the tool calls.  Sent to a log that does not exist,
    an event or an end changes nothing. *)
Theorem log_lifecycle (now startedAt finished : Z) (sends : list (Send Meta))
        (result : Outcome) (created : bool) (store : gmap string (Log Meta)) :
  let logId := fst (startConversationLog now startedAt store) in
  let running :=
    sendAll logId sends (snd (startConversationLog now startedAt store)) in
  (exists log before,
      running !! logId = Some before
      /\ endConversationLog finished logId result created None None running
         !! logId = Some log
      /\ outcome log = result /\ bookingCreated log = created
      /\ endTime log = Some finished
      /\ duration log = Some (roundSeconds (finished - startedAt))
      /\ events log = events before /\ toolCalls log = toolCalls before
      /\ toolCalls log = Z.of_nat (length (List.filter isToolCall sends)))
  /\ (forall (missing : string) (t : Z) (type : EventType) (content : string)
             (metadata : option Meta),
         store !! missing = None ->
         addConversationEvent t missing type content metadata store = store
         /\ endConversationLog t missing result created None None store
            = store).
Proof.
  intros logId running. split.
  - assert (Hstart : snd (startConversationLog now startedAt store) !! logId
                     = Some (mkLog logId startedAt None None active [] 0
                                   false None)).
    { subst logId. unfold startConversationLog. cbn [fst snd].
      apply lookup_insert_eq. }
    destruct (sendAll_counts logId sends _ _ Hstart)
      as (before & Hbefore & Htc & Hst & _ & _).
    fold running in Hbefore. cbn [toolCalls startTime events] in Htc, Hst.
    eexists. exists before. split; [exact Hbefore|].
    unfold endConversationLog. rewrite Hbefore. cbn [option_map].
    rewrite lookup_insert_eq. split; [reflexivity|].
    cbn [outcome bookingCreated endTime duration events toolCalls].
    rewrite Hst, Htc. repeat (split; [reflexivity|]). lia.
  - intros missing t type content metadata Hnone.
    unfold addConversationEvent, endConversationLog. rewrite Hnone.
    split; reflexivity.
Qed.

End Store.

Lemma toolCalls_counts_sends_witness :
  exists log' : Log string,
    sendAll (logIdAt 1768896000000) twice opened !! logIdAt 1768896000000
    = Some log'
    /\ toolCalls log' = 2 /\ length (events log') = 1%nat.
Proof.
  destruct (toolCalls_counts_sends
              (logIdAt 1768896000000) twice opened
              (mkLog (logIdAt 1768896000000) 1768896000000 None None active
                     [] 0 false None)
              eq_refl (NoDup_nil_2))
    as (log' & Hlog & Htc & _ & _ & _).
  exists log'. split; [exact Hlog|]. split; [exact Htc|].
  vm_compute in Hlog. injection Hlog as <-. reflexivity.
Defined.

End LogStoreFacts.
Module NextSlotFacts.
Import NextSlot.

Lemma in_range (lo x : Z) (n : nat) :
  lo <= x < lo + Z.of_nat n -> In x (range lo n).
Proof.
  intros Hx. unfold range. apply in_map_iff.
  exists (Z.to_nat (x - lo)). split; [lia|].
  apply in_seq. lia.
Qed.

Lemma every_hour_checked :
  forallb (fun d => forallb (inOpeningHours d) (range 0 24)) (range 0 7)
  = true.
Proof. vm_compute. reflexivity. Qed.

(** X25. The slot the session endpoint tells the model to offer as the
    soonest: it is a full hour between 10:00 and the closing hour of the
    day it is announced for, the closing hour included -- in the last
    open hour of a day the slot offered is the one at which the shop
    closes.  It is announced for today exactly from Monday to Saturday
    before closing, and then lies after the present hour; otherwise it is
    10:00 of a day that is never Sunday. *)
Theorem next_slot_in_opening_hours (dayOfWeek hour : Z) :
  0 <= dayOfWeek <= 6 -> 0 <= hour <= 23 ->
  snd (nextSlot dayOfWeek hour) = decimal (announced dayOfWeek hour) ++ ":00"
  /\ 10 <= announced dayOfWeek hour
  /\ (today (nextSlot dayOfWeek hour) = true <->
      1 <= dayOfWeek /\ hour < closing dayOfWeek)
  /\ (today (nextSlot dayOfWeek hour) = true ->
      hour < announced dayOfWeek hour <= closing dayOfWeek
      /\ fst (nextSlot dayOfWeek hour) = "днес (" ++ day dayOfWeek ++ ")")
  /\ (today (nextSlot dayOfWeek hour) = false ->
      announced dayOfWeek hour = 10
      /\ AppointmentService.contains "неделя" (fst (nextSlot dayOfWeek hour))
         = false)
  /\ (1 <= dayOfWeek -> hour = closing dayOfWeek - 1 ->
      snd (nextSlot dayOfWeek hour) = decimal (closing dayOfWeek) ++ ":00").
Proof.
  intros Hd Hh.
  pose proof every_hour_checked as Hall.
  rewrite forallb_forall in Hall.
  specialize (Hall dayOfWeek (in_range 0 dayOfWeek 7 ltac:(lia))).
  rewrite forallb_forall in Hall.
  specialize (Hall hour (in_range 0 hour 24 ltac:(lia))).
  unfold inOpeningHours in Hall. cbv zeta in Hall.
  apply andb_true_iff in Hall. destruct Hall as [Hall Hcase].
  apply andb_true_iff in Hall. destruct Hall as [Htime Hten].
  apply String.eqb_eq in Htime. apply Z.leb_le in Hten.
  assert (Hlast : 1 <= dayOfWeek -> hour = closing dayOfWeek - 1 ->
                  today (nextSlot dayOfWeek hour) = true ->
                  announced dayOfWeek hour = closing dayOfWeek).
  { intros H1 Heq Htoday. unfold announced. rewrite Htoday.
    assert (H10 : (10 <=? hour) = true)
      by (apply Z.leb_le; unfold closing in Heq;
          destruct (dayOfWeek =? 6); lia).
    rewrite H10. cbn [andb]. lia. }
  destruct (today (nextSlot dayOfWeek hour)) eqn:Htoday.
  - apply andb_true_iff in Hcase. destruct Hcase as [Hcase Hday].
    apply andb_true_iff in Hcase. destruct Hcase as [Hcase Hle].
    apply andb_true_iff in Hcase. destruct Hcase as [Hcase Hlt].
    apply andb_true_iff in Hcase. destruct Hcase as [Hmon Hopen].
    apply String.eqb_eq in Hday.
    apply Z.leb_le in Hle, Hmon. apply Z.ltb_lt in Hlt, Hopen.
    split; [exact Htime|]. split; [exact Hten|].
    split; [split; [intros _; lia|reflexivity]|].
    split; [intros _; split; [lia|exact Hday]|].
    split; [discriminate|].
    intros H1 Heq. rewrite Htime, (Hlast H1 Heq eq_refl). reflexivity.
  - apply andb_true_iff in Hcase. destruct Hcase as [Hclosed Hsunday].
    apply negb_true_iff in Hsunday.
    apply orb_true_iff in Hclosed.
    assert (Hann : announced dayOfWeek hour = 10)
      by (unfold announced; rewrite Htoday; reflexivity).
    split; [exact Htime|]. split; [exact Hten|].
    split.
    { split; [discriminate|]. intros [H1 Hopen].
      destruct Hclosed as [H0|Hc];
        [apply Z.eqb_eq in H0|apply Z.leb_le in Hc]; lia. }
    split; [discriminate|].
    split; [intros _; split; [exact Hann|exact Hsunday]|].
    intros H1 Heq.
    destruct Hclosed as [H0|Hc];
      [apply Z.eqb_eq in H0|apply Z.leb_le in Hc]; lia.
Qed.

(** Friday, between 19:00 and 20:00: the slot offered is 20:00 today. *)
Lemma next_slot_in_opening_hours_witness :
  snd (nextSlot 5 19) = "20:00"
  /\ fst (nextSlot 5 19) = "днес (петък)".
Proof.
  destruct (next_slot_in_opening_hours 5 19 ltac:(lia) ltac:(lia))
    as (_ & _ & _ & Htoday & _ & Hlast).
  split.
  - apply (Hlast ltac:(lia) eq_refl).
  - apply Htoday. reflexivity.
Defined.

End NextSlotFacts.

Module IsoOrderFacts.
Import JsDate.

(** ** The calendar date grows with the day *)

Lemma civilFromDays_lt (z1 z2 : Z) :
  z1 < z2 ->
  exists y1 m1 d1 y2 m2 d2 : Z,
    civilFromDays z1 = (y1, m1, d1) /\ civilFromDays z2 = (y2, m2, d2)
    /\ 1 <= m1 <= 12 /\ 1 <= m2 <= 12 /\ 1 <= d1 <= 31 /\ 1 <= d2 <= 31
    /\ (y1 < y2 \/ y1 = y2 /\ (m1 < m2 \/ m1 = m2 /\ d1 < d2)).
Proof.
  intros Hlt.
  destruct (CalendarFacts.civilFromDays_valid z1) as [Hv1 _].
  destruct (CalendarFacts.civilFromDays_valid z2) as [Hv2 _].
  destruct (CalendarFacts.civilFromDays_parts z1)
    as (era1 & yoe1 & doy1 & mp1 & m1 & c1 & Hz1 & Hy1 & Hd1 & Hleap1 & Hmp1
        & Hr1 & Hm1 & Hmr1 & E1).
  destruct (CalendarFacts.civilFromDays_parts z2)
    as (era2 & yoe2 & doy2 & mp2 & m2 & c2 & Hz2 & Hy2 & Hd2 & Hleap2 & Hmp2
        & Hr2 & Hm2 & Hmr2 & E2).
  rewrite E1 in Hv1. rewrite E2 in Hv2. cbn [fst snd] in Hv1, Hv2.
  assert (Hday : forall y m d, validYMD y m d = true -> 1 <= d <= 31).
  { intros y m d Hv. unfold validYMD, daysInMonth in Hv.
    rewrite !andb_true_iff, !Z.leb_le in Hv.
    destruct Hv as [[_ Hlo] Hhi].
    destruct (m =? 2); [destruct (isLeap y); lia|].
    destruct (_ || _); lia. }
  pose proof (Hday _ _ _ Hv1) as Hday1. pose proof (Hday _ _ _ Hv2) as Hday2.
  clear Hv1 Hv2 Hday.
  exists (yoe1 + era1 * 400 + c1), m1, (doy1 - (153 * mp1 + 2) / 5 + 1),
         (yoe2 + era2 * 400 + c2), m2, (doy2 - (153 * mp2 + 2) / 5 + 1).
  split; [exact E1|]. split; [exact E2|].
  split; [exact Hmr1|]. split; [exact Hmr2|].
  split; [exact Hday1|]. split; [exact Hday2|].
  clear E1 E2 Hday1 Hday2.
  (* the years counted from March, and the days of those years *)
  assert (Hyear : yoe1 + era1 * 400 < yoe2 + era2 * 400
                  \/ (yoe1 = yoe2 /\ era1 = era2 /\ doy1 < doy2)).
  { assert (Hleap1' : doy1 <= 364
                      \/ (yoe1 + 1) mod 4 = 0
                         /\ ((yoe1 + 1) mod 100 <> 0 \/ yoe1 = 399))
      by (destruct (Z.eq_dec doy1 365) as [H365|H365];
          [right; apply Hleap1, H365|left; lia]).
    clear Hleap1 Hleap2 Hmp1 Hmp2 Hm1 Hm2 Hmr1 Hmr2 Hr1 Hr2.
    destruct (Z.lt_trichotomy era1 era2) as [He|[He|He]].
    - left. lia.
    - subst era2. destruct (Z.lt_trichotomy yoe1 yoe2) as [Hy|[Hy|Hy]].
      + left. lia.
      + right. subst yoe2. lia.
      + exfalso. clear Hleap1'. Z.div_mod_to_equations. lia.
    - exfalso. clear Hleap1'. Z.div_mod_to_equations. lia. }
  clear Hz1 Hz2 Hlt Hleap1 Hleap2.
  destruct Hyear as [Hyear|(-> & -> & Hdoy)].
  - (* an earlier year from March: an earlier month of the calendar *)
    assert (Hmonth : (yoe1 + era1 * 400 + c1) * 12 + m1
                     < (yoe2 + era2 * 400 + c2) * 12 + m2)
      by (destruct Hm1 as [(? & ? & ?)|(? & ? & ?)];
          destruct Hm2 as [(? & ? & ?)|(? & ? & ?)]; lia).
    lia.
  - subst mp1 mp2.
    assert (Hmp : (5 * doy1 + 2) / 153 < (5 * doy2 + 2) / 153
                  \/ (5 * doy1 + 2) / 153 = (5 * doy2 + 2) / 153)
      by (Z.div_mod_to_equations; lia).
    destruct Hmp as [Hmp|Hmp].
    + assert (Hmonth : (yoe2 + era2 * 400 + c1) * 12 + m1
                       < (yoe2 + era2 * 400 + c2) * 12 + m2)
        by (destruct Hm1 as [(? & ? & ?)|(? & ? & ?)];
            destruct Hm2 as [(? & ? & ?)|(? & ? & ?)]; lia).
      lia.
    + rewrite <- Hmp in *.
      assert (Hsame : c1 = c2 /\ m1 = m2)
        by (destruct Hm1 as [(? & ? & ?)|(? & ? & ?)];
            destruct Hm2 as [(? & ? & ?)|(? & ? & ?)]; lia).
      destruct Hsame as [-> ->]. right. split; [reflexivity|].
      right. split; [reflexivity|lia].
Qed.

Lemma civilFromDays_bounds (z : Z) :
  -719528 <= z < 2932897 ->
  exists y m d : Z,
    civilFromDays z = (y, m, d)
    /\ 0 <= y <= 9999 /\ 1 <= m <= 12 /\ 1 <= d <= 31.
Proof.
  intros Hz.
  pose proof (CalendarFacts.civilFromDays_year z Hz) as Hy.
  destruct (CalendarFacts.civilFromDays_valid z) as [Hv _].
  destruct (civilFromDays z) as [[y m] d]. cbn [fst snd] in *.
  exists y, m, d. split; [reflexivity|]. split; [exact Hy|].
  unfold validYMD, daysInMonth in Hv.
  rewrite !andb_true_iff, !Z.leb_le in Hv.
  destruct Hv as [[[Hm1 Hm2] Hlo] Hhi].
  split; [lia|].
  destruct (m =? 2); [destruct (isLeap y); lia|].
  destruct (_ || _); lia.
Qed.

(** ** The order of the strings [toISOString] writes *)

Lemma compare_digit (x y : Z) (r1 r2 : string) :
  String.compare (String (digitChar x) r1) (String (digitChar y) r2)
  = match x mod 10 ?= y mod 10 with
    | Eq => String.compare r1 r2
    | c => c
    end.
Proof.
  cbn [String.compare]. unfold Ascii.compare, digitChar.
  assert (Hx : 0 <= x mod 10 < 10) by (apply Z.mod_pos_bound; lia).
  assert (Hy : 0 <= y mod 10 < 10) by (apply Z.mod_pos_bound; lia).
  rewrite !N_ascii_embedding by lia.
  rewrite Z2N.inj_compare by lia.
  rewrite Z.add_compare_mono_l. reflexivity.
Qed.

Lemma leb_digit (x y : Z) (r1 r2 : string) :
  x mod 10 < y mod 10 \/ x mod 10 = y mod 10 /\ String.leb r1 r2 = true ->
  String.leb (String (digitChar x) r1) (String (digitChar y) r2) = true.
Proof.
  intros H. unfold String.leb. rewrite compare_digit.
  destruct H as [Hlt|[Heq Hr]].
  - apply Z.compare_lt_iff in Hlt. rewrite Hlt. reflexivity.
  - apply Z.compare_eq_iff in Heq. rewrite Heq. exact Hr.
Qed.

Lemma leb_same (c : ascii) (r1 r2 : string) :
  String.leb r1 r2 = true -> String.leb (String c r1) (String c r2) = true.
Proof.
  intros H. unfold String.leb. cbn [String.compare].
  unfold Ascii.compare. rewrite N.compare_refl. exact H.
Qed.

Lemma leb_refl (s : string) : String.leb s s = true.
Proof. induction s as [|c s IH]; [reflexivity|apply leb_same, IH]. Qed.

Lemma leb_pad2 (a b : Z) (r1 r2 : string) :
  0 <= a < 100 -> 0 <= b < 100 ->
  a < b \/ a = b /\ String.leb r1 r2 = true ->
  String.leb (pad2 a ++ r1) (pad2 b ++ r2) = true.
Proof.
  intros Ha Hb H.
  change (pad2 a ++ r1)
    with (String (digitChar (a / 10)) (String (digitChar a) r1)).
  change (pad2 b ++ r2)
    with (String (digitChar (b / 10)) (String (digitChar b) r2)).
  apply leb_digit.
  destruct (Z.lt_trichotomy ((a / 10) mod 10) ((b / 10) mod 10))
    as [Hq|[Hq|Hq]].
  - left. exact Hq.
  - right. split; [exact Hq|]. apply leb_digit.
    destruct H as [Hlt|[Heq Hr]].
    + left. clear -Ha Hb Hq Hlt. Z.div_mod_to_equations. lia.
    + right. split; [subst b; reflexivity|exact Hr].
  - exfalso. assert (Hle : a <= b) by (destruct H as [?|[? _]]; lia).
    clear -Ha Hb Hq Hle. Z.div_mod_to_equations. lia.
Qed.

Lemma leb_pad3 (a b : Z) (r1 r2 : string) :
  0 <= a < 1000 -> 0 <= b < 1000 ->
  a < b \/ a = b /\ String.leb r1 r2 = true ->
  String.leb (pad3 a ++ r1) (pad3 b ++ r2) = true.
Proof.
  intros Ha Hb H.
  change (pad3 a ++ r1)
    with (String (digitChar (a / 100)) (pad2 (a mod 100) ++ r1)).
  change (pad3 b ++ r2)
    with (String (digitChar (b / 100)) (pad2 (b mod 100) ++ r2)).
  apply leb_digit.
  destruct (Z.lt_trichotomy ((a / 100) mod 10) ((b / 100) mod 10))
    as [Hq|[Hq|Hq]].
  - left. exact Hq.
  - right. split; [exact Hq|].
    apply leb_pad2; try (apply Z.mod_pos_bound; lia).
    destruct H as [Hlt|[Heq Hr]].
    + left. clear -Ha Hb Hq Hlt. Z.div_mod_to_equations. lia.
    + right. split; [subst b; reflexivity|exact Hr].
  - exfalso. assert (Hle : a <= b) by (destruct H as [?|[? _]]; lia).
    clear -Ha Hb Hq Hle. Z.div_mod_to_equations. lia.
Qed.

Lemma leb_pad4 (a b : Z) (r1 r2 : string) :
  0 <= a < 10000 -> 0 <= b < 10000 ->
  a < b \/ a = b /\ String.leb r1 r2 = true ->
  String.leb (pad4 a ++ r1) (pad4 b ++ r2) = true.
Proof.
  intros Ha Hb H.
  change (pad4 a ++ r1)
    with (String (digitChar (a / 1000)) (pad3 (a mod 1000) ++ r1)).
  change (pad4 b ++ r2)
    with (String (digitChar (b / 1000)) (pad3 (b mod 1000) ++ r2)).
  apply leb_digit.
  destruct (Z.lt_trichotomy ((a / 1000) mod 10) ((b / 1000) mod 10))
    as [Hq|[Hq|Hq]].
  - left. exact Hq.
  - right. split; [exact Hq|].
    apply leb_pad3; try (apply Z.mod_pos_bound; lia).
    destruct H as [Hlt|[Heq Hr]].
    + left. clear -Ha Hb Hq Hlt. Z.div_mod_to_equations. lia.
    + right. split; [subst b; reflexivity|exact Hr].
  - exfalso. assert (Hle : a <= b) by (destruct H as [?|[? _]]; lia).
    clear -Ha Hb Hq Hle. Z.div_mod_to_equations. lia.
Qed.

(** The text of [toISOString] from the fields. *)
Lemma render_leb (y1 m1 d1 h1 n1 s1 f1 y2 m2 d2 h2 n2 s2 f2 : Z) :
  0 <= y1 < 10000 -> 0 <= y2 < 10000 -> 0 <= m1 < 100 -> 0 <= m2 < 100 ->
  0 <= d1 < 100 -> 0 <= d2 < 100 -> 0 <= h1 < 100 -> 0 <= h2 < 100 ->
  0 <= n1 < 100 -> 0 <= n2 < 100 -> 0 <= s1 < 100 -> 0 <= s2 < 100 ->
  0 <= f1 < 1000 -> 0 <= f2 < 1000 ->
  (y1 < y2 \/ y1 = y2 /\
   (m1 < m2 \/ m1 = m2 /\
    (d1 < d2 \/ d1 = d2 /\
     (h1 < h2 \/ h1 = h2 /\
      (n1 < n2 \/ n1 = n2 /\
       (s1 < s2 \/ s1 = s2 /\ f1 <= f2)))))) ->
  String.leb
    (pad4 y1 ++ "-" ++ pad2 m1 ++ "-" ++ pad2 d1 ++ "T" ++ pad2 h1 ++ ":"
     ++ pad2 n1 ++ ":" ++ pad2 s1 ++ "." ++ pad3 f1 ++ "Z")
    (pad4 y2 ++ "-" ++ pad2 m2 ++ "-" ++ pad2 d2 ++ "T" ++ pad2 h2 ++ ":"
     ++ pad2 n2 ++ ":" ++ pad2 s2 ++ "." ++ pad3 f2 ++ "Z")
  = true.
Proof.
  intros Hy1 Hy2 Hm1 Hm2 Hd1 Hd2 Hh1 Hh2 Hn1 Hn2 Hs1 Hs2 Hf1 Hf2 H.
  apply leb_pad4; [exact Hy1|exact Hy2|].
  destruct H as [H|[Heq H]]; [left; exact H|right; split; [exact Heq|]].
  apply (leb_same "-"). apply leb_pad2; [exact Hm1|exact Hm2|].
  destruct H as [H|[Heq' H]]; [left; exact H|right; split; [exact Heq'|]].
  apply (leb_same "-"). apply leb_pad2; [exact Hd1|exact Hd2|].
  destruct H as [H|[Heq'' H]]; [left; exact H|right; split; [exact Heq''|]].
  apply (leb_same "T"). apply leb_pad2; [exact Hh1|exact Hh2|].
  destruct H as [H|[Eh H]]; [left; exact H|right; split; [exact Eh|]].
  apply (leb_same ":"). apply leb_pad2; [exact Hn1|exact Hn2|].
  destruct H as [H|[En H]]; [left; exact H|right; split; [exact En|]].
  apply (leb_same ":"). apply leb_pad2; [exact Hs1|exact Hs2|].
  destruct H as [H|[Es H]]; [left; exact H|right; split; [exact Es|]].
  apply (leb_same "."). apply leb_pad3; [exact Hf1|exact Hf2|].
  destruct (Z.eq_dec f1 f2) as [Ef|Ef].
  - right. split; [exact Ef|reflexivity].
  - left. lia.
Qed.

(** The strings of [toISOString] are ordered as the instants are, for
    the years 0 to 9999. *)
Lemma toISOString_le (t1 t2 : Z) :
  Iso.isoRange t1 -> Iso.isoRange t2 -> t1 <= t2 ->
  exists s1 s2 : string,
    toISOString (Some t1) = Some s1 /\ toISOString (Some t2) = Some s2
    /\ String.leb s1 s2 = true.
Proof.
  unfold Iso.isoRange. intros Hr1 Hr2 Hle.
  unfold toISOString, dayOf, msOfDay, zoned.
  change (0 * MS_PER_MINUTE) with 0. rewrite !Z.add_0_r.
  unfold MS_PER_DAY, MS_PER_HOUR, MS_PER_MINUTE.
  assert (Hz1 : -719528 <= t1 / 86400000 < 2932897)
    by (clear -Hr1; Z.div_mod_to_equations; lia).
  assert (Hz2 : -719528 <= t2 / 86400000 < 2932897)
    by (clear -Hr2; Z.div_mod_to_equations; lia).
  assert (Hdays : t1 / 86400000 < t2 / 86400000
                  \/ t1 / 86400000 = t2 / 86400000
                     /\ t1 mod 86400000 <= t2 mod 86400000)
    by (clear -Hle; Z.div_mod_to_equations; lia).
  assert (Hms1 : 0 <= t1 mod 86400000 < 86400000)
    by (apply Z.mod_pos_bound; lia).
  assert (Hms2 : 0 <= t2 mod 86400000 < 86400000)
    by (apply Z.mod_pos_bound; lia).
  set (a1 := t1 mod 86400000) in *. set (a2 := t2 mod 86400000) in *.
  destruct (civilFromDays_bounds _ Hz1) as (y1 & m1 & d1 & E1 & By1 & Bm1 & Bd1).
  destruct (civilFromDays_bounds _ Hz2) as (y2 & m2 & d2 & E2 & By2 & Bm2 & Bd2).
  assert (Hdate : y1 < y2 \/ y1 = y2 /\
                  (m1 < m2 \/ m1 = m2 /\
                   (d1 < d2 \/ d1 = d2 /\ a1 <= a2))).
  { destruct Hdays as [Hlt|[Heq Ha]].
    - destruct (civilFromDays_lt _ _ Hlt)
        as (y1' & m1' & d1' & y2' & m2' & d2' & E1' & E2' & _ & _ & _ & _ & H).
      rewrite E1 in E1'. rewrite E2 in E2'.
      injection E1' as <- <- <-. injection E2' as <- <- <-.
      destruct H as [H|[-> [H|[-> H]]]]; [left; exact H| |].
      + right. split; [reflexivity|]. left. exact H.
      + right. split; [reflexivity|]. right. split; [reflexivity|].
        left. exact H.
    - rewrite Heq in E1. rewrite E1 in E2. injection E2 as <- <- <-.
      right. split; [reflexivity|]. right. split; [reflexivity|].
      right. split; [reflexivity|exact Ha]. }
  rewrite E1, E2. clearbody a1 a2. clear E1 E2 Hdays Hz1 Hz2 Hr1 Hr2 Hle.
  eexists. eexists. split; [reflexivity|]. split; [reflexivity|].
  apply render_leb; try lia;
    try (clear -Hms1; Z.div_mod_to_equations; lia);
    try (clear -Hms2; Z.div_mod_to_equations; lia).
  destruct Hdate as [H|[-> [H|[-> [H|[-> H]]]]]]; [left; exact H| | |].
  - right. split; [reflexivity|]. left. exact H.
  - right. split; [reflexivity|]. right. split; [reflexivity|].
    left. exact H.
  - right. split; [reflexivity|]. right. split; [reflexivity|].
    right. split; [reflexivity|].
    clear -Hms1 Hms2 H.
    destruct (Z.lt_trichotomy (a1 / 3600000) (a2 / 3600000)) as [Hh|[Hh|Hh]];
      [left; exact Hh| |exfalso; Z.div_mod_to_equations; lia].
    right. split; [exact Hh|].
    destruct (Z.lt_trichotomy ((a1 / 60000) mod 60) ((a2 / 60000) mod 60))
      as [Hn|[Hn|Hn]];
      [left; exact Hn| |exfalso; Z.div_mod_to_equations; lia].
    right. split; [exact Hn|].
    destruct (Z.lt_trichotomy ((a1 / 1000) mod 60) ((a2 / 1000) mod 60))
      as [Hs|[Hs|Hs]];
      [left; exact Hs| |exfalso; Z.div_mod_to_equations; lia].
    right. split; [exact Hs|]. Z.div_mod_to_equations. lia.
Qed.

End IsoOrderFacts.
Module DayLoadFacts.
Import JsDate AppointmentService.

Lemma length_chars (s : string) :
  length (list_ascii_of_string s) = String.length s.
Proof. induction s as [|c s IH]; [reflexivity|]. cbn. rewrite IH. reflexivity. Qed.

Lemma digit_range (c : ascii) (d : Z) : digit c = Some d -> 0 <= d <= 9.
Proof.
  unfold digit. destruct (_ && _) eqn:H; [|discriminate].
  apply andb_true_iff in H. rewrite !Z.leb_le in H. intros [= <-]. lia.
Qed.

Lemma parseHM_range (cs : list ascii) (hm : Z) :
  parseHM cs = Some hm -> 0 <= hm < MS_PER_DAY.
Proof.
  unfold parseHM.
  destruct cs as [|h1 [|h2 [|s [|n1 [|n2 [|x cs]]]]]]; try discriminate.
  destruct (Ascii.eqb s ":"%char); [|discriminate].
  cbn [digitsFrom].
  destruct (digit h1) as [a|] eqn:Ha; [|discriminate].
  destruct (digit h2) as [b|] eqn:Hb; [|discriminate].
  destruct (digit n1) as [c|] eqn:Hc; [|discriminate].
  destruct (digit n2) as [d|] eqn:Hd; [|discriminate].
  apply digit_range in Ha, Hb, Hc, Hd.
  destruct (_ && _) eqn:Hok; [|discriminate].
  apply andb_true_iff in Hok. rewrite !Z.leb_le in Hok.
  intros [= <-]. unfold MS_PER_HOUR, MS_PER_MINUTE, MS_PER_DAY. lia.
Qed.

(** The local date and time of a booking, and the date alone: the date
    alone is read as the midnight of UTC. *)
Lemma parse_split (tz : Z) (date time : string) (t : Z) :
  String.length date = 10%nat -> String.length time = 5%nat ->
  parse tz (date ++ "T" ++ time) = Some t ->
  exists days hm : Z,
    parse tz date = Some (days * MS_PER_DAY)
    /\ 0 <= hm < MS_PER_DAY
    /\ t = days * MS_PER_DAY + hm - tz * MS_PER_MINUTE.
Proof.
  intros Hdate Htime. unfold parse.
  rewrite CalendarFacts.list_ascii_app.
  change (list_ascii_of_string ("T" ++ time))
    with ("T"%char :: list_ascii_of_string time).
  rewrite <- length_chars in Hdate, Htime.
  destruct (list_ascii_of_string date)
    as [|c1 [|c2 [|c3 [|c4 [|c5 [|c6 [|c7 [|c8 [|c9 [|c10 [|x ld]]]]]]]]]]];
    try discriminate Hdate.
  destruct (list_ascii_of_string time)
    as [|t1 [|t2 [|t3 [|t4 [|t5 [|y lt]]]]]]; try discriminate Htime.
  cbn [app firstn skipn].
  destruct (parseYMD [c1; c2; c3; c4; c5; c6; c7; c8; c9; c10]) as [days|];
    [|discriminate].
  change (Ascii.eqb "T"%char "T"%char) with true. cbv iota.
  destruct (parseHM [t1; t2; t3; t4; t5]) as [hm|] eqn:Hhm; [|discriminate].
  intros [= <-]. exists days, hm. split; [reflexivity|].
  split; [apply (parseHM_range _ _ Hhm)|reflexivity].
Qed.

Lemma leb_antisym (a b : string) :
  String.leb a b = true -> String.leb b a = true -> a = b.
Proof.
  unfold String.leb. intros Hab Hba.
  rewrite String.compare_antisym in Hba.
  destruct (String.compare a b) eqn:Hc; cbn in Hba; try discriminate.
  apply String.compare_eq_iff, Hc.
Qed.

(** Strictly later instants have strictly later strings. *)
Lemma toISOString_lt (t1 t2 : Z) (s1 s2 : string) :
  Iso.isoRange t1 -> Iso.isoRange t2 -> t1 < t2 ->
  toISOString (Some t1) = Some s1 -> toISOString (Some t2) = Some s2 ->
  String.leb s2 s1 = false.
Proof.
  intros Hr1 Hr2 Hlt E1 E2.
  destruct (IsoOrderFacts.toISOString_le t1 t2 Hr1 Hr2 ltac:(lia))
    as (s1' & s2' & E1' & E2' & Hle).
  rewrite E1 in E1'. rewrite E2 in E2'.
  injection E1' as <-. injection E2' as <-.
  destruct (String.leb s2 s1) eqn:Hge; [|reflexivity].
  exfalso. pose proof (leb_antisym s1 s2 Hle Hge) as Heq. subst s2.
  destruct (CalendarFacts.parse_toISOString 0 t1 Hr1) as (i1 & F1 & P1).
  destruct (CalendarFacts.parse_toISOString 0 t2 Hr2) as (i2 & F2 & P2).
  rewrite E1 in F1. rewrite E2 in F2.
  injection F1 as <-. injection F2 as <-.
  rewrite P1 in P2. injection P2 as Heq. lia.
Qed.

Section Zone.
Variable tz : Z.

(** The bounds of [loadAppointmentsForDateRange] around a date read as
    the midnight of UTC. *)
Lemma load_bounds (barberId date : string) (days : Z) (c : Collection) :
  parse tz date = Some (days * MS_PER_DAY) ->
  loadAppointmentsForDateRange tz barberId date c
  = getAppointments
      (Some barberId)
      (Some (Some (dayOf tz (days * MS_PER_DAY) * MS_PER_DAY
                   - tz * MS_PER_MINUTE)))
      (Some (Some (dayOf tz (days * MS_PER_DAY) * MS_PER_DAY
                   - tz * MS_PER_MINUTE + (MS_PER_DAY - 1))))
      c.
Proof.
  intros Hparse. unfold loadAppointmentsForDateRange. rewrite Hparse.
  cbn [option_map]. unfold setHours.
  f_equal; do 2 f_equal; unfold MS_PER_DAY, MS_PER_HOUR, MS_PER_MINUTE; lia.
Qed.

(** What [getAppointments] keeps between two instants. *)
Lemma getAppointments_between (barberId : string) (lo hi : Z)
      (slo shi : string) (c : Collection) :
  toISOString (Some lo) = Some slo -> toISOString (Some hi) = Some shi ->
  getAppointments (Some barberId) (Some (Some lo)) (Some (Some hi)) c
  = (Some (orderByDate
             (List.filter
                (fun a =>
                   (if truthy (Some barberId)
                    then String.eqb (Appointment.barberId a) barberId
                    else true)
                   && String.leb slo (Appointment.date a)
                   && String.leb (Appointment.date a) shi)
                (docs c))), c).
Proof.
  intros Hlo Hhi. unfold getAppointments, isoBound. rewrite Hlo, Hhi.
  reflexivity.
Qed.

(** An appointment kept by the test of the query is in the result. *)
Lemma kept_is_loaded (barberId : string) (lo hi : Z) (slo shi : string)
      (apt : Appointment.t) (c : Collection) :
  toISOString (Some lo) = Some slo -> toISOString (Some hi) = Some shi ->
  Appointment.barberId apt = barberId ->
  String.leb slo (Appointment.date apt) = true ->
  String.leb (Appointment.date apt) shi = true ->
  In apt (docs c) ->
  exists loaded : list Appointment.t,
    getAppointments (Some barberId) (Some (Some lo)) (Some (Some hi)) c
    = (Some loaded, c)
    /\ In apt loaded.
Proof.
  intros Elo Ehi Hb Hlo Hhi Hin.
  rewrite (getAppointments_between _ lo _ slo shi c Elo Ehi).
  eexists. split; [reflexivity|].
  apply (proj2 (CustomerSearchFacts.In_orderByDate _ _)).
  apply filter_In. split; [exact Hin|].
  rewrite Hlo, Hhi, Hb.
  destruct (truthy (Some barberId)); [rewrite String.eqb_refl|]; reflexivity.
Qed.

(** In a zone at or east of UTC, the string stored for a date and a time
    of day lies between the strings of the first and the last millisecond
    of that local day. *)
Lemma stored_within_day (date time iso : string) :
  0 <= tz < 1440 ->
  String.length date = 10%nat -> String.length time = 5%nat ->
  (exists t, parse tz (date ++ "T" ++ time) = Some t
             /\ Iso.isoRange (t - MS_PER_DAY)
             /\ Iso.isoRange (t + MS_PER_DAY)) ->
  Iso.storedDate tz date time = Some iso ->
  exists (days : Z) (slo shi : string),
    parse tz date = Some (days * MS_PER_DAY)
    /\ dayOf tz (days * MS_PER_DAY) = days
    /\ toISOString (Some (days * MS_PER_DAY - tz * MS_PER_MINUTE)) = Some slo
    /\ toISOString (Some (days * MS_PER_DAY - tz * MS_PER_MINUTE
                          + (MS_PER_DAY - 1))) = Some shi
    /\ String.leb slo iso = true /\ String.leb iso shi = true.
Proof.
  intros Htz Hdate Htime (t & Ht & Hbefore & Hafter) Hstored.
  destruct (parse_split tz date time t Hdate Htime Ht)
    as (days & hm & Hday & Hhm & ->).
  assert (Hdayof : dayOf tz (days * MS_PER_DAY) = days).
  { unfold dayOf, zoned, MS_PER_DAY, MS_PER_MINUTE. clear -Htz.
    Z.div_mod_to_equations. lia. }
  unfold Iso.storedDate in Hstored. rewrite Ht in Hstored.
  exists days.
  unfold Iso.isoRange, MS_PER_DAY, MS_PER_MINUTE in *.
  set (lo := days * 86400000 - tz * 60000) in *.
  assert (Rlo : Iso.isoRange lo) by (unfold Iso.isoRange; lia).
  assert (Rt : Iso.isoRange (days * 86400000 + hm - tz * 60000))
    by (unfold Iso.isoRange; lia).
  assert (Rhi : Iso.isoRange (lo + (86400000 - 1)))
    by (unfold Iso.isoRange; lia).
  destruct (IsoOrderFacts.toISOString_le _ _ Rlo Rt ltac:(lia))
    as (slo & st & Elo & Et & Hlo).
  destruct (IsoOrderFacts.toISOString_le _ _ Rt Rhi ltac:(lia))
    as (st' & shi & Et' & Ehi & Hhi).
  rewrite Et in Et'. injection Et' as <-.
  rewrite Et in Hstored. injection Hstored as <-.
  exists slo, shi.
  split; [exact Hday|]. split; [exact Hdayof|]. split; [exact Elo|].
  split; [exact Ehi|]. split; [exact Hlo|exact Hhi].
Qed.

(** X26. What is stored is read back: in a zone at or east of UTC, an
    appointment stored for a date and a time of day, as [book_appointment]
    and [rescheduleAppointment] store it, is among the appointments
    [loadAppointmentsForDateRange] returns for its barber and that
    date. *)
Theorem stored_appointment_is_loaded (date time : string)
        (apt : Appointment.t) (c : Collection) :
  0 <= tz < 1440 ->
  String.length date = 10%nat -> String.length time = 5%nat ->
  (exists t, parse tz (date ++ "T" ++ time) = Some t
             /\ Iso.isoRange (t - MS_PER_DAY)
             /\ Iso.isoRange (t + MS_PER_DAY)) ->
  Iso.storedDate tz date time = Some (Appointment.date apt) ->
  In apt (docs c) ->
  exists loaded : list Appointment.t,
    loadAppointmentsForDateRange tz (Appointment.barberId apt) date c
    = (Some loaded, c)
    /\ In apt loaded.
Proof.
  intros Htz Hdate Htime Hvalid Hstored Hin.
  destruct (stored_within_day date time _ Htz Hdate Htime Hvalid Hstored)
    as (days & slo & shi & Hday & Hdayof & Elo & Ehi & Hlo & Hhi).
  rewrite (load_bounds _ _ days c Hday), Hdayof.
  exact (kept_is_loaded _ _ _ slo shi apt c Elo Ehi eq_refl Hlo Hhi Hin).
Qed.

(** X27. West of UTC the day that is read is the day before: the date
    alone is read as the midnight of UTC, which is the evening before in
    such a zone, and [loadAppointmentsForDateRange] loads that local day.
    An appointment stored for the date and a time of day is then not among
    the appointments loaded for that date. *)
Theorem west_of_utc_day_before (date time : string)
        (apt : Appointment.t) (c : Collection) :
  -1440 < tz < 0 ->
  String.length date = 10%nat -> String.length time = 5%nat ->
  (exists t, parse tz (date ++ "T" ++ time) = Some t
             /\ Iso.isoRange (t - 2 * MS_PER_DAY)
             /\ Iso.isoRange (t + MS_PER_DAY)) ->
  Iso.storedDate tz date time = Some (Appointment.date apt) ->
  exists loaded : list Appointment.t,
    loadAppointmentsForDateRange tz (Appointment.barberId apt) date c
    = (Some loaded, c)
    /\ ~ In apt loaded.
Proof.
  intros Htz Hdate Htime (t & Ht & Hbefore & Hafter) Hstored.
  destruct (parse_split tz date time t Hdate Htime Ht)
    as (days & hm & Hday & Hhm & ->).
  rewrite (load_bounds _ _ days c Hday).
  assert (Hdayof : dayOf tz (days * MS_PER_DAY) = days - 1).
  { unfold dayOf, zoned, MS_PER_DAY, MS_PER_MINUTE. clear -Htz.
    Z.div_mod_to_equations. lia. }
  rewrite Hdayof.
  unfold Iso.storedDate in Hstored. rewrite Ht in Hstored.
  unfold Iso.isoRange, MS_PER_DAY, MS_PER_MINUTE in *.
  set (lo := (days - 1) * 86400000 - tz * 60000) in *.
  assert (Rlo : Iso.isoRange lo) by (unfold Iso.isoRange; lia).
  assert (Rt : Iso.isoRange (days * 86400000 + hm - tz * 60000))
    by (unfold Iso.isoRange; lia).
  assert (Rhi : Iso.isoRange (lo + (86400000 - 1)))
    by (unfold Iso.isoRange; lia).
  destruct (CalendarFacts.parse_toISOString 0 _ Rlo) as (slo & Elo & _).
  destruct (CalendarFacts.parse_toISOString 0 _ Rhi) as (shi & Ehi & _).
  destruct (CalendarFacts.parse_toISOString 0 _ Rt) as (st & Et & _).
  rewrite Et in Hstored. injection Hstored as Hiso.
  pose proof (toISOString_lt _ _ shi st Rhi Rt ltac:(lia) Ehi Et) as Hlate.
  rewrite (getAppointments_between _ lo _ slo shi c Elo Ehi).
  eexists. split; [reflexivity|].
  intros Hin. apply (proj1 (CustomerSearchFacts.In_orderByDate _ _)) in Hin.
  apply filter_In in Hin. destruct Hin as [_ Hkeep].
  rewrite <- Hiso, Hlate in Hkeep. rewrite andb_false_r in Hkeep.
  discriminate.
Qed.

End Zone.
End DayLoadFacts.
Module RebookingFacts.
Import VoiceAgent.

Lemma slot_length (t : string) : In t TIME_SLOTS -> String.length t = 5%nat.
Proof.
  unfold TIME_SLOTS. cbn [In].
  intros H. repeat (destruct H as [<-|H]; [reflexivity|]). contradiction.
Qed.

Section Component.
Variables tz : Z.
Variable barbers : list Barber.t.
Variable services : list Service.t.

Lemma slotFree_taken (a : Args) (appointments : list Appointment.t) :
  BookingManager.isSlotAvailable tz (tpl (time a)) (default "" (date a))
                                 (default "" (barberId a)) appointments
  = false ->
  slotFree tz a appointments = false.
Proof.
  intros Htaken. unfold slotFree.
  destruct (time a) as [t|]; [|reflexivity].
  change (tpl (Some t)) with t in Htaken.
  unfold includes.
  destruct (existsb (String.eqb t) _) eqn:Hex; [|reflexivity].
  apply existsb_exists in Hex. destruct Hex as (x & Hin & Heq).
  apply String.eqb_eq in Heq. subst x.
  unfold BookingManager.getFreeSlots in Hin. apply filter_In in Hin.
  destruct Hin as [_ Hfree]. rewrite Htaken in Hfree. discriminate.
Qed.

(** X28. A slot booked through the agent is refused to the next
    customer once the read goes to the backend.  In a zone at or east of
    UTC, after [book_appointment] has answered with the id of a new
    appointment for a date written YYYY-MM-DD, a later [book_appointment]
    for the same barber, date and time -- with no fresh cache entry for
    them, the appointment still in the collection and the backend
    answering in time -- fails with "slot taken" and stores nothing. *)
Theorem taken_slot_refused_after_expiry (a later : Args) (w w2 : World)
        (id message : string) (latency : Z) (rest : list Net) :
  fst (book_appointment tz barbers services a w)
  = Ok (Success (Some id) message) ->
  id <> "duplicate" ->
  0 <= tz < 1440 -> String.length (tpl (date a)) = 10%nat ->
  (exists t,
      JsDate.parse tz (tpl (date a) ++ "T" ++ tpl (time a)) = Some t
      /\ Iso.isoRange (t - JsDate.MS_PER_DAY)
      /\ Iso.isoRange (t + JsDate.MS_PER_DAY)) ->
  barberId later = barberId a -> date later = date a ->
  time later = time a -> findService services (serviceId later) <> None ->
  incl (AppointmentService.docs
          (collection (snd (book_appointment tz barbers services a w))))
       (AppointmentService.docs (collection w2)) ->
  freshEntry w2 (cacheKey later) = None ->
  net w2 = Reply latency :: rest -> 0 <= latency < TOOL_TIMEOUT_MS ->
  fst (book_appointment tz barbers services later w2)
  = Ok (Failure SLOT_TAKEN)
  /\ collection (snd (book_appointment tz barbers services later w2))
     = collection w2.
Proof.
  intros Hok Hfresh Htz Hlen (t & Ht & Hbefore & Hafter) Hb Hd Htime Hservice
         Hincl Hstale Hnet Hlat.
  destruct (BookingOutcomeFacts.book_appointment_cases tz barbers services a w)
    as [(_ & _ & _ & Hdup)|(n & raw & iso & checkAppts & w1 & lat1 & Hrefs
                            & _ & Hfree & _ & _ & _ & Hiso & _ & Hdocs & _)].
  { contradiction (Hfresh (Hdup id message Hok)). }
  destruct (BookingOutcomeFacts.slotFree_on_grid tz a checkAppts Hfree)
    as (slot & Hslot & Hgrid & _).
  assert (Hdate : exists d, date a = Some d).
  { destruct (date a) as [d|]; [exists d; reflexivity|discriminate Hlen]. }
  destruct Hdate as [d Hdate].
  rewrite Hdate, Hslot in *.
  change (tpl (Some d)) with d in *. change (tpl (Some slot)) with slot in *.
  destruct Hrefs as (Htruthy & Hbarber & _).
  destruct (barberId a) as [b|] eqn:Hbid; [|discriminate Htruthy].
  assert (Hb0 : b <> "").
  { intros ->. discriminate Htruthy. }
  set (apt := Booked.appointment a n raw iso (collection w)) in *.
  assert (Hapt : Appointment.barberId apt = b
                 /\ Appointment.date apt = iso
                 /\ Appointment.status apt = pending).
  { subst apt. unfold Booked.appointment.
    cbn [Appointment.barberId Appointment.date Appointment.status].
    rewrite Hbid. auto. }
  destruct Hapt as (Aid & Adate & Astatus).
  assert (Hin : In apt (AppointmentService.docs (collection w2))).
  { apply Hincl. rewrite Hdocs. apply in_or_app. right. left. reflexivity. }
  assert (Hvalid : validRefs barbers services later).
  { unfold validRefs. rewrite Hb. auto. }
  (* the read of the later call returns the appointment *)
  destruct (DayLoadFacts.stored_within_day
              tz d slot iso Htz Hlen (slot_length slot Hgrid)
              (ex_intro _ t (conj Ht (conj Hbefore Hafter))) Hiso)
    as (days & slo & shi & Hday & Hdayof & Elo & Ehi & Hlo & Hhi).
  rewrite <- Adate in Hlo, Hhi.
  destruct (DayLoadFacts.kept_is_loaded
              b _ _ slo shi apt (collection w2) Elo Ehi Aid Hlo Hhi Hin)
    as (loaded & Hload & Hloaded).
  rewrite <- Hdayof in Hload at 1 2.
  rewrite <- (DayLoadFacts.load_bounds tz b d days (collection w2) Hday)
    in Hload.
  assert (Hread : fst (recheckRead tz later w2) = Ok loaded).
  { apply (BookingToolFacts.read_backend tz later w2 latency rest loaded
             Hstale Hnet Hlat).
    rewrite Hb, Hd.
    change (default "" (Some b)) with b. change (default "" (Some d)) with d.
    rewrite Hload. reflexivity. }
  (* in which the slot is taken *)
  assert (Htaken : slotFree tz later loaded = false).
  { apply slotFree_taken. rewrite Hb, Hd, Htime.
    change (tpl (Some slot)) with slot.
    change (default "" (Some b)) with b. change (default "" (Some d)) with d.
    rewrite <- Aid.
    apply (StoredDateFacts.stored_slot_taken tz d slot apt loaded).
    - exists t. split; [exact Ht|].
      unfold Iso.isoRange, JsDate.MS_PER_DAY in *. lia.
    - rewrite Adate. exact Hiso.
    - rewrite Astatus. discriminate.
    - rewrite Aid. exact Hb0.
    - exact Hloaded. }
  destruct (BookingToolFacts.book_after_guards tz barbers services later w2
              Hvalid)
    as [continue (Hbook & Hrefused & _)].
  pose proof (BookingToolFacts.read_frame tz (default "" (barberId later))
                (date later) w2) as Hframe.
  fold (recheckRead tz later) in Hframe.
  rewrite Hbook. unfold bind.
  destruct (recheckRead tz later w2) as [[l|m] w3]; cbn [fst snd] in *;
    [|discriminate Hread].
  injection Hread as ->.
  rewrite (Hrefused loaded w3 Htaken). cbn [fst snd].
  split; [reflexivity|exact (proj1 Hframe)].
Qed.

End Component.
End RebookingFacts.
Module DayLoadExamples.
Import VoiceAgent Salon SalonCases SalonDays.

Lemma stored_appointment_is_loaded_witness :
  exists loaded : list Appointment.t,
    loadAppointmentsForDateRange EET "b1" "2026-01-21" twoAppointments
    = (Some loaded, twoAppointments)
    /\ In tomorrowAtTen loaded.
Proof.
  apply (DayLoadFacts.stored_appointment_is_loaded
           EET "2026-01-21" "10:00" tomorrowAtTen twoAppointments).
  - unfold EET. lia.
  - reflexivity.
  - reflexivity.
  - exists 1768982400000. split; [vm_compute; reflexivity|].
    unfold Iso.isoRange, JsDate.MS_PER_DAY. lia.
  - vm_compute. reflexivity.
  - left. reflexivity.
Defined.

Lemma west_of_utc_day_before_witness :
  exists loaded : list Appointment.t,
    loadAppointmentsForDateRange
      EST "b1" "2026-01-21"
      (AppointmentService.mkCollection [tenInNewYork] 1)
    = (Some loaded, AppointmentService.mkCollection [tenInNewYork] 1)
    /\ ~ In tenInNewYork loaded.
Proof.
  apply (DayLoadFacts.west_of_utc_day_before
           EST "2026-01-21" "10:00" tenInNewYork
           (AppointmentService.mkCollection [tenInNewYork] 1)).
  - unfold EST. lia.
  - reflexivity.
  - reflexivity.
  - exists 1769007600000. split; [vm_compute; reflexivity|].
    unfold Iso.isoRange, JsDate.MS_PER_DAY. lia.
  - vm_compute. reflexivity.
Defined.

Lemma taken_slot_refused_after_expiry_witness :
  fst (book_appointment EET [nalby] [haircut] secondCustomer afterExpiry)
  = Ok (Failure SLOT_TAKEN)
  /\ collection
       (snd (book_appointment EET [nalby] [haircut] secondCustomer
                              afterExpiry))
     = collection afterExpiry.
Proof.
  apply (RebookingFacts.taken_slot_refused_after_expiry
           EET [nalby] [haircut] bookArgs secondCustomer opened afterExpiry
           "doc0"
           (fst (match fst (book opened) with
                 | Ok (Success _ m) => (m, tt)
                 | _ => ("", tt)
                 end))
           100 []).
  - vm_compute. reflexivity.
  - discriminate.
  - unfold EET. lia.
  - reflexivity.
  - exists 1768982400000. split; [vm_compute; reflexivity|].
    unfold Iso.isoRange, JsDate.MS_PER_DAY. lia.
  - reflexivity.
  - reflexivity.
  - reflexivity.
  - discriminate.
  - apply incl_refl.
  - vm_compute. reflexivity.
  - reflexivity.
  - unfold TOOL_TIMEOUT_MS. lia.
Defined.

End DayLoadExamples.

Module DayReadFacts.
Import JsDate AppointmentService.

Lemma civilFromDays_inj (z1 z2 : Z) :
  civilFromDays z1 = civilFromDays z2 -> z1 = z2.
Proof.
  intros H.
  destruct (CalendarFacts.civilFromDays_valid z1) as [_ H1].
  destruct (CalendarFacts.civilFromDays_valid z2) as [_ H2].
  rewrite H in H1. rewrite H1 in H2. exact H2.
Qed.

Lemma existsb_same {A : Type} (f : A -> bool) (l1 l2 : list A) :
  (forall x, f x = true -> (In x l1 <-> In x l2)) ->
  existsb f l1 = existsb f l2.
Proof.
  intros H. apply Bool.eq_iff_eq_true. rewrite !existsb_exists.
  split; intros (x & Hin & Hx); exists x; (split; [|exact Hx]);
    apply (H x Hx); exact Hin.
Qed.

Section Zone.
Variable tz : Z.

(** An appointment that sits on a slot of a day is dated on that day of
    the zone. *)
Lemma occupies_day (barberId : string) (t : Z) (apt : Appointment.t) :
  BookingManager.occupies tz barberId (Some t) apt = true ->
  Appointment.barberId apt = barberId
  /\ exists t', parse tz (Appointment.date apt) = Some t'
                /\ dayOf tz t' = dayOf tz t.
Proof.
  unfold BookingManager.occupies.
  destruct (String.eqb (Appointment.barberId apt) barberId) eqn:Hb;
    cbn [negb orb]; [|discriminate].
  destruct (Status_eqb (Appointment.status apt) cancelled); [discriminate|].
  cbv zeta.
  destruct (parse tz (Appointment.date apt)) as [t'|];
    cbn [option_map numEq andb negb]; [|discriminate].
  unfold getDate, getMonth, getFullYear.
  destruct (civilFromDays (dayOf tz t')) as [[y' m'] d'] eqn:E'.
  destruct (civilFromDays (dayOf tz t)) as [[y m] d] eqn:E.
  cbn [fst snd].
  destruct (d' =? d) eqn:Hd; cbn [andb negb]; [|discriminate].
  destruct (m' - 1 =? m - 1) eqn:Hm; cbn [andb negb]; [|discriminate].
  destruct (y' =? y) eqn:Hy; cbn [andb negb]; [|discriminate].
  intros _. apply String.eqb_eq in Hb. split; [exact Hb|].
  exists t'. split; [reflexivity|].
  apply civilFromDays_inj. rewrite E, E'.
  apply Z.eqb_eq in Hd, Hm, Hy. f_equal; [f_equal|]; lia.
Qed.

(** X29. The read of a day decides as the collection would.  In a zone
    at or east of UTC, when every stored date is an ISO string as the code
    writes them, the appointments [loadAppointmentsForDateRange] returns
    for a barber and a date YYYY-MM-DD give, for every time HH:MM of that
    date, the answer of [isSlotAvailable] that the whole collection gives,
    and the same free slots. *)
Theorem day_read_decides_like_collection (date barberId : string)
        (c : Collection) :
  0 <= tz < 1440 -> String.length date = 10%nat ->
  (exists days,
      parse tz date = Some (days * MS_PER_DAY)
      /\ Iso.isoRange ((days - 1) * MS_PER_DAY)
      /\ Iso.isoRange ((days + 2) * MS_PER_DAY)) ->
  (forall apt, In apt (docs c) -> IsoText.canonical (Appointment.date apt)) ->
  exists loaded : list Appointment.t,
    loadAppointmentsForDateRange tz barberId date c = (Some loaded, c)
    /\ (forall time : string,
           String.length time = 5%nat ->
           BookingManager.isSlotAvailable tz time date barberId loaded
           = BookingManager.isSlotAvailable tz time date barberId (docs c))
    /\ BookingManager.getFreeSlots tz date barberId loaded
       = BookingManager.getFreeSlots tz date barberId (docs c).
Proof.
  intros Htz Hdate (days & Hday & Rbefore & Rafter) Hcanon.
  rewrite (DayLoadFacts.load_bounds tz _ _ days c Hday).
  assert (Hdayof : dayOf tz (days * MS_PER_DAY) = days).
  { unfold dayOf, zoned, MS_PER_DAY, MS_PER_MINUTE. clear -Htz.
    Z.div_mod_to_equations. lia. }
  rewrite Hdayof.
  set (lo := days * MS_PER_DAY - tz * MS_PER_MINUTE).
  assert (Rlo : Iso.isoRange lo)
    by (subst lo; unfold Iso.isoRange, MS_PER_DAY, MS_PER_MINUTE in *; lia).
  assert (Rhi : Iso.isoRange (lo + (MS_PER_DAY - 1)))
    by (subst lo; unfold Iso.isoRange, MS_PER_DAY, MS_PER_MINUTE in *; lia).
  destruct (CalendarFacts.parse_toISOString 0 _ Rlo) as (slo & Elo & _).
  destruct (CalendarFacts.parse_toISOString 0 _ Rhi) as (shi & Ehi & _).
  rewrite (DayLoadFacts.getAppointments_between _ lo _ slo shi c Elo Ehi).
  eexists. split; [reflexivity|].
  assert (Hslot : forall time : string,
             String.length time = 5%nat ->
             BookingManager.isSlotAvailable
               tz time date barberId
               (orderByDate
                  (List.filter
                     (fun a =>
                        (if truthy (Some barberId)
                         then String.eqb (Appointment.barberId a) barberId
                         else true)
                        && String.leb slo (Appointment.date a)
                        && String.leb (Appointment.date a) shi)
                     (docs c)))
             = BookingManager.isSlotAvailable tz time date barberId (docs c)).
  { intros time Htime. unfold BookingManager.isSlotAvailable.
    destruct (String.eqb date "" || String.eqb barberId ""); [reflexivity|].
    cbv zeta. f_equal.
    destruct (parse tz (date ++ "T" ++ time)) as [t|] eqn:Ht.
    - destruct (DayLoadFacts.parse_split tz date time t Hdate Htime Ht)
        as (days' & hm & Hday' & Hhm & ->).
      rewrite Hday in Hday'. injection Hday' as Hsame.
      assert (days' = days) by (unfold MS_PER_DAY in Hsame; lia).
      subst days'. clear Hsame.
      apply existsb_same. intros apt Hocc.
      rewrite (CustomerSearchFacts.In_orderByDate apt _), filter_In.
      split; [intros [Hin _]; exact Hin|].
      intros Hin. split; [exact Hin|].
      destruct (occupies_day _ _ _ Hocc) as (Hb & t' & Hparse & Hsameday).
      destruct (Hcanon apt Hin) as (t'' & Rt & Et).
      destruct (CalendarFacts.parse_toISOString tz t'' Rt) as (iso & Eiso & P).
      rewrite Et in Eiso. injection Eiso as <-.
      rewrite Hparse in P. injection P as ->.
      assert (Hin_day : lo <= t'' <= lo + (MS_PER_DAY - 1)).
      { subst lo. clear -Hsameday Hhm Htz.
        unfold dayOf, zoned, MS_PER_DAY, MS_PER_MINUTE in *.
        Z.div_mod_to_equations. lia. }
      destruct (IsoOrderFacts.toISOString_le _ _ Rlo Rt (proj1 Hin_day))
        as (s1 & s2 & E1 & E2 & Hle1).
      rewrite Elo in E1. rewrite Et in E2.
      injection E1 as <-. injection E2 as <-.
      destruct (IsoOrderFacts.toISOString_le _ _ Rt Rhi (proj2 Hin_day))
        as (s3 & s4 & E3 & E4 & Hle2).
      rewrite Et in E3. rewrite Ehi in E4.
      injection E3 as <-. injection E4 as <-.
      rewrite Hle1, Hle2, Hb.
      destruct (truthy (Some barberId));
        [rewrite String.eqb_refl|]; reflexivity.
    - assert (Hnone : forall l,
                 existsb (BookingManager.occupies tz barberId None) l = false).
      { intros l. induction l as [|a l IH]; [reflexivity|].
        cbn [existsb]. rewrite IH, orb_false_r.
        apply AvailabilityFacts.occupies_invalid_target. }
      rewrite !Hnone. reflexivity. }
  split; [exact Hslot|].
  unfold BookingManager.getFreeSlots. apply filter_ext_in.
  intros slot Hin. apply Hslot, RebookingFacts.slot_length, Hin.
Qed.

End Zone.
End DayReadFacts.
Module DayReadExamples.
Import VoiceAgent Salon SalonCases.

Lemma day_read_decides_like_collection_witness :
  exists loaded : list Appointment.t,
    loadAppointmentsForDateRange EET "b1" "2026-01-21" twoAppointments
    = (Some loaded, twoAppointments)
    /\ (forall time : string,
           String.length time = 5%nat ->
           BookingManager.isSlotAvailable EET time "2026-01-21" "b1" loaded
           = BookingManager.isSlotAvailable
               EET time "2026-01-21" "b1"
               (AppointmentService.docs twoAppointments))
    /\ BookingManager.getFreeSlots EET "2026-01-21" "b1" loaded
       = BookingManager.getFreeSlots
           EET "2026-01-21" "b1" (AppointmentService.docs twoAppointments).
Proof.
  apply (DayReadFacts.day_read_decides_like_collection
           EET "2026-01-21" "b1" twoAppointments).
  - unfold EET. lia.
  - reflexivity.
  - exists 20474. split; [vm_compute; reflexivity|].
    unfold Iso.isoRange, JsDate.MS_PER_DAY. lia.
  - intros apt [<-|[<-|[]]].
    + exists 1768982400000. split; [unfold Iso.isoRange; lia|].
      vm_compute. reflexivity.
    + exists 1768899600000. split; [unfold Iso.isoRange; lia|].
      vm_compute. reflexivity.
Defined.

End DayReadExamples.
Module HybridTalkFacts.
Import Hybrid HybridTurns HybridTalk.

(** The end of an utterance, with what it leaves of the controller. *)
Lemma final_closes (c : Controller) (last : option string) (g : Z)
      (t : string) :
  armedFor c last -> closeGap g -> t <> "" -> blank t = false ->
  turns (run c [Elapse g; Stt t true]) = (turns c ++ [t])%list
  /\ isProcessingRef (run c [Elapse g; Stt t true]) = true
  /\ timers (run c [Elapse g; Stt t true]) = [].
Proof.
  intros Harmed Hgap Htext Hblank.
  unfold run. cbn [fold_left].
  rewrite (HybridFacts.elapse_close c last g Harmed Hgap).
  assert (Hlive : match vadTimeoutRef c with
                  | Some h => clearTimeout h (timers c)
                  | None => timers c
                  end = []).
  { destruct Harmed as [_ Harmed]. destruct last as [t0|].
    - destruct (5 <? Z.of_nat (JsString.length t0)).
      + destruct Harmed as [h [Ht Hr]]. rewrite Hr, Ht. cbn.
        rewrite Nat.eqb_refl. reflexivity.
      + rewrite Harmed. destruct (vadTimeoutRef c); reflexivity.
    - rewrite Harmed. destruct (vadTimeoutRef c); reflexivity. }
  destruct Harmed as [Hproc _].
  cbn [step]. apply String.eqb_neq in Htext. rewrite Htext.
  unfold handleFinalTranscript. cbn [isProcessingRef].
  rewrite Hproc, Hblank. cbn [orb].
  unfold handleTranscript.
  cbn [vadTimeoutRef timers isProcessingRef turns negb andb].
  rewrite andb_false_r. cbn [isProcessingRef turns timers].
  rewrite Hlive. auto.
Qed.

Lemma silence_closes (c : Controller) (t : string) (ms : Z) :
  armedFor c (Some t) -> (5 < JsString.length t)%nat -> blank t = false ->
  SILENCE_MS <= ms ->
  turns (run c [Elapse ms]) = (turns c ++ [t])%list
  /\ isProcessingRef (run c [Elapse ms]) = true
  /\ timers (run c [Elapse ms]) = [].
Proof.
  intros [Hproc Harmed] Hlen Hblank Hms.
  assert (Hlong : (5 <? Z.of_nat (JsString.length t)) = true)
    by (apply Z.ltb_lt; lia).
  rewrite Hlong in Harmed. destruct Harmed as [h [Ht Hr]].
  unfold run. cbn [fold_left step]. unfold advance.
  rewrite Ht. cbn [List.filter due].
  assert (Hdue : (now c + SILENCE_MS <=? now c + Z.max 0 ms) = true).
  { apply Z.leb_le. unfold SILENCE_MS in *. lia. }
  rewrite Hdue. cbn [negb fold_left captured].
  unfold handleFinalTranscript. cbn [isProcessingRef].
  rewrite Hproc, Hblank. cbn. auto.
Qed.

Lemma utterance_closes (c : Controller) (ps : list Partial) (e : Ending) :
  isProcessingRef c = false -> timers c = [] -> wellFormed ps e ->
  turns (run c (utterance ps e)) = (turns c ++ [spoken ps e])%list
  /\ isProcessingRef (run c (utterance ps e)) = true
  /\ timers (run c (utterance ps e)) = [].
Proof.
  intros Hproc Htimers (Hps & Hblank & Hend).
  assert (Harmed0 : armedFor c None) by (split; assumption).
  destruct (HybridFacts.partials_run ps c None Harmed0 Hps) as [Harmed Hturns].
  unfold utterance. rewrite HybridFacts.run_app. rewrite <- Hturns.
  destruct e as [g t|ms]; cbn [ending spoken] in *.
  - destruct Hend as [Hgap Htext].
    exact (final_closes _ _ g t Harmed Hgap Htext Hblank).
  - destruct Hend as (Hms & Hne & Hlen).
    destruct ps as [|p ps]; [congruence|].
    cbn [lastText] in Harmed.
    exact (silence_closes _ _ ms Harmed Hlen Hblank Hms).
Qed.

Lemma busy_run (es : list Event) (c : Controller) :
  isProcessingRef c = true -> forallb keepsBusy es = true ->
  isProcessingRef (run c es) = true /\ turns (run c es) = turns c
  /\ incl (timers (run c es)) (timers c).
Proof.
  revert c. induction es as [|e es IH]; intros c Hbusy Hes.
  - split; [exact Hbusy|]. split; [reflexivity|apply incl_refl].
  - cbn [forallb] in Hes. apply andb_true_iff in Hes.
    destruct Hes as [He Hes].
    destruct (HybridBusyFacts.busy_step c e Hbusy He) as (H1 & H2 & H3).
    destruct (IH (step c e) H1 Hes) as (K1 & K2 & K3).
    unfold run in *. cbn [fold_left].
    split; [exact K1|]. split; [congruence|].
    intros x Hx. apply H3, K3, Hx.
Qed.

Lemma exchange_run (c : Controller) (x : Exchange) :
  isProcessingRef c = false -> timers c = [] -> answered x ->
  turns (run c (exchange x))
  = (turns c ++ [spoken (said x) (closed x)])%list
  /\ isProcessingRef (run c (exchange x)) = false
  /\ timers (run c (exchange x)) = [].
Proof.
  intros Hproc Htimers (Hwell & Hbusy & Hend).
  unfold exchange. rewrite !HybridFacts.run_app.
  destruct (utterance_closes c _ _ Hproc Htimers Hwell) as (T1 & P1 & M1).
  destruct (busy_run (meanwhile x) _ P1 Hbusy) as (P2 & T2 & M2).
  rewrite M1 in M2. apply incl_l_nil in M2.
  rewrite <- T1, <- T2.
  generalize dependent (run (run c (utterance (said x) (closed x)))
                            (meanwhile x)).
  intros c2 _ _ M2.
  unfold run. cbn [fold_left].
  destruct (ended x); try discriminate Hend; cbn; auto.
Qed.

(** X30. One turn for every utterance, in order.  From a controller
    that is not busy and has no timer pending, a conversation in which
    every utterance is answered -- whatever reaches the controller while
    it answers, until the speech ends or the turn fails -- starts exactly
    one turn for each utterance, with its text, and leaves the controller
    ready for the next one. *)
Theorem one_turn_per_utterance (xs : list Exchange) (c : Controller) :
  isProcessingRef c = false -> timers c = [] -> Forall answered xs ->
  turns (run c (conversation xs))
  = (turns c ++ map (fun x => spoken (said x) (closed x)) xs)%list
  /\ isProcessingRef (run c (conversation xs)) = false
  /\ timers (run c (conversation xs)) = [].
Proof.
  intros Hproc Htimers Hall. revert c Hproc Htimers.
  induction Hall as [|x xs Hx _ IH]; intros c Hproc Htimers.
  - cbn. rewrite app_nil_r. auto.
  - change (conversation (x :: xs)) with (exchange x ++ conversation xs)%list.
    rewrite HybridFacts.run_app.
    destruct (exchange_run c x Hproc Htimers Hx) as (T1 & P1 & M1).
    destruct (IH _ P1 M1) as (T2 & P2 & M2).
    split; [|split; assumption].
    rewrite T2, T1. cbn [map]. rewrite <- app_assoc. reflexivity.
Qed.

Lemma one_turn_per_utterance_witness :
  turns (run start (conversation twoExchanges))
  = ["Искам час"; "утре в десет"]
  /\ isProcessingRef (run start (conversation twoExchanges)) = false
  /\ timers (run start (conversation twoExchanges)) = [].
Proof.
  apply (one_turn_per_utterance twoExchanges start eq_refl eq_refl).
  unfold twoExchanges, answered, wellFormed, closeGap, SILENCE_MS.
  constructor; [|constructor; [|constructor]].
  - cbn [said closed meanwhile ended spoken twoPartials List.last text].
    split; [|split; reflexivity].
    split; [|split; [reflexivity|]].
    + constructor; [|constructor; [|constructor]];
        (split; [cbn; lia|discriminate]).
    + split; [lia|]. split; [discriminate|].
      apply Nat.ltb_lt. vm_compute. reflexivity.
  - cbn [said closed meanwhile ended spoken].
    split; [|split; reflexivity].
    split; [constructor|]. split; [reflexivity|].
    split; [lia|discriminate].
Defined.

End HybridTalkFacts.
